(** * GeoDataFrame: a geometry-aware table over pandas

    Shallow embedding of [geopandas/geodataframe.py].  The tabular engine
    (pandas), the geometry library (shapely) and the vector-file library
    (fiona) are collaborators: their documented behaviour is modelled in the
    modules [Pandas], [Shapely] and [Fiona]; the class [GeoDataFrame] itself
    is transcribed method by method in the module [GeoDataFrame]. *)

From Stdlib Require Import ZArith String Ascii List Bool Lia.
From stdpp Require Import base decidable option numbers list gmap strings pretty.

Open Scope string_scope.
Open Scope Z_scope.

(** ** Python values *)

(** Axis labels.  A pandas [Index] holds arbitrary hashable labels; integers
    and strings are the ones the class distinguishes ([basestring]). *)
Inductive label :=
| LInt (z : Z)
| LStr (s : string).

#[global] Instance label_eq_dec : EqDecision label.
Proof. solve_decision. Defined.

#[global] Instance label_countable : Countable label.
Proof.
  refine (inj_countable'
            (fun l => match l with LInt z => inl z | LStr s => inr s end)
            (fun x => match x with inl z => LInt z | inr s => LStr s end) _).
  intros []; reflexivity.
Defined.

(** [str(x)] on a label. *)
Definition str (l : label) : string :=
  match l with
  | LInt z => pretty z
  | LStr s => s
  end.

(** [isinstance(x, basestring)]. *)
Definition is_basestring (l : label) : bool :=
  match l with LStr _ => true | LInt _ => false end.

Module Shapely.

(** The [geom_type] names of shapely's geometry classes. *)
Inductive geom_kind :=
| Point | LineString | LinearRing | Polygon
| MultiPoint | MultiLineString | MultiPolygon | GeometryCollection.

#[global] Instance geom_kind_eq_dec : EqDecision geom_kind.
Proof. solve_decision. Defined.

Definition type_name (k : geom_kind) : string :=
  match k with
  | Point => "Point"
  | LineString => "LineString"
  | LinearRing => "LinearRing"
  | Polygon => "Polygon"
  | MultiPoint => "MultiPoint"
  | MultiLineString => "MultiLineString"
  | MultiPolygon => "MultiPolygon"
  | GeometryCollection => "GeometryCollection"
  end.

(** A geometry object: opaque to the table except for its type name and
    the coordinates handed to [mapping]. *)
Record BaseGeometry := {
  kind : geom_kind;
  coords : list (Z * Z)
}.

#[global] Instance BaseGeometry_eq_dec : EqDecision BaseGeometry.
Proof. solve_decision. Defined.

(** The [__geo_interface__] dictionary:
    [{'type': ..., 'coordinates': ...}]. *)
Record GeoInterface := {
  gi_type : string;
  gi_coordinates : list (Z * Z)
}.

Definition geo_interface (g : BaseGeometry) : GeoInterface :=
  {| gi_type := type_name (kind g); gi_coordinates := coords g |}.

End Shapely.

(** The coordinate-reference-system attribute: [None] or a dictionary such
    as [{'init': 'epsg:4326'}]. *)
Definition crs_t : Type := option (gmap string string).

(** Cell values. *)
Inductive value :=
| VNone
| VNaN
| VInt (z : Z)
| VStr (s : string)
| VGeom (g : Shapely.BaseGeometry)
| VDict (d : gmap string string).

#[global] Instance value_eq_dec : EqDecision value.
Proof. solve_decision. Defined.

(** [pandas.isnull] on a scalar. *)
Definition isnull (v : value) : bool :=
  match v with
  | VNone | VNaN => true
  | _ => false
  end.

(** ** Exceptions and results *)

Inductive exn :=
| ValueError (msg : string)
| KeyError (key : label)
| AttributeError (msg : string)
| TypeError (msg : string).

#[global] Instance exn_eq_dec : EqDecision exn.
Proof. solve_decision. Defined.

Inductive Res (A : Type) :=
| Ok (a : A)
| Raise (e : exn).
Arguments Ok {A} a.
Arguments Raise {A} e.

Definition res_bind {A B} (r : Res A) (k : A -> Res B) : Res B :=
  match r with
  | Ok a => k a
  | Raise e => Raise e
  end.

Fixpoint res_mapM {A B} (f : A -> Res B) (l : list A) : Res (list B) :=
  match l with
  | [] => Ok []
  | x :: l' =>
      res_bind (f x) (fun y => res_bind (res_mapM f l') (fun ys => Ok (y :: ys)))
  end.

(** ** pandas *)

Module Pandas.

(** A [Series]: a labelled vector with an optional name. *)
Record SeriesData := {
  s_name : option label;
  s_index : list label;
  s_values : list value
}.

(** The storage of a [DataFrame]: named columns (order and duplicates
    are significant) over a row index. *)
Record Table := {
  columns : list (label * list value);
  index : list label
}.

#[global] Instance Table_inhabited : Inhabited Table :=
  populate {| columns := []; index := [] |}.

Definition col_labels (t : Table) : list label := (columns t).*1.

Definition nrows (t : Table) : nat := length (index t).

(** [c in frame]. *)
Definition contains (t : Table) (c : label) : bool :=
  bool_decide (c ∈ col_labels t).

(** The columns labelled [c], in table order. *)
Definition named (c : label) (cols : list (label * list value))
  : list (label * list value) :=
  filter (fun p => p.1 = c) cols.

(** [numpy.compress]: keep the positions whose flag is set. *)
Fixpoint compress {A} (bs : list bool) (xs : list A) : list A :=
  match bs, xs with
  | b :: bs', x :: xs' => if b then x :: compress bs' xs' else compress bs' xs'
  | _, _ => []
  end.

Inductive key :=
| KLabel (l : label)
| KList (ls : list label)
| KMask (bs : list bool).

Inductive pdobj :=
| PSeries (s : SeriesData)
| PFrame (t : Table).

(** The sub-table of the columns named in [ls], in the order of [ls]. *)
Definition take_columns (t : Table) (ls : list label) : Table :=
  {| columns := concat (fmap (fun l => named l (columns t)) ls);
     index := index t |}.

(** [DataFrame.__getitem__].  A label naming one column gives a Series,
    a label naming several gives a DataFrame of them; a list of labels
    gives the DataFrame of those columns; a boolean vector filters rows. *)
Definition getitem (t : Table) (k : key) : Res pdobj :=
  match k with
  | KLabel l =>
      match named l (columns t) with
      | [] => Raise (KeyError l)
      | [(_, vs)] =>
          Ok (PSeries {| s_name := Some l; s_index := index t; s_values := vs |})
      | cs => Ok (PFrame {| columns := cs; index := index t |})
      end
  | KList ls =>
      match filter (fun l => contains t l = false) ls with
      | l :: _ => Raise (KeyError l)
      | [] => Ok (PFrame (take_columns t ls))
      end
  | KMask bs =>
      if bool_decide (length bs = nrows t) then
        Ok (PFrame {| columns := fmap (fun p => (p.1, compress bs p.2)) (columns t);
                      index := compress bs (index t) |})
      else Raise (ValueError "Item wrong length")
  end.

(** [frame[c] = values], the values already of the frame's length:
    an existing label is overwritten in place, a new one is appended. *)
Definition setitem (t : Table) (c : label) (vs : list value) : Table :=
  if contains t c then
    {| columns := fmap (fun p => if decide (p.1 = c) then (c, vs) else p) (columns t);
       index := index t |}
  else
    {| columns := columns t ++ [(c, vs)]; index := index t |}.

(** [frame[c] = sequence]: the length must match the index. *)
Definition setitem_seq (t : Table) (c : label) (vs : list value) : Res Table :=
  if bool_decide (length vs = nrows t) then Ok (setitem t c vs)
  else Raise (ValueError "Length of values does not match length of index").

(** [frame[c] = obj] with a scalar (a string, a number, [None]): it is
    stored once per row. *)
Definition setitem_scalar (t : Table) (c : label) (v : value) : Table :=
  setitem t c (replicate (nrows t) v).

(** [Series(d).reindex(idx)] for a dictionary [d] with string keys: a
    dictionary is not a scalar but a labelled vector, its keys the labels.
    A row whose label is a key gets that key's value, any other row NaN. *)
Definition reindex_dict (d : gmap string string) (idx : list label) : list value :=
  fmap (fun l => match l with
                 | LStr s => match d !! s with
                             | Some v => VStr v
                             | None => VNaN
                             end
                 | LInt _ => VNaN
                 end) idx.

(** [frame[c] = obj] where [obj] is a CRS attribute: [None] is a scalar,
    a dictionary is aligned on the row index. *)
Definition setitem_crs (t : Table) (c : label) (obj : crs_t) : Table :=
  match obj with
  | None => setitem_scalar t c VNone
  | Some d => setitem t c (reindex_dict d (index t))
  end.

(** [frame.drop(lbl, inplace=True)].  The signature is
    [drop(labels, axis=0, level=None, inplace=False)]: with [axis] left
    at its default the label is looked up in the ROW index.  On a unique
    index a label that is absent raises; on an index with duplicates the
    rows are filtered and nothing is raised. *)
Definition drop (t : Table) (lbl : label) : Res Table :=
  let keep := fmap (fun i => bool_decide (i <> lbl)) (index t) in
  let t' := {| columns := fmap (fun p => (p.1, compress keep p.2)) (columns t);
               index := compress keep (index t) |} in
  if bool_decide (NoDup (index t)) then
    if bool_decide (lbl ∈ index t) then Ok t'
    else Raise (ValueError "labels not contained in axis")
  else Ok t'.

(** [del frame[c]]. *)
Definition delitem (t : Table) (c : label) : Res Table :=
  if contains t c then
    Ok {| columns := filter (fun p => p.1 <> c) (columns t); index := index t |}
  else Raise (KeyError c).

(** [Index.__getitem__] with a scalar: integers index by position
    (negative ones from the end); anything else is an error. *)
Definition index_getitem (ls : list label) (k : label) : option label :=
  match k with
  | LInt z =>
      let n := Z.of_nat (length ls) in
      if bool_decide (0 <= z < n) then ls !! Z.to_nat z
      else if bool_decide (- n <= z < 0) then ls !! Z.to_nat (n + z)
      else None
  | LStr _ => None
  end.

(** [frame.iterrows()]: the index label of each row with the row as a
    Series over the column labels. *)
Definition row (t : Table) (i : nat) (lbl : label) : SeriesData :=
  {| s_name := Some lbl;
     s_index := col_labels t;
     s_values := fmap (fun p => default VNaN (p.2 !! i)) (columns t) |}.

Definition iterrows (t : Table) : list (label * SeriesData) :=
  imap (fun i lbl => (lbl, row t i lbl)) (index t).

(** [series.iteritems()]. *)
Definition iteritems (s : SeriesData) : list (label * value) :=
  zip (s_index s) (s_values s).

(** [series.to_dict()]: a later duplicate label wins. *)
Definition to_dict (s : SeriesData) : gmap label value :=
  foldl (fun d kv => <[kv.1 := kv.2]> d) ∅ (iteritems s).

(** [series.isnull()]. *)
Definition series_isnull (s : SeriesData) : list bool :=
  fmap isnull (s_values s).

(** [series.dropna()]. *)
Definition dropna (s : SeriesData) : SeriesData :=
  let keep := fmap negb (series_isnull s) in
  {| s_name := s_name s;
     s_index := compress keep (s_index s);
     s_values := compress keep (s_values s) |}.

(** [series[k]]: the scalar under a label borne once, a sub-Series
    under a label borne several times. *)
Inductive at_label :=
| Scalar (v : value)
| SubSeries (vs : list value).

Definition series_getitem (s : SeriesData) (k : label) : Res at_label :=
  match filter (fun kv => kv.1 = k) (iteritems s) with
  | [] => Raise (KeyError k)
  | [(_, v)] => Ok (Scalar v)
  | kvs => Ok (SubSeries kvs.*2)
  end.

(** [series.unique()]: first occurrences, in order. *)
Fixpoint unique `{EqDecision A} (l : list A) : list A :=
  match l with
  | [] => []
  | x :: l' => x :: filter (fun y => y <> x) (unique l')
  end.

(** The dtypes the schema conversion distinguishes. *)
Inductive dtype := int64 | float64 | object.

Definition is_int (v : value) : bool :=
  match v with VInt _ => true | _ => false end.
Definition is_number (v : value) : bool :=
  match v with VInt _ | VNaN => true | _ => false end.

(** dtype inference on a column's values. *)
Definition dtype_of (vs : list value) : dtype :=
  if forallb is_int vs then int64
  else if forallb is_number vs then float64
  else object.

Definition dtypes (t : Table) : list dtype :=
  fmap (fun p => dtype_of p.2) (columns t).

End Pandas.

(** ** Records written by the exports *)

(** The dictionary built by the [feature] closures:
    [{'id': ..., 'type': 'Feature', 'properties': {...}, 'geometry': ...}]. *)
Record Feature := {
  f_id : string;
  f_type : string;
  f_properties : gmap label value;
  f_geometry : Shapely.GeoInterface
}.

Module Fiona.

(** [{'geometry': geom_type, 'properties': OrderedDict(...)}]. *)
Record Schema := {
  sch_geometry : string;
  sch_properties : list (label * string)
}.

(** What reaches the vector-file library, in order. *)
Inductive event :=
| Open (filename driver : string) (crs : crs_t) (schema : Schema)
| Write (rec : Feature)
| Close.

End Fiona.

(** ** The interpreter state and its monad *)

(** A [GeoDataFrame] instance: a reference to its block storage and the two
    attributes listed in [_metadata]. *)
Record Frame := {
  _data : nat;
  crs : crs_t;
  _geometry_column_name : label
}.

(** Block storages live in a heap (address = position; allocation appends);
    the file system is the log of calls into fiona. *)
Record State := {
  heap : list Pandas.Table;
  files : list Fiona.event
}.

Definition M (A : Type) : Type := State -> Res A * State.

Definition ret {A} (a : A) : M A := fun st => (Ok a, st).
Definition raise {A} (e : exn) : M A := fun st => (Raise e, st).
Definition lift {A} (r : Res A) : M A := fun st => (r, st).
Definition bind {A B} (m : M A) (k : A -> M B) : M B :=
  fun st =>
    match m st with
    | (Ok a, st') => k a st'
    | (Raise e, st') => (Raise e, st')
    end.

Declare Scope py_scope.
Delimit Scope py_scope with py.
Notation "x <- m ;; k" := (bind m (fun x => k))
  (at level 100, m at next level, right associativity) : py_scope.
Notation "m ;;; k" := (bind m (fun _ => k))
  (at level 100, right associativity) : py_scope.
Open Scope py_scope.

Definition table_at (st : State) (a : nat) : Pandas.Table := heap st !!! a.

Definition read (a : nat) : M Pandas.Table := fun st => (Ok (table_at st a), st).
Definition write (a : nat) (t : Pandas.Table) : M unit :=
  fun st => (Ok tt, {| heap := <[a := t]> (heap st); files := files st |}).
Definition alloc (t : Pandas.Table) : M nat :=
  fun st => (Ok (length (heap st)), {| heap := heap st ++ [t]; files := files st |}).
Definition emit (e : Fiona.event) : M unit :=
  fun st => (Ok tt, {| heap := heap st; files := files st ++ [e] |}).

(** The table a frame currently denotes. *)
Definition table_of (st : State) (f : Frame) : Pandas.Table := table_at st (_data f).

(** ** json *)

Module Json.

(** The document [json.dumps] serialises, token by token: [None] becomes
    [null], a float NaN becomes the non-standard token [NaN]. *)
#[warnings="-register-all"]
Inductive json :=
| JNull
| JNaN
| JInt (z : Z)
| JStr (s : string)
| JArr (items : list json)
| JObj (fields : list (string * json)).

(** The text of a scalar token. *)
Definition token (j : json) : option string :=
  match j with
  | JNull => Some "null"
  | JNaN => Some "NaN"
  | JInt z => Some (pretty z)
  | _ => None
  end.

(** Member access on an object. *)
Definition field (k : string) (j : json) : option json :=
  match j with
  | JObj fields => snd <$> find (fun kv => bool_decide (kv.1 = k)) fields
  | _ => None
  end.

Definition keys (j : json) : list string :=
  match j with
  | JObj fields => fields.*1
  | _ => []
  end.

(** A cell value as json; geometry objects are not serialisable. *)
Definition dumps_value (v : value) : Res json :=
  match v with
  | VNone => Ok JNull
  | VNaN => Ok JNaN
  | VInt z => Ok (JInt z)
  | VStr s => Ok (JStr s)
  | VDict d => Ok (JObj (fmap (fun kv => (kv.1, JStr kv.2)) (map_to_list d)))
  | VGeom _ => Raise (TypeError "is not JSON serializable")
  end.

Definition dumps_geometry (g : Shapely.GeoInterface) : json :=
  JObj [ ("type", JStr (Shapely.gi_type g));
         ("coordinates",
           JArr (fmap (fun xy => JArr [JInt xy.1; JInt xy.2])
                     (Shapely.gi_coordinates g))) ].

(** A properties dictionary; keys are rendered with [str]. *)
Definition dumps_properties (d : gmap label value) : Res json :=
  res_bind
    (res_mapM (fun kv => res_bind (dumps_value kv.2) (fun j => Ok (str kv.1, j)))
              (map_to_list d))
    (fun fields => Ok (JObj fields)).

Definition dumps_feature (f : Feature) : Res json :=
  res_bind (dumps_properties (f_properties f)) (fun props =>
    Ok (JObj [ ("id", JStr (f_id f));
               ("type", JStr (f_type f));
               ("properties", props);
               ("geometry", dumps_geometry (f_geometry f)) ])).

(** [json.dumps({'type': ty, 'features': features})]. *)
Definition dumps (ty : string) (features : list Feature) : Res json :=
  res_bind (res_mapM dumps_feature features) (fun fs =>
    Ok (JObj [ ("type", JStr ty); ("features", JArr fs) ])).

End Json.

(** ** The class *)

(** Runtime classes of the objects column selection hands back. *)
Inductive pyclass := cSeries | cGeoSeries | cDataFrame | cGeoDataFrame.

#[global] Instance pyclass_eq_dec : EqDecision pyclass.
Proof. solve_decision. Defined.

(** The object returned by [__getitem__]: the pandas object, the class its
    [__class__] slot holds on return, and the [crs] attribute when one was
    attached. *)
Record Selected := {
  sel_class : pyclass;
  sel_obj : Pandas.pdobj;
  sel_crs : option crs_t
}.

(** [isinstance(x, Series)]: [GeoSeries] derives from [Series]. *)
Definition isinstance_Series (x : Selected) : bool :=
  match sel_class x with
  | cSeries | cGeoSeries => true
  | _ => false
  end.

(** The values a selected object contributes when assigned to a column of
    the frame it was taken from (same index, so no realignment). *)
Definition sel_values (x : Selected) : list value :=
  match sel_obj x with
  | Pandas.PSeries s => Pandas.s_values s
  | Pandas.PFrame _ => []
  end.

(** The argument of [set_geometry]: a raw sequence
    ([isinstance(col, (list, np.ndarray, Series))]) or a column reference. *)
Inductive geom_arg :=
| ArgSeq (level : list value)
| ArgCol (col : label).

(** What [DataFrame.__init__] is given: fresh data, or an existing block
    storage, which it adopts without copying. *)
Inductive data_arg :=
| DataNew (t : Pandas.Table)
| DataMgr (a : nat).

Module GeoDataFrame.

Import Pandas.

(** The class attribute [_geometry_column_name = 'geometry']. *)
Definition default_geometry_column_name : label := LStr "geometry".

(** [isinstance(key, basestring) and key == geo_col_name]. *)
Definition key_is_geometry (key : Pandas.key) (geo_col_name : label) : bool :=
  match key with
  | KLabel l => is_basestring l && bool_decide (l = geo_col_name)
  | _ => false
  end.

Definition must_pass_geometry (name : label) : exn :=
  ValueError ("Must either pass geometry explicitly or includea column called "
                +:+ str name).

(** The [_constructor] property returns the class itself, and pandas
    builds every table it derives from a frame with
    [self._constructor(data)]: here [GeoDataFrame(data)].  The new
    instance has the class default geometry-column name when the last
    statement of [__init__] makes its check, so a derived table without a
    column of that name is refused. *)
Definition _constructor (data : Table) : Res Table :=
  if contains data default_geometry_column_name then Ok data
  else Raise (must_pass_geometry default_geometry_column_name).

(** [super().__getitem__(key)]: a selection that is a table (a list of
    labels, a boolean mask, a label borne by several columns) is built by
    [_constructor]; a single column is a Series. *)
Definition super_getitem (t : Table) (key : Pandas.key) : Res pdobj :=
  res_bind (Pandas.getitem t key) (fun result =>
    match result with
    | PFrame rt => res_bind (_constructor rt) (fun rt => Ok (PFrame rt))
    | PSeries s => Ok (PSeries s)
    end).

(** [__getitem__].  [super().__getitem__(key)] makes a new object; the
    method then sets its [__class__] and either its [crs] attribute or, for
    a table without the geometry column, its column [crs]. *)
Definition __getitem__ (self : Frame) (key : Pandas.key) : M Selected :=
  let geo_col_name := _geometry_column_name self in
  t <- read (_data self);;
  result <- lift (super_getitem t key);;
  if key_is_geometry key geo_col_name then
    ret {| sel_class := cGeoSeries; sel_obj := result; sel_crs := Some (crs self) |}
  else
    match result with
    | PFrame rt =>
        if contains rt geo_col_name then
          ret {| sel_class := cGeoDataFrame; sel_obj := PFrame rt;
                 sel_crs := Some (crs self) |}
        else
          ret {| sel_class := cDataFrame;
                 sel_obj := PFrame (setitem_crs rt (LStr "crs") (crs self));
                 sel_crs := None |}
    | PSeries s =>
        ret {| sel_class := cSeries; sel_obj := result; sel_crs := None |}
    end.

(** The [geometry] property (getter). *)
Definition geometry (self : Frame) : M Selected :=
  __getitem__ self (KLabel (_geometry_column_name self)).

(** [__init__], first half: [super().__init__(...)] and [self.crs = crs].
    The instance starts with the class default geometry-column name. *)
Definition init_table (data : data_arg) (crs0 : crs_t) : M Frame :=
  a <- match data with
       | DataNew t => alloc t
       | DataMgr a => ret a
       end;;
  ret {| _data := a; crs := crs0;
         _geometry_column_name := default_geometry_column_name |}.

(** [__init__], last statement: the geometry column must be there. *)
Definition init_check (self : Frame) : M Frame :=
  t <- read (_data self);;
  if contains t (_geometry_column_name self) then ret self
  else raise (must_pass_geometry (_geometry_column_name self)).

(** [__finalize__]: copy the [_metadata] attributes from [other]. *)
Definition __finalize__ (self other : Frame) : Frame :=
  {| _data := _data self;
     crs := crs other;
     _geometry_column_name := _geometry_column_name other |}.

(** [copy]: [GeoDataFrame(data).__finalize__(self)], the constructor being
    called with neither [crs] nor [geometry]. *)
Definition copy (self : Frame) (deep : bool) : M Frame :=
  data <- (if deep then (t <- read (_data self);; alloc t)
           else ret (_data self));;
  new <- init_table (DataMgr data) None;;
  new <- init_check new;;
  ret (__finalize__ new self).

Definition setitem_m (frame : Frame) (c : label) (vs : list value) : M unit :=
  t <- read (_data frame);;
  t' <- lift (setitem_seq t c vs);;
  write (_data frame) t'.

Definition drop_m (frame : Frame) (lbl : label) : M unit :=
  t <- read (_data frame);;
  t' <- lift (Pandas.drop t lbl);;
  write (_data frame) t'.

Definition delitem_m (frame : Frame) (c : label) : M unit :=
  t <- read (_data frame);;
  t' <- lift (Pandas.delitem t c);;
  write (_data frame) t'.

Definition with_geometry_column_name (frame : Frame) (col : label) : Frame :=
  {| _data := _data frame; crs := crs frame; _geometry_column_name := col |}.

(** [set_geometry].  The frame operated on is returned in both modes: with
    [inplace] it is [self] after the update (the method itself returns
    [None]), otherwise the copy.  The message of the ambiguity error is
    given without the rendering of the offending object. *)
Definition set_geometry (self : Frame) (col : geom_arg) (drop inplace : bool)
  : M Frame :=
  frame <- (if inplace then ret self else copy self true);;
  match col with
  | ArgSeq level =>
      setitem_m frame (_geometry_column_name frame) level;;;
      ret frame
  | ArgCol col =>
      tf <- read (_data frame);;
      ts <- read (_data self);;
      let col :=
        if contains tf col then col
        else match index_getitem (col_labels ts) col with
             | Some c => c
             | None => col
             end in
      level <- __getitem__ frame (KLabel col);;
      if negb (isinstance_Series level) then
        raise (ValueError "Ambiguous column name")
      else if drop then
        if bool_decide (col <> _geometry_column_name frame) then
          setitem_m frame (_geometry_column_name frame) (sel_values level);;;
          drop_m frame col;;;
          ret frame
        else ret frame
      else
        ret (with_geometry_column_name frame col)
  end.

(** [__init__] up to and including the promotion of the [geometry]
    argument. *)
Definition init_promote (data : data_arg) (crs0 : crs_t)
    (geometry0 : option geom_arg) : M Frame :=
  self <- init_table data crs0;;
  match geometry0 with
  | Some g => set_geometry self g true true
  | None => ret self
  end.

(** [__init__]. *)
Definition __init__ (data : data_arg) (crs0 : crs_t) (geometry0 : option geom_arg)
  : M Frame :=
  self <- init_promote data crs0 geometry0;;
  init_check self.

Definition use_set_geometry : exn :=
  ValueError "Use set_geometry() to set an existing column as geometry".

(** [col in self] for what the setter may be handed: the membership test
    hashes its operand, which a list, an array or a Series does not
    allow. *)
Definition arg_in (t : Table) (col : geom_arg) : Res bool :=
  match col with
  | ArgCol c => Ok (contains t c)
  | ArgSeq _ => Raise (TypeError "unhashable type")
  end.

(** The function decorated with [@geometry.setter]. *)
Definition geometry_setter (self : Frame) (col : geom_arg) : M Frame :=
  t <- read (_data self);;
  b <- lift (arg_in t col);;
  if b then raise use_set_geometry
  else set_geometry self col true true.

(** *** The class namespace

    [@property def geometry] binds the name [geometry] to a property with
    a getter only.  [@geometry.setter def geometry_setter] evaluates
    [geometry.setter(f)], a NEW property with the same getter and [f] as
    setter, and binds it to the name of the decorated function. *)
Record property := {
  fget : option (Frame -> M Selected);
  fset : option (Frame -> geom_arg -> M Frame)
}.

Definition property_of (getter : Frame -> M Selected) : property :=
  {| fget := Some getter; fset := None |}.

Definition setter (p : property) (f : Frame -> geom_arg -> M Frame) : property :=
  {| fget := fget p; fset := Some f |}.

(** The namespace after the class body has run, one binding per
    statement, in order. *)
Definition class_namespace : gmap string property :=
  let ns := <["geometry" := property_of geometry]> ∅ in
  let geometry_prop := default (property_of geometry) (ns !! "geometry") in
  <["geometry_setter" := setter geometry_prop geometry_setter]> ns.

Definition class_lookup (name : string) : option property :=
  class_namespace !! name.

(** [object.__setattr__(self, name, value)] for the properties of the
    class: a data descriptor's [__set__] is called; a property without a
    setter refuses the assignment. *)
Definition object_setattr (self : Frame) (name : string) (v : geom_arg) : M Frame :=
  match class_lookup name with
  | Some p =>
      match fset p with
      | Some f => f self v
      | None => raise (AttributeError "can't set attribute")
      end
  | None => ret self
  end.

(** The Python object a column reference is, as the content of a cell. *)
Definition label_value (l : label) : value :=
  match l with
  | LInt z => VInt z
  | LStr s => VStr s
  end.

(** [self[c] = value] for what an attribute assignment may carry: a
    sequence must have the length of the index, a string or a number is
    stored once per row. *)
Definition setitem_arg (frame : Frame) (c : label) (v : geom_arg) : M unit :=
  match v with
  | ArgSeq level => setitem_m frame c level
  | ArgCol l =>
      t <- read (_data frame);;
      write (_data frame) (setitem_scalar t c (label_value l))
  end.

(** [self.name = value], which pandas intercepts ([NDFrame.__setattr__]),
    for the properties of the class (neither is in [_metadata]).  The
    attribute is read first; an AttributeError or TypeError of that read
    hands the assignment to [object.__setattr__], any other error goes to
    the caller.  Then, when a column bears the attribute's name, the value
    is assigned to that column, and only otherwise does
    [object.__setattr__] decide. *)
Definition __setattr__ (self : Frame) (name : string) (v : geom_arg) : M Frame :=
  match class_lookup name ≫= fget with
  | Some getter => fun st =>
      match getter self st with
      | (Ok existing, st1) =>
          (t <- read (_data self);;
           if contains t (LStr name) then
             setitem_arg self (LStr name) v;;;
             ret self
           else object_setattr self name v) st1
      | (Raise (AttributeError _), st1) | (Raise (TypeError _), st1) =>
          object_setattr self name v st1
      | (Raise e, st1) => (Raise e, st1)
      end
  | None => object_setattr self name v
  end.

(** *** GeoJSON export *)

(** What an [na] method returns: a Series or a plain dictionary. *)
Inductive dict_like :=
| RowSeries (s : SeriesData)
| RowDict (d : gmap label value).

Definition fill_none (row : SeriesData) : gmap label value :=
  let na_keys := compress (series_isnull row) (s_index row) in
  let d := to_dict row in
  foldl (fun d k => <[k := VNone]> d) d na_keys.

Definition na_methods (na : string) : option (SeriesData -> dict_like) :=
  if decide (na = "null") then Some (fun row => RowDict (fill_none row))
  else if decide (na = "drop") then Some (fun row => RowSeries (dropna row))
  else if decide (na = "keep") then Some (fun row => RowSeries row)
  else None.

(** [row.iteritems()]. *)
Definition row_items (row : dict_like) : list (label * value) :=
  match row with
  | RowSeries s => iteritems s
  | RowDict d => map_to_list d
  end.

(** [row[k]]. *)
Definition row_getitem (row : dict_like) (k : label) : Res at_label :=
  match row with
  | RowSeries s => series_getitem s k
  | RowDict d =>
      match d !! k with
      | Some v => Ok (Scalar v)
      | None => Raise (KeyError k)
      end
  end.

(** [{k: v for k, v in items if k != geo_col_name}]. *)
Definition properties_of (items : list (label * value)) (geo_col_name : label)
  : gmap label value :=
  foldl (fun d kv => <[kv.1 := kv.2]> d) ∅
        (filter (fun kv => kv.1 <> geo_col_name) items).

(** [shapely.geometry.mapping(ob)], that is [ob.__geo_interface__]. *)
Definition mapping (ob : at_label) : Res Shapely.GeoInterface :=
  match ob with
  | Scalar (VGeom g) => Ok (Shapely.geo_interface g)
  | _ => Raise (AttributeError "__geo_interface__")
  end.

(** The closure [feature(i, row)], the [na] method [f] applied first. *)
Definition feature (geo_col_name : label) (f : SeriesData -> dict_like)
    (i : label) (row : SeriesData) : Res Feature :=
  let row := f row in
  res_bind (row_getitem row geo_col_name) (fun cell =>
  res_bind (mapping cell) (fun g =>
    Ok {| f_id := str i;
          f_type := "Feature";
          f_properties := properties_of (row_items row) geo_col_name;
          f_geometry := g |})).

(** [to_json]; the keyword arguments passed on to [json.dumps] are left
    at their defaults, and the text is represented by its tokens. *)
Definition to_json (self : Frame) (na : string) : M Json.json :=
  match na_methods na with
  | None => raise (ValueError ("Unknown na method " +:+ na))
  | Some f =>
      t <- read (_data self);;
      features <- lift (res_mapM (fun ir => feature (_geometry_column_name self) f ir.1 ir.2)
                                 (iterrows t));;
      lift (Json.dumps "FeatureCollection" features)
  end.

(** *** Export to a vector file *)

(** Modelled from the spec: [GeoSeries.geom_type]; the module
    [geopandas/geoseries.py] is not among the sources.  It is the geometry
    library's shape-category introspection applied to every value of the
    column; an object that is not a geometry has no type to report, and
    only a [GeoSeries] has the attribute at all. *)
Definition geom_type (g : Selected) : Res (list string) :=
  match sel_class g, sel_obj g with
  | cGeoSeries, PSeries s =>
      res_mapM (fun v => match v with
                         | VGeom x => Ok (Shapely.type_name (Shapely.kind x))
                         | _ => Raise (AttributeError "type")
                         end)
               (s_values s)
  | _, _ => Raise (AttributeError "geom_type")
  end.

(** The common prefix of two strings, and [os.path.commonprefix]. *)
Fixpoint common_prefix (a b : string) : string :=
  match a, b with
  | String x a', String y b' =>
      if decide (x = y) then String x (common_prefix a' b') else ""
  | _, _ => ""
  end.

Definition commonprefix (m : list string) : string :=
  match m with
  | [] => ""
  | s :: m' => foldl common_prefix s m'
  end.

Definition convert_type (in_type : dtype) : string :=
  match in_type with
  | object => "str"
  | int64 => "int"
  | float64 => "float"
  end.

(** [OrderedDict(pairs)]: a repeated key keeps its first position and
    takes the last value. *)
Fixpoint ordered_put (k : label) (v : string) (d : list (label * string))
  : list (label * string) :=
  match d with
  | [] => [(k, v)]
  | (k', v') :: d' =>
      if decide (k' = k) then (k, v) :: d' else (k', v') :: ordered_put k v d'
  end.

Definition OrderedDict (pairs : list (label * string)) : list (label * string) :=
  foldl (fun d kv => ordered_put kv.1 kv.2 d) [] pairs.

Definition mixed_geometry_types : exn :=
  ValueError
    "Geometry column cannot contains mutiple geometry types when writing to file.".

(** [for i, row in self.iterrows(): c.write(feature(i, row))]. *)
Fixpoint write_rows (geo_col_name : label) (rows : list (label * SeriesData))
  : M unit :=
  match rows with
  | [] => ret tt
  | (i, row) :: rest =>
      rec <- lift (feature geo_col_name RowSeries i row);;
      emit (Fiona.Write rec);;;
      write_rows geo_col_name rest
  end.

(** [with fiona.open(...) as c: body]: the collection is closed on every
    exit from the body. *)
Definition with_open (filename driver : string) (crs0 : crs_t)
    (schema : Fiona.Schema) (body : M unit) : M unit :=
  emit (Fiona.Open filename driver crs0 schema);;;
  fun st =>
    let '(r, st') := body st in
    (r, {| heap := heap st'; files := files st' ++ [Fiona.Close] |}).

Section ToFile.

(** [os.path.abspath(os.path.expanduser(filename))] depends on the
    process environment. *)
Variable abspath_expanduser : string -> string.

Definition to_file (self : Frame) (filename driver : string) : M unit :=
  let geo_col_name := _geometry_column_name self in
  t <- read (_data self);;
  let properties :=
    OrderedDict
      (filter (fun ct => ct.1 <> geo_col_name)
              (zip (col_labels t) (fmap convert_type (dtypes t)))) in
  g <- geometry self;;
  names <- lift (geom_type g);;
  let geom_types := unique names in
  let geom_type := String.rev (commonprefix (fmap String.rev geom_types)) in
  if decide (geom_type = "") then raise mixed_geometry_types
  else
    let schema := {| Fiona.sch_geometry := geom_type;
                     Fiona.sch_properties := properties |} in
    let filename := abspath_expanduser filename in
    with_open filename driver (crs self) schema
              (write_rows geo_col_name (iterrows t)).

End ToFile.

End GeoDataFrame.

(** ** Sample tables *)

Module Samples.

Import Pandas.

Definition point (x y : Z) : value :=
  VGeom {| Shapely.kind := Shapely.Point; Shapely.coords := [(x, y)] |}.

Definition triangle : value :=
  VGeom {| Shapely.kind := Shapely.Polygon;
           Shapely.coords := [(0, 0); (1, 0); (1, 1)] |}.

Definition two_points : value :=
  VGeom {| Shapely.kind := Shapely.MultiPoint;
           Shapely.coords := [(0, 0); (1, 1)] |}.

Definition epsg4326 : crs_t := Some {[ "init" := "epsg:4326" ]}.

Definition no_state : State := {| heap := []; files := [] |}.

(** A table with a second geometry-valued column. *)
Definition boros : Table :=
  {| columns := [ (LStr "geometry", [point 0 0; point 1 1]);
                  (LStr "simplified_geometry", [point 5 5; point 6 6]);
                  (LStr "BoroName", [VStr "Queens"; VStr "Bronx"]) ];
     index := [LInt 0; LInt 1] |}.

Definition boros_frame : Frame :=
  {| _data := 0; crs := epsg4326; _geometry_column_name := LStr "geometry" |}.

Definition boros_state : State := {| heap := [boros]; files := [] |}.

(** A table whose geometry lives in a column called [location], with no
    column called [geometry]. *)
Definition located : Table :=
  {| columns := [ (LStr "location", [point 0 0; point 1 1]);
                  (LStr "A", [VInt 0; VInt 1]) ];
     index := [LInt 0; LInt 1] |}.

Definition located_frame : Frame :=
  {| _data := 0; crs := epsg4326; _geometry_column_name := LStr "location" |}.

Definition located_state : State := {| heap := [located]; files := [] |}.

(** How such a frame comes about: construct with both columns, name
    [location] the geometry column without dropping, delete [geometry]. *)
Definition located_script : M Frame :=
  self <- GeoDataFrame.__init__
            (DataNew {| columns := (LStr "geometry", [point 9 9; point 8 8])
                                     :: columns located;
                        index := index located |})
            epsg4326 None;;
  self <- GeoDataFrame.set_geometry self (ArgCol (LStr "location")) false true;;
  GeoDataFrame.delitem_m self (LStr "geometry");;;
  ret self.

(** The table of that script before the deletion: the geometry lives in
    [location], and the column [geometry] is still there. *)
Definition both_columns : Table :=
  {| columns := (LStr "geometry", [point 9 9; point 8 8]) :: columns located;
     index := index located |}.

(** The table of the mixed-types test: a point and a polygon. *)
Definition point_and_polygon : Table :=
  {| columns := [ (LStr "geometry", [point 0 0; triangle]) ];
     index := [LInt 0; LInt 1] |}.

(** A point and a multi-point. *)
Definition point_and_multipoint : Table :=
  {| columns := [ (LStr "geometry", [point 0 0; two_points]) ];
     index := [LInt 0; LInt 1] |}.

(** Two boroughs with a missing area and a missing remark. *)
Definition nybb : Table :=
  {| columns := [ (LStr "BoroName", [VStr "Queens"; VStr "Bronx"]);
                  (LStr "Shape_Area", [VNaN; VInt 42]);
                  (LStr "Remark", [VStr "ok"; VNone]);
                  (LStr "geometry", [point 0 0; point 1 1]) ];
     index := [LInt 0; LInt 1] |}.

(** Rows 2 and 4 of a longer table, as a boolean selection leaves them. *)
Definition five_rows : Table :=
  {| columns := [ (LStr "geometry",
                   [point 0 0; point 1 1; point 2 2; point 3 3; point 4 4]);
                  (LStr "BoroName",
                   [VStr "Staten Island"; VStr "Queens"; VStr "Brooklyn";
                    VStr "Manhattan"; VStr "Bronx"]) ];
     index := [LInt 0; LInt 1; LInt 2; LInt 3; LInt 4] |}.

Definition rows_2_and_4 : Table :=
  {| columns := [ (LStr "geometry", [point 2 2; point 4 4]);
                  (LStr "BoroName", [VStr "Brooklyn"; VStr "Bronx"]) ];
     index := [LInt 2; LInt 4] |}.

(** Two columns under one label. *)
Definition twice_a : Table :=
  {| columns := [ (LStr "a", [VNaN]); (LStr "a", [VInt 1]);
                  (LStr "geometry", [point 0 0]) ];
     index := [LInt 0] |}.

(** A table whose geometry column is labelled by the integer 0. *)
Definition integer_labels : Table :=
  {| columns := [ (LInt 0, [point 0 0; point 1 1]);
                  (LStr "geometry", [point 5 5; point 6 6]) ];
     index := [LInt 0; LInt 1] |}.



(** A table whose second geometry is missing. *)
Definition missing_geometry : Table :=
  {| columns := [ (LStr "geometry", [point 0 0; VNone]);
                  (LStr "BoroName", [VStr "Queens"; VStr "Bronx"]) ];
     index := [LInt 0; LInt 1] |}.

(** A table without rows. *)
Definition no_rows : Table :=
  {| columns := [ (LStr "geometry", []); (LStr "BoroName", []) ];
     index := [] |}.

Definition integer_frame : Frame :=
  {| _data := 0; crs := epsg4326; _geometry_column_name := LInt 0 |}.

Definition plain_frame : Frame :=
  {| _data := 0; crs := None; _geometry_column_name := LStr "geometry" |}.

Definition state_of (t : Table) : State := {| heap := [t]; files := [] |}.

End Samples.

(** ** Vocabulary of the statements *)

Definition first_letter (s : string) : option ascii :=
  match s with
  | String c _ => Some c
  | EmptyString => None
  end.

Definition last_letter (s : string) : option ascii := first_letter (String.rev s).

(** The type name of a geometry value. *)
Definition geom_type_name (g : Shapely.BaseGeometry) : string :=
  Shapely.type_name (Shapely.kind g).

Definition is_geometry (v : value) : Prop :=
  match v with VGeom _ => True | _ => False end.

#[global] Instance is_geometry_dec v : Decision (is_geometry v).
Proof. destruct v; cbn; apply _. Defined.

(** The cells of row [i], one per column, as [iterrows] delivers them. *)
Definition cells (t : Pandas.Table) (i : nat) : list (label * value) :=
  (fun p => (p.1, default VNaN (p.2 !! i))) <$> Pandas.columns t.

(** What the GeoJSON export needs of a table: one column bears the
    geometry-column name, its cells are geometry objects, and no other cell
    is one (a geometry object is not JSON serialisable). *)
Definition exportable_cell (geo : label) (kv : label * value) : bool :=
  bool_decide (kv.1 = geo <-> is_geometry kv.2).

Definition json_exportable (t : Pandas.Table) (geo : label) : bool :=
  bool_decide (length (Pandas.named geo (Pandas.columns t)) = 1%nat)
  && forallb (fun i => forallb (exportable_cell geo) (cells t i))
             (seq 0 (Pandas.nrows t)).

(** The features array of an exported document. *)
Definition features_of (doc : Json.json) : list Json.json :=
  match Json.field "features" doc with
  | Some (Json.JArr fs) => fs
  | _ => []
  end.

(** The serialised form of a feature. *)
Definition feature_json (id : string) (ms : list (string * Json.json))
    (g : Shapely.BaseGeometry) : Json.json :=
  Json.JObj [ ("id", Json.JStr id);
              ("type", Json.JStr "Feature");
              ("properties", Json.JObj ms);
              ("geometry", Json.dumps_geometry (Shapely.geo_interface g)) ].

(** The members of a feature's properties object. *)
Definition properties_members (ft : Json.json) : list (string * Json.json) :=
  match Json.field "properties" ft with
  | Some (Json.JObj ms) => ms
  | _ => []
  end.

(** A frame whose storage is in the heap. *)
Definition allocated (st : State) (f : Frame) : Prop := (_data f < length (heap st))%nat.

Import Pandas GeoDataFrame.

(** * Properties *)

(** ** Construction *)

Lemma init_check_ok self st :
  contains (table_of st self) (_geometry_column_name self) = true ->
  init_check self st = (Ok self, st).
Proof.
  intros H. unfold init_check, bind, read. cbn.
  unfold table_of in H. rewrite H. reflexivity.
Qed.

Lemma init_check_raise self st :
  contains (table_of st self) (_geometry_column_name self) = false ->
  init_check self st = (Raise (must_pass_geometry (_geometry_column_name self)), st).
Proof.
  intros H. unfold init_check, bind, read. cbn.
  unfold table_of in H. rewrite H. reflexivity.
Qed.

Lemma init_check_inv self st r st' :
  init_check self st = (Ok r, st') ->
  r = self /\ st' = st /\
  contains (table_of st self) (_geometry_column_name self) = true.
Proof.
  unfold init_check, bind, read, table_of. cbn.
  destruct (contains _ _) eqn:E; cbn; intros [= <- <-]; auto.
Qed.

(** The constructor called as [copy] calls it. *)
Lemma init_no_geometry (a : nat) st :
  __init__ (DataMgr a) None None st =
  (new <- init_table (DataMgr a) None;; init_check new) st.
Proof. reflexivity. Qed.

(** C1. Whatever the data, the CRS and the optional [geometry] argument:
    once the promotion step has gone through, construction succeeds exactly
    when the table holds a column named by the geometry-column name, and
    fails with the construction [ValueError] otherwise; an error of the
    promotion step is passed on.  Hence a constructed geo-table always has
    its geometry column. *)
Theorem init_requires_geometry_column
    (data : data_arg) (crs0 : crs_t) (geometry0 : option geom_arg) (st : State) :
  match init_promote data crs0 geometry0 st with
  | (Ok self, st1) =>
      if contains (table_of st1 self) (_geometry_column_name self)
      then __init__ data crs0 geometry0 st = (Ok self, st1)
      else __init__ data crs0 geometry0 st =
             (Raise (must_pass_geometry (_geometry_column_name self)), st1)
  | (Raise e, st1) => __init__ data crs0 geometry0 st = (Raise e, st1)
  end
  /\
  match __init__ data crs0 geometry0 st with
  | (Ok self, st') =>
      contains (table_of st' self) (_geometry_column_name self) = true
  | (Raise _, _) => True
  end.
Proof.
  unfold __init__, bind.
  destruct (init_promote data crs0 geometry0 st) as [[self|e] st1] eqn:Hp.
  - destruct (contains (table_of st1 self) (_geometry_column_name self)) eqn:Hc.
    + rewrite (init_check_ok _ _ Hc). split; [reflexivity | exact Hc].
    + rewrite (init_check_raise _ _ Hc). split; [reflexivity | exact I].
  - split; [reflexivity | exact I].
Qed.

#[global] Arguments Pandas.contains : simpl never.
#[global] Arguments Pandas.named : simpl never.
#[global] Arguments Pandas.getitem : simpl never.
#[global] Arguments table_at : simpl never.
#[global] Arguments GeoDataFrame.must_pass_geometry : simpl never.
#[global] Arguments GeoDataFrame.super_getitem : simpl never.

(** ** The heap *)

Lemma table_at_alloc_new hp fs t :
  table_at {| heap := hp ++ [t]; files := fs |} (length hp) = t.
Proof. unfold table_at. cbn. apply list_lookup_total_middle. reflexivity. Qed.

Lemma table_at_alloc_old hp fs t a :
  (a < length hp)%nat ->
  table_at {| heap := hp ++ [t]; files := fs |} a = hp !!! a.
Proof. intros H. unfold table_at. cbn. apply lookup_total_app_l. exact H. Qed.

Lemma table_at_write_eq hp fs a t :
  (a < length hp)%nat ->
  table_at {| heap := <[a := t]> hp; files := fs |} a = t.
Proof. intros H. unfold table_at. cbn. apply list_lookup_total_insert_eq. exact H. Qed.

Lemma table_at_write_ne hp fs a b t :
  a <> b ->
  table_at {| heap := <[a := t]> hp; files := fs |} b = hp !!! b.
Proof. intros H. unfold table_at. cbn. apply list_lookup_total_insert_ne. exact H. Qed.

(** ** Column membership *)

Lemma contains_true t c : contains t c = true <-> c ∈ col_labels t.
Proof. unfold contains. apply bool_decide_eq_true. Qed.

Lemma contains_false t c : contains t c = false <-> c ∉ col_labels t.
Proof. unfold contains. apply bool_decide_eq_false. Qed.

Lemma elem_of_named c p cols : p ∈ named c cols <-> p.1 = c /\ p ∈ cols.
Proof. unfold named. exact (list_elem_of_filter (fun q => q.1 = c) cols p). Qed.

Lemma named_nil c cols : named c cols = [] <-> c ∉ cols.*1.
Proof.
  split.
  - intros H Hin. apply list_elem_of_fmap in Hin as [p [-> Hp]].
    assert (Hp' : p ∈ named p.1 cols) by (apply elem_of_named; auto).
    rewrite H in Hp'. inversion Hp'.
  - intros H. destruct (named c cols) as [|p l] eqn:E; [reflexivity|].
    exfalso. apply H.
    assert (Hp : p ∈ named c cols) by (rewrite E; left).
    apply elem_of_named in Hp as [<- Hp].
    apply list_elem_of_fmap. eauto.
Qed.

Lemma contains_named t c : contains t c = true <-> named c (columns t) <> [].
Proof.
  rewrite contains_true. unfold col_labels. split.
  - intros H E. apply named_nil in E. contradiction.
  - intros H. destruct (decide (c ∈ (columns t).*1)) as [|n]; [assumption|].
    apply named_nil in n. contradiction.
Qed.

Lemma named_single_contains t c vs :
  named c (columns t) = [(c, vs)] -> contains t c = true.
Proof. intros H. apply contains_named. rewrite H. discriminate. Qed.

Lemma named_fst c cols p l : named c cols = p :: l -> p.1 = c.
Proof.
  intros H. assert (Hp : p ∈ named c cols) by (rewrite H; left).
  apply elem_of_named in Hp. tauto.
Qed.

(** ** Copy *)

Lemma finalize_eta self a :
  __finalize__ {| _data := a; crs := None;
                  _geometry_column_name := default_geometry_column_name |} self =
  {| _data := a; crs := crs self;
     _geometry_column_name := _geometry_column_name self |}.
Proof. reflexivity. Qed.

(** [copy] as the source has it: the constructor call, then
    [__finalize__]. *)
Lemma copy_calls_init self deep st :
  copy self deep st =
  (data <- (if deep then (t <- read (_data self);; alloc t) else ret (_data self));;
   new <- __init__ (DataMgr data) None None;;
   ret (__finalize__ new self)) st.
Proof. destruct deep; reflexivity. Qed.

(** A shallow copy shares the storage of the original. *)
Lemma copy_shallow_ok self st :
  contains (table_of st self) default_geometry_column_name = true ->
  copy self false st = (Ok self, st).
Proof.
  intros H. unfold copy, bind, ret, init_table. cbn.
  unfold init_check, bind, read. cbn.
  unfold table_of in H. rewrite H. cbn. destruct self; reflexivity.
Qed.

(** A deep copy lives in storage allocated for it. *)
Lemma copy_deep_ok self st :
  contains (table_of st self) default_geometry_column_name = true ->
  copy self true st =
  (Ok {| _data := length (heap st); crs := crs self;
         _geometry_column_name := _geometry_column_name self |},
   {| heap := heap st ++ [table_of st self]; files := files st |}).
Proof.
  intros H. unfold copy, bind, ret, read, alloc, init_table. cbn.
  unfold init_check, bind, read. cbn.
  rewrite table_at_alloc_new. unfold table_of in H. rewrite H. reflexivity.
Qed.

(** The constructor inside [copy] runs its check against the class default
    name, before [__finalize__] has restored the name of the original. *)
Lemma copy_raises self deep st :
  contains (table_of st self) default_geometry_column_name = false ->
  fst (copy self deep st) = Raise (must_pass_geometry default_geometry_column_name).
Proof.
  intros H. unfold table_of in H. destruct deep.
  - unfold copy, bind, ret, read, alloc, init_table. cbn.
    unfold init_check, bind, read. cbn.
    rewrite table_at_alloc_new. rewrite H. reflexivity.
  - unfold copy, bind, ret, init_table. cbn.
    unfold init_check, bind, read. cbn. rewrite H. reflexivity.
Qed.

(** Where the copy goes through, it is a new instance with the CRS and the
    geometry-column name of the original, denoting an equal table; a deep
    copy owns fresh storage, so writing through it leaves the original as
    it was. *)
Lemma copy_preserves_metadata self deep st :
  allocated st self ->
  contains (table_of st self) default_geometry_column_name = true ->
  exists new st',
    copy self deep st = (Ok new, st') /\
    crs new = crs self /\
    _geometry_column_name new = _geometry_column_name self /\
    table_of st' new = table_of st self /\
    table_of st' self = table_of st self /\
    (deep = true ->
       _data new <> _data self /\ ~ allocated st new /\
       forall t, table_of (snd (write (_data new) t st')) self = table_of st self).
Proof.
  intros Ha H. destruct deep.
  - eexists _, _. split; [apply copy_deep_ok; exact H|]. cbn.
    unfold table_of, allocated in *. cbn.
    rewrite table_at_alloc_new.
    rewrite table_at_alloc_old by exact Ha.
    repeat split; try reflexivity; try lia.
    intros t. unfold table_at at 1. cbn.
    rewrite list_lookup_total_insert_ne by lia.
    apply lookup_total_app_l. exact Ha.
  - exists self, st. split; [apply copy_shallow_ok; exact H|].
    repeat split; discriminate.
Qed.

(** ** Setting the geometry *)

Lemma getitem_single t c vs :
  named c (columns t) = [(c, vs)] ->
  Pandas.getitem t (KLabel c) =
  Ok (PSeries {| s_name := Some c; s_index := index t; s_values := vs |}).
Proof. intros H. unfold Pandas.getitem. rewrite H. reflexivity. Qed.

Lemma super_getitem_single t c vs :
  named c (columns t) = [(c, vs)] ->
  super_getitem t (KLabel c) =
  Ok (PSeries {| s_name := Some c; s_index := index t; s_values := vs |}).
Proof. intros H. unfold super_getitem. rewrite (getitem_single _ _ _ H). reflexivity. Qed.

(** A table selection that lacks a column called [geometry] is refused by
    the constructor; one that has it goes through unchanged. *)
Lemma super_getitem_frame t key rt :
  Pandas.getitem t key = Ok (PFrame rt) ->
  super_getitem t key =
  if contains rt default_geometry_column_name then Ok (PFrame rt)
  else Raise (must_pass_geometry default_geometry_column_name).
Proof.
  intros H. unfold super_getitem, _constructor. rewrite H. cbn.
  destruct (contains rt default_geometry_column_name); reflexivity.
Qed.

Lemma super_getitem_series t key s :
  Pandas.getitem t key = Ok (PSeries s) ->
  super_getitem t key = Ok (PSeries s).
Proof. intros H. unfold super_getitem. rewrite H. reflexivity. Qed.

Lemma super_getitem_raise t key e :
  Pandas.getitem t key = Raise e ->
  super_getitem t key = Raise e.
Proof. intros H. unfold super_getitem. rewrite H. reflexivity. Qed.

(** A selection that succeeds is the one pandas makes. *)
Lemma super_getitem_ok t key obj :
  super_getitem t key = Ok obj -> Pandas.getitem t key = Ok obj.
Proof.
  unfold super_getitem, _constructor.
  destruct (Pandas.getitem t key) as [[s|rt]|e]; cbn; try congruence.
  destruct (contains rt default_geometry_column_name); cbn; congruence.
Qed.

(** Selecting a label borne by one column: a [GeoSeries] when it is the
    (string) geometry-column name, a plain [Series] otherwise. *)
Lemma getitem_label_single self st c vs :
  named c (columns (table_of st self)) = [(c, vs)] ->
  exists cl attr,
    __getitem__ self (KLabel c) st =
    (Ok {| sel_class := cl;
           sel_obj := PSeries {| s_name := Some c; s_index := index (table_of st self);
                                 s_values := vs |};
           sel_crs := attr |}, st)
    /\ (cl = cSeries \/ cl = cGeoSeries).
Proof.
  intros H. unfold __getitem__, bind, read, lift. cbn.
  unfold table_of in H. rewrite (super_getitem_single _ _ _ H).
  destruct (is_basestring c && bool_decide (c = _geometry_column_name self));
    eexists _, _; (split; [reflexivity | auto]).
Qed.

(** What [set_geometry] assigns to the geometry slot is a column: an object
    that passes for a [Series] under a key other than the geometry-column
    name is one. *)
Lemma getitem_series_is_column self st c level st' :
  __getitem__ self (KLabel c) st = (Ok level, st') ->
  isinstance_Series level = true ->
  c <> _geometry_column_name self ->
  exists s, sel_obj level = PSeries s.
Proof.
  unfold __getitem__, bind, read, lift. cbn.
  destruct (super_getitem (table_at st (_data self)) (KLabel c)) as [[s|rt]|e];
    [| |discriminate].
  - destruct (is_basestring c && bool_decide (c = _geometry_column_name self));
      intros [= <- <-] _ _; eexists; reflexivity.
  - intros H Hs Hne.
    rewrite (bool_decide_eq_false_2 _ Hne), andb_false_r in H.
    destruct (contains rt (_geometry_column_name self));
      injection H as <- <-; discriminate.
Qed.

(** Re-designating the current geometry column, in place, changes nothing. *)
Lemma set_geometry_same_inplace self st vs :
  named (_geometry_column_name self) (columns (table_of st self))
    = [(_geometry_column_name self, vs)] ->
  set_geometry self (ArgCol (_geometry_column_name self)) true true st = (Ok self, st).
Proof.
  intros H. unfold set_geometry, bind, ret, read. cbn -[__getitem__].
  pose proof (named_single_contains _ _ _ H) as Hc. unfold table_of in Hc.
  rewrite Hc.
  destruct (getitem_label_single _ _ _ _ H) as (cl & attr & -> & Hcl).
  unfold isinstance_Series. cbn.
  destruct Hcl as [-> | ->]; cbn;
    rewrite bool_decide_eq_false_2 by (intros Hne; apply Hne; reflexivity);
    reflexivity.
Qed.

(** Without [inplace] the method starts by copying, and so inherits the
    constructor check made against the default name. *)
Lemma set_geometry_copy_raises self col drop st :
  contains (table_of st self) default_geometry_column_name = false ->
  fst (set_geometry self col drop false st)
  = Raise (must_pass_geometry default_geometry_column_name).
Proof.
  intros H. pose proof (copy_raises self true st H) as Hc.
  unfold set_geometry, bind.
  destruct (copy self true st) as [[new|e] st']; cbn in Hc; [discriminate|].
  cbn. exact Hc.
Qed.

Lemma index_setitem t c vs : index (setitem t c vs) = index t.
Proof. unfold setitem. destruct (contains t c); reflexivity. Qed.

Lemma named_setitem_ne t c c' vs :
  c' <> c -> named c' (columns (setitem t c vs)) = named c' (columns t).
Proof.
  intros Hne. unfold setitem, named. destruct (contains t c); cbn.
  - induction (columns t) as [|p l IH]; [reflexivity|].
    rewrite fmap_cons, !filter_cons, IH.
    destruct (decide (p.1 = c)) as [Hp|Hp]; cbn.
    + rewrite decide_False by congruence.
      rewrite decide_False by congruence. reflexivity.
    + reflexivity.
  - rewrite filter_app. rewrite filter_cons. cbn.
    rewrite decide_False by congruence.
    apply app_nil_r.
Qed.

(** After [frame[c] = vs] every column labelled [c] holds [vs], and there
    is one. *)
Lemma named_setitem_eq t c vs :
  named c (columns (setitem t c vs)) <> [] /\
  forall p, p ∈ named c (columns (setitem t c vs)) -> p = (c, vs).
Proof.
  unfold setitem. destruct (contains t c) eqn:Hc; cbn.
  - split.
    + apply contains_named in Hc. intros E. apply Hc.
      apply named_nil. apply named_nil in E. intros Hin. apply E.
      rewrite <- list_fmap_compose.
      apply list_elem_of_fmap in Hin as [q [-> Hq]].
      apply list_elem_of_fmap. exists q. split; [|exact Hq].
      cbn. rewrite decide_True by reflexivity. reflexivity.
    + intros p Hp. apply elem_of_named in Hp as [Hp1 Hp2].
      apply list_elem_of_fmap in Hp2 as [q [-> Hq]].
      destruct (decide (q.1 = c)); [reflexivity|]. contradiction.
  - split.
    + intros E. apply named_nil in E. apply E.
      rewrite fmap_app. apply elem_of_app. right. cbn. left.
    + intros p Hp. apply elem_of_named in Hp as [Hp1 Hp2].
      apply elem_of_app in Hp2 as [Hp2|Hp2].
      * apply contains_false in Hc. exfalso. apply Hc.
        unfold col_labels. apply list_elem_of_fmap. exists p. auto.
      * apply list_elem_of_singleton in Hp2. exact Hp2.
Qed.

Lemma drop_absent_label t lbl :
  NoDup (index t) -> lbl ∉ index t ->
  Pandas.drop t lbl = Raise (ValueError "labels not contained in axis").
Proof.
  intros Hnd Hni. unfold Pandas.drop.
  rewrite bool_decide_eq_true_2 by exact Hnd.
  rewrite bool_decide_eq_false_2 by exact Hni. reflexivity.
Qed.

(** Re-designating a column by name with [drop=False], in place: the table
    is untouched and only the geometry-column name changes. *)
Lemma set_geometry_nodrop_inplace self col st vs :
  named col (columns (table_of st self)) = [(col, vs)] ->
  set_geometry self (ArgCol col) false true st =
  (Ok (with_geometry_column_name self col), st).
Proof.
  intros H. unfold set_geometry, bind, ret, read. cbn -[__getitem__].
  pose proof (named_single_contains _ _ _ H) as Hc. unfold table_of in Hc.
  rewrite Hc.
  destruct (getitem_label_single _ _ _ _ H) as (cl & attr & -> & Hcl).
  unfold isinstance_Series. cbn.
  destruct Hcl as [-> | ->]; reflexivity.
Qed.

(** C2. [set_geometry(col, drop=True)] on a column reference naming exactly
    one column other than the geometry column copies the values into the
    geometry slot and then calls [frame.drop(col)], which looks [col] up
    among the ROW labels: on a table whose (unique) row index does not
    hold [col] the call fails with pandas' [ValueError], and the column
    [col] is still in the table. *)
Theorem set_geometry_drop_keeps_column
    (self : Frame) (col : label) (st : State) (vs : list value) :
  allocated st self ->
  named col (columns (table_of st self)) = [(col, vs)] ->
  length vs = nrows (table_of st self) ->
  col <> _geometry_column_name self ->
  NoDup (index (table_of st self)) ->
  col ∉ index (table_of st self) ->
  exists st',
    set_geometry self (ArgCol col) true true st =
      (Raise (ValueError "labels not contained in axis"), st') /\
    named col (columns (table_of st' self)) = [(col, vs)] /\
    contains (table_of st' self) (_geometry_column_name self) = true /\
    (forall p, p ∈ named (_geometry_column_name self) (columns (table_of st' self)) ->
               p.2 = vs).
Proof.
  intros Ha H Hlen Hne Hnd Hni.
  unfold set_geometry, bind, ret, read. cbn -[__getitem__].
  pose proof (named_single_contains _ _ _ H) as Hc. unfold table_of in *.
  rewrite Hc.
  destruct (getitem_label_single _ _ _ _ H) as (cl & attr & -> & Hcl).
  unfold isinstance_Series, sel_values. cbn -[setitem_seq Pandas.drop].
  unfold setitem_m, drop_m, bind, read, lift, write, setitem_seq.
  rewrite (bool_decide_eq_true_2 _ Hne).
  set (t := table_at st (_data self)) in *.
  set (t1 := setitem t (_geometry_column_name self) vs).
  assert (Ht1 : forall fs, table_at {| heap := <[_data self := t1]> (heap st); files := fs |}
                              (_data self) = t1)
    by (intros fs; apply table_at_write_eq; exact Ha).
  assert (Hdrop : Pandas.drop t1 col = Raise (ValueError "labels not contained in axis")).
  { apply drop_absent_label; unfold t1; rewrite index_setitem; assumption. }
  exists {| heap := <[_data self := t1]> (heap st); files := files st |}.
  rewrite Ht1.
  split.
  - destruct Hcl as [-> | ->]; cbn -[Pandas.drop table_at setitem]; fold t;
      rewrite (bool_decide_eq_true_2 _ Hlen); cbn -[Pandas.drop table_at setitem];
      fold t1; rewrite Ht1, Hdrop; reflexivity.
  - split; [|split].
    + unfold t1. rewrite named_setitem_ne by exact Hne. exact H.
    + apply contains_named. apply (named_setitem_eq t _ vs).
    + intros p Hp. apply (named_setitem_eq t _ vs) in Hp. subst p. reflexivity.
Qed.

Lemma set_geometry_drop_keeps_column_witness :
  exists st',
    set_geometry Samples.boros_frame (ArgCol (LStr "simplified_geometry")) true true
                 Samples.boros_state =
      (Raise (ValueError "labels not contained in axis"), st') /\
    named (LStr "simplified_geometry") (columns (table_of st' Samples.boros_frame)) =
      [(LStr "simplified_geometry", [Samples.point 5 5; Samples.point 6 6])] /\
    contains (table_of st' Samples.boros_frame) (LStr "geometry") = true /\
    (forall p, p ∈ named (LStr "geometry") (columns (table_of st' Samples.boros_frame)) ->
               p.2 = [Samples.point 5 5; Samples.point 6 6]).
Proof.
  apply (set_geometry_drop_keeps_column Samples.boros_frame
           (LStr "simplified_geometry") Samples.boros_state
           [Samples.point 5 5; Samples.point 6 6]).
  - unfold allocated. cbn. lia.
  - vm_compute. reflexivity.
  - vm_compute. reflexivity.
  - discriminate.
  - compute_done.
  - compute_done.
Defined.

(** The frame over [located] is what the constructor, [set_geometry] with
    [drop=False] and [del] leave behind. *)
Lemma located_reachable :
  Samples.located_script Samples.no_state
  = (Ok Samples.located_frame, Samples.located_state).
Proof. vm_compute. reflexivity. Qed.

(** C7. [copy] builds the new instance with [GeoDataFrame(data)] and only
    then restores the metadata: on a geo-table whose geometry column has
    another name than the class default and which has no column called
    [geometry], the constructor check fails and [copy], deep or shallow,
    raises the construction [ValueError] instead of returning a copy. *)
Theorem copy_checks_default_name (self : Frame) (deep : bool) (st : State) :
  contains (table_of st self) (_geometry_column_name self) = true ->
  contains (table_of st self) (LStr "geometry") = false ->
  fst (copy self deep st) = Raise (must_pass_geometry (LStr "geometry")).
Proof. intros _ H. apply copy_raises. exact H. Qed.

Lemma copy_checks_default_name_witness :
  contains (table_of Samples.located_state Samples.located_frame) (LStr "location") = true /\
  fst (copy Samples.located_frame true Samples.located_state)
  = Raise (must_pass_geometry (LStr "geometry")).
Proof.
  split; [vm_compute; reflexivity|].
  apply (copy_checks_default_name Samples.located_frame true Samples.located_state);
    vm_compute; reflexivity.
Defined.

(** C9. [set_geometry] with the current geometry-column name and
    [drop=True]: in place the frame and the heap are left exactly as they
    were; the returning variant first takes a copy, and on a geo-table
    without a column called [geometry] that copy raises, so no table is
    returned. *)
Theorem set_geometry_same_name (self : Frame) (st : State) (vs : list value) :
  named (_geometry_column_name self) (columns (table_of st self))
    = [(_geometry_column_name self, vs)] ->
  contains (table_of st self) (LStr "geometry") = false ->
  set_geometry self (ArgCol (_geometry_column_name self)) true true st = (Ok self, st) /\
  fst (set_geometry self (ArgCol (_geometry_column_name self)) true false st)
  = Raise (must_pass_geometry (LStr "geometry")).
Proof.
  intros H Hg. split.
  - apply (set_geometry_same_inplace _ _ _ H).
  - apply set_geometry_copy_raises. exact Hg.
Qed.

Lemma set_geometry_same_name_witness :
  set_geometry Samples.located_frame (ArgCol (LStr "location")) true true
               Samples.located_state
  = (Ok Samples.located_frame, Samples.located_state) /\
  fst (set_geometry Samples.located_frame (ArgCol (LStr "location")) true false
                    Samples.located_state)
  = Raise (must_pass_geometry (LStr "geometry")).
Proof.
  apply (set_geometry_same_name Samples.located_frame Samples.located_state
           [Samples.point 0 0; Samples.point 1 1]);
    vm_compute; reflexivity.
Defined.

(** ** Assignment through the attribute *)

Lemma class_lookup_geometry :
  class_lookup "geometry" = Some (property_of geometry).
Proof.
  unfold class_lookup, class_namespace.
  rewrite lookup_insert_ne by discriminate.
  apply lookup_insert_eq.
Qed.

Lemma class_lookup_geometry_setter :
  class_lookup "geometry_setter" = Some (setter (property_of geometry) geometry_setter).
Proof.
  unfold class_lookup, class_namespace.
  rewrite lookup_insert_eq. rewrite lookup_insert_eq. reflexivity.
Qed.

(** The guard in the decorated function does what it says. *)
Lemma geometry_setter_existing_column self col st :
  contains (table_of st self) col = true ->
  geometry_setter self (ArgCol col) st = (Raise use_set_geometry, st).
Proof.
  intros H. unfold geometry_setter, bind, read, lift. cbn.
  unfold table_of in H. rewrite H. reflexivity.
Qed.

(** Handed a sequence, the guard itself fails: the membership test cannot
    hash it, and [set_geometry] is not reached. *)
Lemma geometry_setter_sequence self level st :
  geometry_setter self (ArgSeq level) st = (Raise (TypeError "unhashable type"), st).
Proof. reflexivity. Qed.

(** Reading the attribute [geometry] of a frame that has its geometry
    column. *)
Lemma geometry_readable self st vs :
  named (_geometry_column_name self) (columns (table_of st self))
    = [(_geometry_column_name self, vs)] ->
  exists g, geometry self st = (Ok g, st).
Proof.
  intros H. unfold geometry.
  destruct (getitem_label_single _ _ _ _ H) as (cl & attr & -> & _).
  eexists. reflexivity.
Qed.

(** C8. The function holding the guard is decorated [@geometry.setter] but
    named [geometry_setter], so the property with the setter is bound to
    the attribute [geometry_setter] and the attribute [geometry] keeps the
    getter-only property.  On a frame that has its geometry column,
    assigning the name of an existing column to the attribute [geometry]
    never reaches the guard: when a column is called [geometry] the
    assignment is taken as a column assignment, which succeeds and
    overwrites that column with the assigned name in every row; when none
    is, it is refused as an assignment to a read-only attribute.  The
    error that points to [set_geometry] is raised only by an assignment to
    the attribute [geometry_setter]. *)
Theorem geometry_assignment_skips_setter
    (self : Frame) (col : label) (st : State) (vs : list value) :
  named (_geometry_column_name self) (columns (table_of st self))
    = [(_geometry_column_name self, vs)] ->
  contains (table_of st self) col = true ->
  (class_lookup "geometry" ≫= fset) = None /\
  (contains (table_of st self) (LStr "geometry") = true ->
     __setattr__ self "geometry" (ArgCol col) st
     = (Ok self,
        {| heap := <[_data self :=
                       setitem_scalar (table_of st self) (LStr "geometry")
                                      (label_value col)]> (heap st);
           files := files st |})) /\
  (contains (table_of st self) (LStr "geometry") = false ->
     __setattr__ self "geometry" (ArgCol col) st
     = (Raise (AttributeError "can't set attribute"), st)) /\
  (contains (table_of st self) (LStr "geometry_setter") = false ->
     __setattr__ self "geometry_setter" (ArgCol col) st
     = (Raise use_set_geometry, st)).
Proof.
  intros Hg H. destruct (geometry_readable _ _ _ Hg) as [g Hr].
  split; [rewrite class_lookup_geometry; reflexivity|].
  unfold __setattr__, object_setattr.
  rewrite class_lookup_geometry, class_lookup_geometry_setter.
  cbn -[geometry geometry_setter].
  rewrite Hr. unfold bind, read. cbn -[geometry geometry_setter].
  unfold table_of in *.
  split; [|split].
  - intros Hc. rewrite Hc. reflexivity.
  - intros Hc. rewrite Hc. reflexivity.
  - intros Hc. rewrite Hc. apply geometry_setter_existing_column. exact H.
Qed.

Lemma geometry_assignment_skips_setter_witness :
  __setattr__ Samples.boros_frame "geometry" (ArgCol (LStr "simplified_geometry"))
              Samples.boros_state
  = (Ok Samples.boros_frame,
     Samples.state_of
       {| columns := [ (LStr "geometry",
                        [VStr "simplified_geometry"; VStr "simplified_geometry"]);
                       (LStr "simplified_geometry",
                        [Samples.point 5 5; Samples.point 6 6]);
                       (LStr "BoroName", [VStr "Queens"; VStr "Bronx"]) ];
          index := [LInt 0; LInt 1] |}).
Proof.
  destruct (geometry_assignment_skips_setter Samples.boros_frame
              (LStr "simplified_geometry") Samples.boros_state
              [Samples.point 0 0; Samples.point 1 1]) as (_ & H & _).
  - vm_compute. reflexivity.
  - vm_compute. reflexivity.
  - rewrite H by (vm_compute; reflexivity). vm_compute. reflexivity.
Defined.

(** ** Column selection *)

Lemma getitem_list t ls :
  (forall l, l ∈ ls -> contains t l = true) ->
  Pandas.getitem t (KList ls) = Ok (PFrame (take_columns t ls)).
Proof.
  intros H. unfold Pandas.getitem.
  destruct (filter (fun l => contains t l = false) ls) as [|l k] eqn:E; [reflexivity|].
  assert (Hl : l ∈ filter (fun l => contains t l = false) ls) by (rewrite E; left).
  apply (list_elem_of_filter (fun l => contains t l = false)) in Hl as [Hf Hin].
  rewrite (H l Hin) in Hf. discriminate.
Qed.

Lemma elem_of_concat {A} (x : A) (ls : list (list A)) :
  x ∈ concat ls <-> exists l, x ∈ l /\ l ∈ ls.
Proof.
  rewrite list_elem_of_In, in_concat. split.
  - intros [l [H1 H2]]. exists l. rewrite !list_elem_of_In. auto.
  - intros [l [H1 H2]]. exists l. rewrite <- !list_elem_of_In. auto.
Qed.

(** The labels of a column selection are the selected labels. *)
Lemma elem_of_take_columns t ls c :
  (forall l, l ∈ ls -> contains t l = true) ->
  c ∈ col_labels (take_columns t ls) <-> c ∈ ls.
Proof.
  intros H. unfold col_labels, take_columns. cbn. split.
  - intros Hc. apply list_elem_of_fmap in Hc as [p [-> Hp]].
    apply elem_of_concat in Hp as [cs [Hp Hcs]].
    apply list_elem_of_fmap in Hcs as [l [-> Hl]].
    apply elem_of_named in Hp as [-> _]. exact Hl.
  - intros Hc. pose proof (H c Hc) as Hin. apply contains_true in Hin.
    unfold col_labels in Hin. apply list_elem_of_fmap in Hin as [p [-> Hp]].
    apply list_elem_of_fmap. exists p. split; [reflexivity|].
    apply elem_of_concat. exists (named p.1 (columns t)). split.
    + apply elem_of_named. auto.
    + apply list_elem_of_fmap. exists p.1. auto.
Qed.

(** A column selection is built by the constructor, which wants a column
    called [geometry] among the selected ones. *)
Lemma super_getitem_list t ls :
  (forall l, l ∈ ls -> contains t l = true) ->
  super_getitem t (KList ls) =
  if bool_decide (default_geometry_column_name ∈ ls)
  then Ok (PFrame (take_columns t ls))
  else Raise (must_pass_geometry default_geometry_column_name).
Proof.
  intros H. rewrite (super_getitem_frame _ _ _ (getitem_list _ _ H)).
  destruct (bool_decide (default_geometry_column_name ∈ ls)) eqn:E.
  - apply bool_decide_eq_true_1 in E.
    apply (elem_of_take_columns _ _ _ H) in E. apply contains_true in E.
    rewrite E. reflexivity.
  - apply bool_decide_eq_false_1 in E.
    assert (Hc : contains (take_columns t ls) default_geometry_column_name = false).
    { apply contains_false. intros Hin. apply E.
      apply (elem_of_take_columns _ _ _ H). exact Hin. }
    rewrite Hc. reflexivity.
Qed.


Lemma getitem_list_with_geometry self st ls :
  (forall l, l ∈ ls -> contains (table_of st self) l = true) ->
  LStr "geometry" ∈ ls ->
  _geometry_column_name self ∈ ls ->
  __getitem__ self (KList ls) st =
  (Ok {| sel_class := cGeoDataFrame;
         sel_obj := PFrame (take_columns (table_of st self) ls);
         sel_crs := Some (crs self) |}, st).
Proof.
  intros H Hd Hg. unfold __getitem__, bind, read, lift. cbn.
  unfold table_of in *. rewrite (super_getitem_list _ _ H).
  rewrite bool_decide_eq_true_2 by exact Hd.
  assert (Hc : contains (take_columns (table_at st (_data self)) ls)
                        (_geometry_column_name self) = true).
  { apply contains_true. apply elem_of_take_columns; assumption. }
  rewrite Hc. reflexivity.
Qed.


Lemma getitem_geometry_name self st n vs :
  _geometry_column_name self = LStr n ->
  named (LStr n) (columns (table_of st self)) = [(LStr n, vs)] ->
  __getitem__ self (KLabel (LStr n)) st =
  (Ok {| sel_class := cGeoSeries;
         sel_obj := PSeries {| s_name := Some (LStr n);
                               s_index := index (table_of st self);
                               s_values := vs |};
         sel_crs := Some (crs self) |}, st).
Proof.
  intros Hn H. unfold __getitem__, bind, read, lift. cbn.
  unfold table_of in *. rewrite Hn.
  rewrite bool_decide_eq_true_2 by reflexivity.
  rewrite (super_getitem_single _ _ _ H). reflexivity.
Qed.

(** C6. Column selection.  (1) Selecting the one column named by the
    geometry-column name, that name being a string, yields a [GeoSeries]
    of the column's values carrying the table's CRS.  (2) Selecting a list
    of existing columns that includes the geometry column and a column
    called [geometry] yields a [GeoDataFrame] of those columns carrying the
    CRS. *)
Theorem getitem_geo_selections (self : Frame) (st : State) :
  (forall n vs, _geometry_column_name self = LStr n ->
     named (LStr n) (columns (table_of st self)) = [(LStr n, vs)] ->
     __getitem__ self (KLabel (LStr n)) st =
       (Ok {| sel_class := cGeoSeries;
              sel_obj := PSeries {| s_name := Some (LStr n);
                                    s_index := index (table_of st self);
                                    s_values := vs |};
              sel_crs := Some (crs self) |}, st))
  /\
  (forall ls, (forall l, l ∈ ls -> contains (table_of st self) l = true) ->
     _geometry_column_name self ∈ ls ->
     LStr "geometry" ∈ ls ->
     __getitem__ self (KList ls) st =
       (Ok {| sel_class := cGeoDataFrame;
              sel_obj := PFrame (take_columns (table_of st self) ls);
              sel_crs := Some (crs self) |}, st)).
Proof.
  split.
  - intros n vs Hn H. apply getitem_geometry_name; assumption.
  - intros ls H Hg Hd. apply getitem_list_with_geometry; assumption.
Qed.




(** ** Export to a vector file *)

Lemma common_prefix_first a b c r :
  common_prefix a b = String c r -> first_letter a = Some c /\ first_letter b = Some c.
Proof.
  destruct a as [|x a], b as [|y b]; cbn; try discriminate.
  destruct (decide (x = y)) as [->|]; [|discriminate].
  intros [= -> _]. auto.
Qed.

Lemma foldl_common_prefix_first m s c r :
  foldl common_prefix s m = String c r ->
  first_letter s = Some c /\ forall x, x ∈ m -> first_letter x = Some c.
Proof.
  revert s. induction m as [|y m IH]; intros s H; cbn in H.
  - subst s. split; [reflexivity|]. intros x Hx. inversion Hx.
  - destruct (IH _ H) as [Hs Hm].
    destruct (common_prefix s y) as [|c' r'] eqn:E; [discriminate|].
    cbn in Hs. injection Hs as ->.
    apply common_prefix_first in E as [Ha Hb].
    split; [exact Ha|]. intros x Hx. apply elem_of_cons in Hx as [->|Hx]; auto.
Qed.

(** Two strings that start differently leave no common prefix. *)
Lemma commonprefix_differ m a b :
  a ∈ m -> b ∈ m -> first_letter a <> first_letter b -> commonprefix m = "".
Proof.
  intros Ha Hb Hne. destruct (commonprefix m) as [|c r] eqn:E; [reflexivity|].
  exfalso. destruct m as [|s m]; [inversion Ha|]. cbn in E.
  apply foldl_common_prefix_first in E as [Hs Hm].
  assert (Hall : forall x, x ∈ s :: m -> first_letter x = Some c).
  { intros x Hx. apply elem_of_cons in Hx as [->|Hx]; auto. }
  apply Hne. rewrite (Hall a Ha), (Hall b Hb). reflexivity.
Qed.

Lemma elem_of_unique `{EqDecision A} (l : list A) x : x ∈ unique l <-> x ∈ l.
Proof.
  induction l as [|y l IH]; [reflexivity|]. cbn. rewrite !elem_of_cons.
  rewrite (list_elem_of_filter (fun z => z <> y)). rewrite IH.
  destruct (decide (x = y)); tauto.
Qed.

(** On a column of geometries [geom_type] reports the type name of each. *)
Lemma geom_type_names idx vs attr nm :
  Forall is_geometry vs ->
  exists names,
    geom_type {| sel_class := cGeoSeries;
                 sel_obj := PSeries {| s_name := nm; s_index := idx; s_values := vs |};
                 sel_crs := attr |} = Ok names /\
    length names = length vs /\
    forall g, VGeom g ∈ vs -> geom_type_name g ∈ names.
Proof.
  intros H. unfold geom_type. cbn.
  induction H as [|v vs Hv Hvs IH].
  - exists []. repeat split. intros g Hg. inversion Hg.
  - destruct IH as (names & IH & Hlen & Hin).
    destruct v; cbn in Hv; try contradiction. cbn. rewrite IH. cbn.
    eexists. split; [reflexivity|]. split; [cbn; congruence|].
    intros g' Hg'. apply elem_of_cons in Hg' as [[= ->]|Hg'].
    + left.
    + right. apply Hin. exact Hg'.
Qed.

Lemma geometry_single self st n vs :
  _geometry_column_name self = LStr n ->
  named (LStr n) (columns (table_of st self)) = [(LStr n, vs)] ->
  geometry self st =
  (Ok {| sel_class := cGeoSeries;
         sel_obj := PSeries {| s_name := Some (LStr n);
                               s_index := index (table_of st self);
                               s_values := vs |};
         sel_crs := Some (crs self) |}, st).
Proof.
  intros Hn H. unfold geometry. rewrite Hn.
  apply getitem_geometry_name; assumption.
Qed.

(** C3. On a geo-table whose geometry column holds two geometries whose
    type names end in different letters (Point and Polygon do), so that the
    type names share no suffix, [to_file] raises the mixed-types
    [ValueError] with the state as it found it: nothing has reached the
    file library. *)
Theorem to_file_mixed_types_raise
    (abspath_expanduser : string -> string) (self : Frame)
    (filename driver : string) (st : State) (n : string) (vs : list value)
    (g1 g2 : Shapely.BaseGeometry) :
  _geometry_column_name self = LStr n ->
  named (LStr n) (columns (table_of st self)) = [(LStr n, vs)] ->
  Forall is_geometry vs ->
  VGeom g1 ∈ vs -> VGeom g2 ∈ vs ->
  last_letter (geom_type_name g1) <> last_letter (geom_type_name g2) ->
  to_file abspath_expanduser self filename driver st = (Raise mixed_geometry_types, st).
Proof.
  intros Hn Hcol Hgeo H1 H2 Hne.
  unfold to_file, bind, read, lift.
  rewrite (geometry_single self st n vs Hn Hcol).
  destruct (geom_type_names (index (table_of st self)) vs
              (Some (crs self)) (Some (LStr n)) Hgeo) as (names & -> & _ & Hin).
  rewrite (commonprefix_differ _ (String.rev (geom_type_name g1))
             (String.rev (geom_type_name g2))).
  - reflexivity.
  - apply list_elem_of_fmap. exists (geom_type_name g1). split; [reflexivity|].
    apply elem_of_unique. auto.
  - apply list_elem_of_fmap. exists (geom_type_name g2). split; [reflexivity|].
    apply elem_of_unique. auto.
  - exact Hne.
Qed.

Lemma to_file_mixed_types_raise_witness :
  to_file (fun f => f) Samples.plain_frame "test.shp" "ESRI Shapefile"
          (Samples.state_of Samples.point_and_polygon)
  = (Raise mixed_geometry_types, Samples.state_of Samples.point_and_polygon).
Proof.
  apply (to_file_mixed_types_raise (fun f => f) Samples.plain_frame "test.shp"
           "ESRI Shapefile" (Samples.state_of Samples.point_and_polygon)
           "geometry" [Samples.point 0 0; Samples.triangle]
           {| Shapely.kind := Shapely.Point; Shapely.coords := [(0, 0)] |}
           {| Shapely.kind := Shapely.Polygon;
              Shapely.coords := [(0, 0); (1, 0); (1, 1)] |}).
  - reflexivity.
  - vm_compute. reflexivity.
  - repeat constructor.
  - compute_done.
  - compute_done.
  - vm_compute. discriminate.
Defined.

(** A point and a multi-point are of two shape categories, yet their type
    names share the suffix [Point]: no error is raised, and the file is
    opened with that suffix as its geometry type and written. *)
Lemma to_file_point_and_multipoint_written :
  geom_type_name {| Shapely.kind := Shapely.Point; Shapely.coords := [(0, 0)] |}
    <> geom_type_name {| Shapely.kind := Shapely.MultiPoint;
                         Shapely.coords := [(0, 0); (1, 1)] |} /\
  exists rec1 rec2,
    to_file (fun f => f) Samples.plain_frame "test.shp" "ESRI Shapefile"
            (Samples.state_of Samples.point_and_multipoint)
    = (Ok tt,
       {| heap := [Samples.point_and_multipoint];
          files := [ Fiona.Open "test.shp" "ESRI Shapefile" None
                       {| Fiona.sch_geometry := "Point"; Fiona.sch_properties := [] |};
                     Fiona.Write rec1; Fiona.Write rec2; Fiona.Close ] |}).
Proof.
  split; [vm_compute; discriminate|].
  eexists _, _. vm_compute. reflexivity.
Qed.

(** ** GeoJSON export *)

Lemma res_mapM_Forall2 {A B} (f : A -> Res B) l ys :
  res_mapM f l = Ok ys <-> Forall2 (fun x y => f x = Ok y) l ys.
Proof.
  revert ys. induction l as [|x l IH]; intros ys; cbn.
  - split.
    + intros [= <-]. constructor.
    + intros H. inversion H. reflexivity.
  - destruct (f x) as [y|e] eqn:Ex; cbn.
    + destruct (res_mapM f l) as [zs|e] eqn:El; cbn.
      * split.
        -- intros [= <-]. constructor; [exact Ex|]. apply IH. reflexivity.
        -- intros H. inversion H as [|? y' ? zs' Hy Hzs]; subst.
           apply IH in Hzs. congruence.
      * split; [discriminate|].
        intros H. inversion H as [|? y' ? zs' Hy Hzs]; subst.
        apply IH in Hzs. discriminate.
    + split; [discriminate|].
      intros H. inversion H as [|? y' ? zs' Hy Hzs]; subst. congruence.
Qed.

Lemma res_mapM_total {A B} (f : A -> Res B) l :
  (forall x, x ∈ l -> exists y, f x = Ok y) -> exists ys, res_mapM f l = Ok ys.
Proof.
  induction l as [|x l IH]; intros H; cbn.
  - eexists. reflexivity.
  - destruct (H x) as [y ->]; [left|].
    destruct IH as [ys ->]; [intros z Hz; apply H; right; exact Hz|].
    eexists. reflexivity.
Qed.

(** *** Dictionaries built by successive insertion *)

Lemma foldl_insert_lookup (l : list (label * value)) (d : gmap label value) k :
  foldl (fun d kv => <[kv.1 := kv.2]> d) d l !! k =
  match last (filter (fun kv => kv.1 = k) l) with
  | Some kv => Some kv.2
  | None => d !! k
  end.
Proof.
  revert d. induction l as [|[k' v'] l IH] using rev_ind; intros d; [reflexivity|].
  rewrite foldl_snoc, filter_app, filter_cons, filter_nil. cbn.
  destruct (decide (k' = k)) as [->|Hne].
  - rewrite last_snoc. apply lookup_insert_eq.
  - rewrite app_nil_r. rewrite lookup_insert_ne by exact Hne. apply IH.
Qed.

Lemma last_elem_of {A} (l : list A) x : last l = Some x -> x ∈ l.
Proof.
  intros H. apply last_Some in H as [l' ->]. apply elem_of_app. right. left.
Qed.

Lemma properties_of_lookup_Some items geo k v :
  properties_of items geo !! k = Some v -> (k, v) ∈ items /\ k <> geo.
Proof.
  unfold properties_of. rewrite foldl_insert_lookup.
  destruct (last _) as [[k' v']|] eqn:E; [|rewrite lookup_empty; discriminate].
  intros [= <-]. apply last_elem_of in E.
  apply (list_elem_of_filter (fun kv => kv.1 = k)) in E as [E1 E2]. cbn in E1. subst k'.
  apply (list_elem_of_filter (fun kv => kv.1 <> geo)) in E2 as [E2 E3]. auto.
Qed.

Lemma properties_of_lookup_is_Some items geo k v :
  (k, v) ∈ items -> k <> geo -> is_Some (properties_of items geo !! k).
Proof.
  intros Hin Hne. unfold properties_of. rewrite foldl_insert_lookup.
  destruct (last _) as [[k' v']|] eqn:E; [eexists; reflexivity|].
  apply last_None in E.
  assert (H : (k, v) ∈ filter (fun kv => kv.1 = k)
                         (filter (fun kv => kv.1 <> geo) items)).
  { apply (list_elem_of_filter (fun kv => kv.1 = k)). split; [reflexivity|].
    apply (list_elem_of_filter (fun kv => kv.1 <> geo)). auto. }
  rewrite E in H. inversion H.
Qed.

Lemma properties_of_lookup_None items geo k :
  (forall v, (k, v) ∉ items) -> properties_of items geo !! k = None.
Proof.
  intros H. destruct (properties_of items geo !! k) as [v|] eqn:E; [|reflexivity].
  apply properties_of_lookup_Some in E as [E _]. exfalso. exact (H v E).
Qed.

(** A key borne by one item keeps that item's value. *)
Lemma properties_of_lookup_single items geo k v :
  filter (fun kv => kv.1 = k) items = [(k, v)] -> k <> geo ->
  properties_of items geo !! k = Some v.
Proof.
  intros H Hne.
  assert (Hin : (k, v) ∈ items).
  { assert (Hk : (k, v) ∈ filter (fun kv => kv.1 = k) items) by (rewrite H; left).
    apply (list_elem_of_filter (fun kv => kv.1 = k)) in Hk. tauto. }
  destruct (properties_of_lookup_is_Some items geo k v Hin Hne) as [v' Hv'].
  rewrite Hv'. f_equal.
  apply properties_of_lookup_Some in Hv' as [Hv' _].
  assert (Hk : (k, v') ∈ filter (fun kv => kv.1 = k) items)
    by (apply (list_elem_of_filter (fun kv => kv.1 = k)); auto).
  rewrite H in Hk. apply list_elem_of_singleton in Hk. congruence.
Qed.

(** *** Rows *)

Lemma zip_fmap_same {A B C} (f : A -> B) (g : A -> C) (l : list A) :
  zip (f <$> l) (g <$> l) = (fun x => (f x, g x)) <$> l.
Proof. induction l as [|x l IH]; [reflexivity|]. cbn. rewrite IH. reflexivity. Qed.

Lemma iteritems_row t i lbl : iteritems (row t i lbl) = cells t i.
Proof. unfold iteritems, row, cells, col_labels. cbn. apply zip_fmap_same. Qed.

Lemma iterrows_lookup t i :
  iterrows t !! i = (fun lbl => (lbl, row t i lbl)) <$> index t !! i.
Proof. unfold iterrows. apply list_lookup_imap. Qed.

Lemma elem_of_cells t i k v :
  (k, v) ∈ cells t i <-> exists vs, (k, vs) ∈ columns t /\ v = default VNaN (vs !! i).
Proof.
  unfold cells. rewrite list_elem_of_fmap. split.
  - intros [[k' vs] [[= -> ->] Hin]]. exists vs. auto.
  - intros [vs [Hin ->]]. exists (k, vs). auto.
Qed.

Lemma cells_named t i k :
  filter (fun kv => kv.1 = k) (cells t i) =
  (fun p => (p.1, default VNaN (p.2 !! i))) <$> named k (columns t).
Proof.
  unfold cells, named. induction (columns t) as [|p l IH]; [reflexivity|].
  rewrite fmap_cons, !filter_cons. cbn.
  destruct (decide (p.1 = k)); rewrite IH; reflexivity.
Qed.

Lemma cells_single t i k vs :
  named k (columns t) = [(k, vs)] ->
  filter (fun kv => kv.1 = k) (cells t i) = [(k, default VNaN (vs !! i))].
Proof. intros H. rewrite cells_named, H. reflexivity. Qed.

Lemma iteritems_dropna_zip (a : list label) (b : list value) :
  zip (compress (negb <$> (isnull <$> b)) a) (compress (negb <$> (isnull <$> b)) b)
  = filter (fun kv => isnull kv.2 = false) (zip a b).
Proof.
  revert a. induction b as [|y b IH]; intros [|x a]; try reflexivity.
  rewrite !fmap_cons. cbn [compress zip zip_with]. rewrite filter_cons. cbn [snd].
  destruct (isnull y); cbn [negb zip zip_with].
  - rewrite decide_False by discriminate. apply IH.
  - rewrite decide_True by reflexivity. rewrite IH. reflexivity.
Qed.

Lemma iteritems_dropna s :
  iteritems (dropna s) = filter (fun kv => isnull kv.2 = false) (iteritems s).
Proof. unfold iteritems, dropna, series_isnull. cbn. apply iteritems_dropna_zip. Qed.

Lemma elem_of_na_keys (a : list label) (b : list value) k :
  k ∈ compress (isnull <$> b) a <-> exists v, (k, v) ∈ zip a b /\ isnull v = true.
Proof.
  revert a. induction b as [|y b IH]; intros [|x a];
    rewrite ?fmap_cons, ?fmap_nil; cbn [compress zip zip_with].
  - split; [intros H; inversion H | intros [v [H _]]; inversion H].
  - split; [intros H; inversion H | intros [v [H _]]; inversion H].
  - split; [intros H; inversion H | intros [v [H _]]; inversion H].
  - destruct (isnull y) eqn:Ey.
    + rewrite elem_of_cons, IH. split.
      * intros [->|[v [Hv Hn]]].
        -- exists y. split; [left | exact Ey].
        -- exists v. split; [right; exact Hv | exact Hn].
      * intros [v [Hv Hn]]. apply elem_of_cons in Hv as [[= -> ->]|Hv]; [left; reflexivity|].
        right. exists v. auto.
    + rewrite IH. split.
      * intros [v [Hv Hn]]. exists v. split; [right; exact Hv | exact Hn].
      * intros [v [Hv Hn]]. apply elem_of_cons in Hv as [[= -> ->]|Hv]; [congruence|].
        exists v. auto.
Qed.

Lemma foldl_insert_none (ks : list label) (d : gmap label value) k :
  foldl (fun d k => <[k := VNone]> d) d ks !! k =
  if decide (k ∈ ks) then Some VNone else d !! k.
Proof.
  revert d. induction ks as [|k' ks IH]; intros d; cbn.
  - rewrite decide_False; [reflexivity | intros H; inversion H].
  - rewrite IH. destruct (decide (k ∈ ks)) as [Hin|Hni].
    + rewrite decide_True by (right; exact Hin). reflexivity.
    + destruct (decide (k = k')) as [->|Hne].
      * rewrite decide_True by left. apply lookup_insert_eq.
      * rewrite decide_False
          by (intros H; apply elem_of_cons in H as [H|H]; contradiction).
        apply lookup_insert_ne. congruence.
Qed.

(** [fill_none]: a key with a null value anywhere in the row maps to
    [None]; any other key keeps its (last) value. *)
Lemma fill_none_lookup s k :
  fill_none s !! k =
  if decide (k ∈ compress (series_isnull s) (s_index s)) then Some VNone
  else to_dict s !! k.
Proof. unfold fill_none. apply foldl_insert_none. Qed.

Lemma to_dict_lookup s k :
  to_dict s !! k = snd <$> last (filter (fun kv => kv.1 = k) (iteritems s)).
Proof.
  unfold to_dict. rewrite foldl_insert_lookup.
  destruct (last _); [reflexivity | apply lookup_empty].
Qed.

(** *** Features and their serialisation *)

Lemma feature_inv geo f i r ft :
  feature geo f i r = Ok ft ->
  exists g,
    row_getitem (f r) geo = Ok (Scalar (VGeom g)) /\
    ft = {| f_id := str i; f_type := "Feature";
            f_properties := properties_of (row_items (f r)) geo;
            f_geometry := Shapely.geo_interface g |}.
Proof.
  unfold feature. destruct (row_getitem (f r) geo) as [[v|vs]|e]; cbn; try discriminate.
  destruct v; cbn; try discriminate.
  intros [= <-]. eexists. split; reflexivity.
Qed.

Lemma feature_ok geo f i r g :
  row_getitem (f r) geo = Ok (Scalar (VGeom g)) ->
  feature geo f i r =
  Ok {| f_id := str i; f_type := "Feature";
        f_properties := properties_of (row_items (f r)) geo;
        f_geometry := Shapely.geo_interface g |}.
Proof. intros H. unfold feature. rewrite H. reflexivity. Qed.

Lemma dumps_properties_inv d j :
  Json.dumps_properties d = Ok j ->
  exists ms,
    j = Json.JObj ms /\
    Forall2 (fun kv m => Json.dumps_value kv.2 = Ok m.2 /\ m.1 = str kv.1)
            (map_to_list d) ms.
Proof.
  unfold Json.dumps_properties.
  destruct (res_mapM _ (map_to_list d)) as [ms|e] eqn:E; cbn; [|discriminate].
  intros [= <-]. exists ms. split; [reflexivity|].
  apply res_mapM_Forall2 in E.
  eapply Forall2_impl; [exact E|]. cbn. intros [k v] [s m]. cbn.
  destruct (Json.dumps_value v); cbn; [|discriminate].
  intros [= <- <-]. auto.
Qed.

(** The members of a serialised properties dictionary are its entries. *)
Lemma dumps_properties_member d ms s j :
  Json.dumps_properties d = Ok (Json.JObj ms) ->
  (s, j) ∈ ms ->
  exists k v, d !! k = Some v /\ s = str k /\ Json.dumps_value v = Ok j.
Proof.
  intros H Hin. apply dumps_properties_inv in H as (ms' & [= <-] & HF).
  apply list_elem_of_lookup in Hin as [n Hn].
  destruct (Forall2_lookup_r _ _ _ _ _ HF Hn) as ([k v] & Hkv & Hv & Hs).
  exists k, v. cbn in *. split; [|auto].
  apply elem_of_map_to_list. apply list_elem_of_lookup. eauto.
Qed.

Lemma dumps_properties_entry d ms k v :
  Json.dumps_properties d = Ok (Json.JObj ms) ->
  d !! k = Some v ->
  exists j, Json.dumps_value v = Ok j /\ (str k, j) ∈ ms.
Proof.
  intros H Hd. apply dumps_properties_inv in H as (ms' & [= <-] & HF).
  apply elem_of_map_to_list in Hd. apply list_elem_of_lookup in Hd as [n Hn].
  destruct (Forall2_lookup_l _ _ _ _ _ HF Hn) as ([s j] & Hsj & Hv & Hs).
  cbn in *. subst s. exists j. split; [exact Hv|].
  apply list_elem_of_lookup. eauto.
Qed.

Lemma dumps_properties_total d :
  (forall k v, d !! k = Some v -> ~ is_geometry v) ->
  exists ms, Json.dumps_properties d = Ok (Json.JObj ms).
Proof.
  intros H. unfold Json.dumps_properties.
  destruct (res_mapM_total
              (fun kv => res_bind (Json.dumps_value kv.2) (fun j => Ok (str kv.1, j)))
              (map_to_list d)) as [ms ->].
  - intros [k v] Hin. apply elem_of_map_to_list in Hin. apply H in Hin.
    destruct v; cbn in *; try (eexists; reflexivity). contradiction.
  - cbn. eexists. reflexivity.
Qed.

Lemma dumps_feature_inv id ty d g j :
  Json.dumps_feature {| f_id := id; f_type := ty; f_properties := d;
                        f_geometry := Shapely.geo_interface g |} = Ok j ->
  exists ms,
    Json.dumps_properties d = Ok (Json.JObj ms) /\
    j = Json.JObj [ ("id", Json.JStr id); ("type", Json.JStr ty);
                    ("properties", Json.JObj ms);
                    ("geometry", Json.dumps_geometry (Shapely.geo_interface g)) ].
Proof.
  unfold Json.dumps_feature. cbn.
  destruct (Json.dumps_properties d) as [props|e] eqn:E; cbn; [|discriminate].
  intros [= <-]. destruct (dumps_properties_inv _ _ E) as (ms & -> & _).
  exists ms. split; reflexivity.
Qed.

Lemma to_json_inv self na st doc st' :
  to_json self na st = (Ok doc, st') ->
  st' = st /\
  exists f feats js,
    na_methods na = Some f /\
    Forall2 (fun ir ft => feature (_geometry_column_name self) f ir.1 ir.2 = Ok ft)
            (iterrows (table_of st self)) feats /\
    Forall2 (fun ft j => Json.dumps_feature ft = Ok j) feats js /\
    doc = Json.JObj [ ("type", Json.JStr "FeatureCollection");
                      ("features", Json.JArr js) ].
Proof.
  unfold to_json. destruct (na_methods na) as [f|]; [|discriminate].
  unfold bind, read, lift. fold (table_of st self).
  destruct (res_mapM _ (iterrows (table_of st self))) as [feats|e] eqn:E1; [|discriminate].
  unfold Json.dumps.
  destruct (res_mapM Json.dumps_feature feats) as [js|e] eqn:E2; cbn; [|discriminate].
  intros [= <- <-]. split; [reflexivity|].
  exists f, feats, js. apply res_mapM_Forall2 in E1. apply res_mapM_Forall2 in E2.
  auto.
Qed.

Lemma features_of_doc js :
  features_of (Json.JObj [ ("type", Json.JStr "FeatureCollection");
                           ("features", Json.JArr js) ]) = js.
Proof. reflexivity. Qed.

(** What a successful export holds for one row. *)
Lemma to_json_row self na st doc st' i lbl :
  to_json self na st = (Ok doc, st') ->
  index (table_of st self) !! i = Some lbl ->
  exists f g ms,
    na_methods na = Some f /\
    row_getitem (f (row (table_of st self) i lbl)) (_geometry_column_name self)
      = Ok (Scalar (VGeom g)) /\
    Json.dumps_properties
      (properties_of (row_items (f (row (table_of st self) i lbl)))
                     (_geometry_column_name self)) = Ok (Json.JObj ms) /\
    features_of doc !! i = Some (feature_json (str lbl) ms g).
Proof.
  intros H Hi. apply to_json_inv in H as (_ & f & feats & js & Hf & H1 & H2 & ->).
  rewrite features_of_doc.
  assert (Hr : iterrows (table_of st self) !! i
               = Some (lbl, row (table_of st self) i lbl))
    by (rewrite iterrows_lookup, Hi; reflexivity).
  destruct (Forall2_lookup_l _ _ _ _ _ H1 Hr) as (ft & Hft & Hfeat). cbn in Hfeat.
  apply feature_inv in Hfeat as (g & Hg & ->).
  destruct (Forall2_lookup_l _ _ _ _ _ H2 Hft) as (j & Hj & Hd).
  apply dumps_feature_inv in Hd as (ms & Hms & ->).
  exists f, g, ms. auto.
Qed.

Lemma to_json_length self na st doc st' :
  to_json self na st = (Ok doc, st') ->
  length (features_of doc) = nrows (table_of st self).
Proof.
  intros H. apply to_json_inv in H as (_ & f & feats & js & Hf & H1 & H2 & ->).
  rewrite features_of_doc.
  apply Forall2_length in H1. apply Forall2_length in H2.
  unfold iterrows in H1. rewrite length_imap in H1. unfold nrows. congruence.
Qed.

(** *** The three [na] methods *)

Lemma na_methods_cases na f :
  na_methods na = Some f ->
  (na = "null" /\ f = fun r => RowDict (fill_none r)) \/
  (na = "drop" /\ f = fun r => RowSeries (dropna r)) \/
  (na = "keep" /\ f = fun r => RowSeries r).
Proof.
  unfold na_methods.
  destruct (decide (na = "null")); [intros [= <-]; auto|].
  destruct (decide (na = "drop")); [intros [= <-]; auto|].
  destruct (decide (na = "keep")); [intros [= <-]; auto|].
  discriminate.
Qed.

Lemma fill_none_lookup_Some s k v :
  fill_none s !! k = Some v ->
  (exists v', (k, v') ∈ iteritems s) /\ (v = VNone \/ (k, v) ∈ iteritems s).
Proof.
  rewrite fill_none_lookup. destruct (decide _) as [Hin|Hni].
  - intros [= <-]. apply elem_of_na_keys in Hin as [v' [Hv' _]].
    split; [exists v'; exact Hv' | left; reflexivity].
  - rewrite to_dict_lookup. destruct (last _) as [[k' v']|] eqn:E; [|discriminate].
    cbn. intros [= <-]. apply last_elem_of in E.
    apply (list_elem_of_filter (fun kv => kv.1 = k)) in E as [E1 E2]. cbn in E1. subst k'.
    split; [exists v'; exact E2 | right; exact E2].
Qed.

(** Whatever the method, an item of the converted row comes from a cell of
    the row, unchanged or turned into [None]. *)
Lemma row_items_cells na f t i lbl k v :
  na_methods na = Some f ->
  (k, v) ∈ row_items (f (row t i lbl)) ->
  (exists v', (k, v') ∈ cells t i) /\ (v = VNone \/ (k, v) ∈ cells t i).
Proof.
  intros Hf Hin. apply na_methods_cases in Hf as [[_ ->]|[[_ ->]|[_ ->]]];
    cbn [row_items] in Hin.
  - apply elem_of_map_to_list in Hin. apply fill_none_lookup_Some in Hin.
    rewrite iteritems_row in Hin. exact Hin.
  - rewrite iteritems_dropna, iteritems_row in Hin.
    apply (list_elem_of_filter (fun kv => isnull kv.2 = false)) in Hin as [_ Hin].
    split; [exists v; exact Hin | right; exact Hin].
  - rewrite iteritems_row in Hin.
    split; [exists v; exact Hin | right; exact Hin].
Qed.

Lemma series_getitem_scalar s k v :
  series_getitem s k = Ok (Scalar v) -> (k, v) ∈ iteritems s.
Proof.
  unfold series_getitem.
  destruct (filter (fun kv => kv.1 = k) (iteritems s)) as [|[k' v'] [|q l]] eqn:E;
    try discriminate.
  intros [= <-].
  assert (H : (k', v') ∈ filter (fun kv => kv.1 = k) (iteritems s)) by (rewrite E; left).
  apply (list_elem_of_filter (fun kv => kv.1 = k)) in H as [H1 H2]. cbn in H1. subst k'.
  exact H2.
Qed.

Lemma cell_is_geometry t i k g :
  (k, VGeom g) ∈ cells t i -> exists vs, (k, vs) ∈ columns t /\ vs !! i = Some (VGeom g).
Proof.
  intros H. apply elem_of_cells in H as [vs [Hin Hv]]. exists vs. split; [exact Hin|].
  destruct (vs !! i) as [v|]; cbn in Hv; [congruence | discriminate].
Qed.

(** The geometry a feature is built from is a cell of the row, in a column
    bearing the geometry-column name. *)
Lemma row_getitem_geometry na f t i lbl geo g :
  na_methods na = Some f ->
  row_getitem (f (row t i lbl)) geo = Ok (Scalar (VGeom g)) ->
  exists vs, (geo, vs) ∈ columns t /\ vs !! i = Some (VGeom g).
Proof.
  intros Hf H. apply cell_is_geometry.
  apply na_methods_cases in Hf as [[_ ->]|[[_ ->]|[_ ->]]]; cbn [row_getitem] in H.
  - destruct (fill_none (row t i lbl) !! geo) as [v|] eqn:E; [|discriminate].
    injection H as ->. apply fill_none_lookup_Some in E as [_ [E|E]]; [discriminate|].
    rewrite iteritems_row in E. exact E.
  - apply series_getitem_scalar in H. rewrite iteritems_dropna, iteritems_row in H.
    apply (list_elem_of_filter (fun kv => isnull kv.2 = false)) in H. tauto.
  - apply series_getitem_scalar in H. rewrite iteritems_row in H. exact H.
Qed.

Lemma cells_key_label t i k v : (k, v) ∈ cells t i -> k ∈ col_labels t.
Proof.
  intros H. apply elem_of_cells in H as [vs [Hin _]].
  unfold col_labels. apply list_elem_of_fmap. exists (k, vs). auto.
Qed.

(** *** Exportable tables are exported *)

Lemma exportable_named t geo :
  json_exportable t geo = true -> exists gs, named geo (columns t) = [(geo, gs)].
Proof.
  unfold json_exportable. intros H. apply andb_true_iff in H as [H _].
  apply bool_decide_eq_true in H.
  destruct (named geo (columns t)) as [|[c gs] [|q l]] eqn:E; try discriminate.
  apply named_fst in E as E'. cbn in E'. subst c. exists gs. reflexivity.
Qed.

Lemma exportable_cells t geo i k v :
  json_exportable t geo = true -> (i < nrows t)%nat ->
  (k, v) ∈ cells t i -> (k = geo <-> is_geometry v).
Proof.
  unfold json_exportable. intros H Hi Hin. apply andb_true_iff in H as [_ H].
  rewrite forallb_forall in H.
  assert (Hseq : In i (seq 0 (nrows t))) by (apply in_seq; lia).
  specialize (H i Hseq). rewrite forallb_forall in H.
  apply list_elem_of_In in Hin. specialize (H _ Hin).
  unfold exportable_cell in H. apply bool_decide_eq_true in H. exact H.
Qed.

Lemma exportable_geometry_cell t geo i :
  json_exportable t geo = true -> (i < nrows t)%nat ->
  exists g, filter (fun kv => kv.1 = geo) (cells t i) = [(geo, VGeom g)].
Proof.
  intros H Hi. destruct (exportable_named _ _ H) as [gs Hgs].
  pose proof (cells_single t i geo gs Hgs) as Hc.
  assert (Hin : (geo, default VNaN (gs !! i)) ∈ cells t i).
  { assert (Hx : (geo, default VNaN (gs !! i))
                   ∈ filter (fun kv => kv.1 = geo) (cells t i)) by (rewrite Hc; left).
    apply (list_elem_of_filter (fun kv => kv.1 = geo)) in Hx. tauto. }
  apply (exportable_cells _ _ _ _ _ H Hi) in Hin.
  destruct (default VNaN (gs !! i)) as [| | | |g|] eqn:E;
    try (exfalso; apply (proj1 Hin); reflexivity).
  exists g. exact Hc.
Qed.

Lemma filter_comm {A} (P Q : A -> Prop) `{!forall x, Decision (P x)}
    `{!forall x, Decision (Q x)} (l : list A) :
  filter P (filter Q l) = filter Q (filter P l).
Proof.
  induction l as [|x l IH]; [reflexivity|].
  rewrite !filter_cons.
  destruct (decide (Q x)), (decide (P x)); rewrite ?filter_cons;
    rewrite ?decide_True by assumption; rewrite ?decide_False by assumption;
    rewrite IH; reflexivity.
Qed.

Lemma row_getitem_total na f t i lbl geo :
  na_methods na = Some f -> json_exportable t geo = true -> (i < nrows t)%nat ->
  exists g, row_getitem (f (row t i lbl)) geo = Ok (Scalar (VGeom g)).
Proof.
  intros Hf H Hi. destruct (exportable_geometry_cell _ _ _ H Hi) as [g Hg].
  exists g.
  apply na_methods_cases in Hf as [[_ ->]|[[_ ->]|[_ ->]]]; cbn [row_getitem].
  - rewrite fill_none_lookup. rewrite decide_False.
    + rewrite to_dict_lookup, iteritems_row, Hg. reflexivity.
    + intros Hin. apply elem_of_na_keys in Hin as [v [Hv Hn]].
      fold (iteritems (row t i lbl)) in Hv. rewrite iteritems_row in Hv.
      assert (Hx : (geo, v) ∈ filter (fun kv => kv.1 = geo) (cells t i))
        by (apply (list_elem_of_filter (fun kv => kv.1 = geo)); auto).
      rewrite Hg in Hx. apply list_elem_of_singleton in Hx.
      injection Hx as ->. discriminate.
  - unfold series_getitem. rewrite iteritems_dropna, iteritems_row.
    rewrite filter_comm, Hg. rewrite filter_cons. cbn.
    reflexivity.
  - unfold series_getitem. rewrite iteritems_row, Hg. reflexivity.
Qed.

Lemma properties_serialisable na f t i lbl geo k v :
  na_methods na = Some f -> json_exportable t geo = true -> (i < nrows t)%nat ->
  properties_of (row_items (f (row t i lbl))) geo !! k = Some v ->
  ~ is_geometry v.
Proof.
  intros Hf H Hi Hp. apply properties_of_lookup_Some in Hp as [Hin Hne].
  apply (row_items_cells _ _ _ _ _ _ _ Hf) in Hin as [_ [->|Hin]]; [intros []|].
  intros Hg. apply Hne. apply (exportable_cells _ _ _ _ _ H Hi Hin). exact Hg.
Qed.

Lemma to_json_total self na st f :
  na_methods na = Some f ->
  json_exportable (table_of st self) (_geometry_column_name self) = true ->
  exists doc, to_json self na st = (Ok doc, st).
Proof.
  intros Hf H. unfold to_json. rewrite Hf. unfold bind, read, lift.
  fold (table_of st self).
  destruct (res_mapM_total
              (fun ir => feature (_geometry_column_name self) f ir.1 ir.2)
              (iterrows (table_of st self))) as [feats Hfeats].
  { intros [lbl r] Hin. apply list_elem_of_lookup in Hin as [i Hi].
    rewrite iterrows_lookup in Hi.
    destruct (index (table_of st self) !! i) as [lbl'|] eqn:El; [|discriminate].
    injection Hi as <- <-. apply lookup_lt_Some in El.
    destruct (row_getitem_total _ _ _ _ lbl' _ Hf H El) as [g Hg].
    eexists. cbn. apply feature_ok. exact Hg. }
  rewrite Hfeats. unfold Json.dumps.
  destruct (res_mapM_total Json.dumps_feature feats) as [js ->].
  { intros ft Hft. apply res_mapM_Forall2 in Hfeats.
    apply list_elem_of_lookup in Hft as [i Hi].
    destruct (Forall2_lookup_r _ _ _ _ _ Hfeats Hi) as ([lbl r] & Hr & Hfeat).
    cbn in Hfeat. rewrite iterrows_lookup in Hr.
    destruct (index (table_of st self) !! i) as [lbl'|] eqn:El; [|discriminate].
    injection Hr as <- <-. apply lookup_lt_Some in El.
    apply feature_inv in Hfeat as (g & Hg & ->).
    unfold Json.dumps_feature. cbn.
    destruct (dumps_properties_total
                (properties_of (row_items (f (row (table_of st self) i lbl')))
                               (_geometry_column_name self))) as [ms ->].
    - intros k v. apply (properties_serialisable _ _ _ _ _ _ _ _ Hf H El).
    - eexists. reflexivity. }
  eexists. reflexivity.
Qed.

(** *** The properties of a row under each method *)

Lemma properties_members_feature id ms g :
  properties_members (feature_json id ms g) = ms.
Proof. reflexivity. Qed.

Lemma properties_of_dict (d : gmap label value) geo k :
  properties_of (map_to_list d) geo !! k = if decide (k = geo) then None else d !! k.
Proof.
  destruct (decide (k = geo)) as [->|Hne].
  - destruct (properties_of (map_to_list d) geo !! geo) eqn:E; [|reflexivity].
    apply properties_of_lookup_Some in E as [_ E]. contradiction.
  - destruct (d !! k) as [v|] eqn:Ed.
    + apply elem_of_map_to_list in Ed.
      destruct (properties_of_lookup_is_Some _ geo _ _ Ed Hne) as [v' Hv'].
      rewrite Hv'. apply properties_of_lookup_Some in Hv' as [Hv' _].
      apply elem_of_map_to_list in Hv'. apply elem_of_map_to_list in Ed. congruence.
    + apply properties_of_lookup_None. intros v Hv.
      apply elem_of_map_to_list in Hv. congruence.
Qed.

Lemma fill_none_is_Some s k v : (k, v) ∈ iteritems s -> is_Some (fill_none s !! k).
Proof.
  intros Hin. rewrite fill_none_lookup. destruct (decide _); [eexists; reflexivity|].
  rewrite to_dict_lookup. destruct (last _) as [kv|] eqn:E; [eexists; reflexivity|].
  apply last_None in E.
  assert (Hx : (k, v) ∈ filter (fun kv => kv.1 = k) (iteritems s))
    by (apply (list_elem_of_filter (fun kv => kv.1 = k)); auto).
  rewrite E in Hx. inversion Hx.
Qed.

Lemma cells_single_elem t i k vs v :
  named k (columns t) = [(k, vs)] -> vs !! i = Some v ->
  filter (fun kv => kv.1 = k) (cells t i) = [(k, v)] /\
  (k, v) ∈ cells t i /\
  forall v', (k, v') ∈ cells t i -> v' = v.
Proof.
  intros H Hv. pose proof (cells_single t i k vs H) as Hc. rewrite Hv in Hc. cbn in Hc.
  split; [exact Hc|]. split.
  - assert (Hx : (k, v) ∈ filter (fun kv => kv.1 = k) (cells t i)) by (rewrite Hc; left).
    apply (list_elem_of_filter (fun kv => kv.1 = k)) in Hx. tauto.
  - intros v' Hin.
    assert (Hx : (k, v') ∈ filter (fun kv => kv.1 = k) (cells t i))
      by (apply (list_elem_of_filter (fun kv => kv.1 = k)); auto).
    rewrite Hc in Hx. apply list_elem_of_singleton in Hx. congruence.
Qed.

Lemma na_methods_null : na_methods "null" = Some (fun r => RowDict (fill_none r)).
Proof. reflexivity. Qed.

Lemma na_methods_drop : na_methods "drop" = Some (fun r => RowSeries (dropna r)).
Proof. reflexivity. Qed.

Lemma na_methods_keep : na_methods "keep" = Some (fun r => RowSeries r).
Proof. reflexivity. Qed.

(** [na='null']: the missing value is [null], and no key is lost. *)
Lemma to_json_null_row self st doc st' i lbl k vs v :
  to_json self "null" st = (Ok doc, st') ->
  index (table_of st self) !! i = Some lbl ->
  k <> _geometry_column_name self ->
  named k (columns (table_of st self)) = [(k, vs)] ->
  vs !! i = Some v -> isnull v = true ->
  exists ft,
    features_of doc !! i = Some ft /\
    (str k, Json.JNull) ∈ properties_members ft /\
    forall c, c ∈ col_labels (table_of st self) -> c <> _geometry_column_name self ->
              str c ∈ (properties_members ft).*1.
Proof.
  intros H Hi Hne Hk Hv Hnull.
  destruct (to_json_row _ _ _ _ _ _ _ H Hi) as (f & g & ms & Hf & _ & Hms & Hft).
  rewrite na_methods_null in Hf. injection Hf as <-. cbn [row_items] in Hms.
  eexists. split; [exact Hft|]. rewrite properties_members_feature.
  destruct (cells_single_elem _ _ _ _ _ Hk Hv) as (_ & Hin & _).
  split.
  - assert (Hd : properties_of (map_to_list (fill_none (row (table_of st self) i lbl)))
                   (_geometry_column_name self) !! k = Some VNone).
    { rewrite properties_of_dict, decide_False by exact Hne.
      rewrite fill_none_lookup, decide_True; [reflexivity|].
      apply elem_of_na_keys. exists v. split; [|exact Hnull].
      fold (iteritems (row (table_of st self) i lbl)). rewrite iteritems_row. exact Hin. }
    destruct (dumps_properties_entry _ _ _ _ Hms Hd) as (j & [= <-] & Hj). exact Hj.
  - intros c Hc Hcg.
    unfold col_labels in Hc. apply list_elem_of_fmap in Hc as [[c' cs] [-> Hcs]]. cbn in *.
    assert (Hcell : (c', default VNaN (cs !! i)) ∈ cells (table_of st self) i)
      by (apply elem_of_cells; eauto).
    rewrite <- (iteritems_row _ _ lbl) in Hcell.
    destruct (fill_none_is_Some _ _ _ Hcell) as [w Hw].
    assert (Hd : properties_of (map_to_list (fill_none (row (table_of st self) i lbl)))
                   (_geometry_column_name self) !! c' = Some w)
      by (rewrite properties_of_dict, decide_False by exact Hcg; exact Hw).
    destruct (dumps_properties_entry _ _ _ _ Hms Hd) as (j & _ & Hj).
    apply list_elem_of_fmap. exists (str c', j). auto.
Qed.

(** [na='drop']: no member of the row's properties comes from the column
    with the missing value. *)
Lemma to_json_drop_row self st doc st' i lbl k vs v :
  to_json self "drop" st = (Ok doc, st') ->
  index (table_of st self) !! i = Some lbl ->
  named k (columns (table_of st self)) = [(k, vs)] ->
  vs !! i = Some v -> isnull v = true ->
  exists ft,
    features_of doc !! i = Some ft /\
    forall s j, (s, j) ∈ properties_members ft ->
      exists c, s = str c /\ c <> k /\ c <> _geometry_column_name self /\
                c ∈ col_labels (table_of st self).
Proof.
  intros H Hi Hk Hv Hnull.
  destruct (to_json_row _ _ _ _ _ _ _ H Hi) as (f & g & ms & Hf & _ & Hms & Hft).
  rewrite na_methods_drop in Hf. injection Hf as <-. cbn [row_items] in Hms.
  rewrite iteritems_dropna, iteritems_row in Hms.
  eexists. split; [exact Hft|]. rewrite properties_members_feature.
  destruct (cells_single_elem _ _ _ _ _ Hk Hv) as (_ & _ & Huniq).
  intros s j Hsj.
  destruct (dumps_properties_member _ _ _ _ Hms Hsj) as (c & w & Hd & -> & _).
  apply properties_of_lookup_Some in Hd as [Hin Hcg].
  apply (list_elem_of_filter (fun kv => isnull kv.2 = false)) in Hin as [Hnn Hin].
  cbn in Hnn. exists c. repeat split; [|exact Hcg|exact (cells_key_label _ _ _ _ Hin)].
  intros ->. rewrite (Huniq _ Hin) in Hnn. congruence.
Qed.

(** [na='drop']: a row whose value under the column is present keeps the
    key. *)
Lemma to_json_drop_other_row self st doc st' i lbl k vs v :
  to_json self "drop" st = (Ok doc, st') ->
  index (table_of st self) !! i = Some lbl ->
  k <> _geometry_column_name self ->
  named k (columns (table_of st self)) = [(k, vs)] ->
  vs !! i = Some v -> isnull v = false ->
  exists ft j,
    features_of doc !! i = Some ft /\
    Json.dumps_value v = Ok j /\
    (str k, j) ∈ properties_members ft.
Proof.
  intros H Hi Hne Hk Hv Hnn.
  destruct (to_json_row _ _ _ _ _ _ _ H Hi) as (f & g & ms & Hf & _ & Hms & Hft).
  rewrite na_methods_drop in Hf. injection Hf as <-. cbn [row_items] in Hms.
  rewrite iteritems_dropna, iteritems_row in Hms.
  destruct (cells_single_elem _ _ _ _ _ Hk Hv) as (Hc & _ & _).
  assert (Hd : properties_of
                 (filter (fun kv => isnull kv.2 = false) (cells (table_of st self) i))
                 (_geometry_column_name self) !! k = Some v).
  { apply properties_of_lookup_single; [|exact Hne].
    rewrite filter_comm, Hc, filter_cons. cbn. rewrite decide_True by exact Hnn.
    reflexivity. }
  destruct (dumps_properties_entry _ _ _ _ Hms Hd) as (j & Hj & Hin).
  eexists _, j. rewrite properties_members_feature. eauto.
Qed.

(** [na='keep']: the value goes to the serialiser as it is. *)
Lemma to_json_keep_row self st doc st' i lbl k vs v :
  to_json self "keep" st = (Ok doc, st') ->
  index (table_of st self) !! i = Some lbl ->
  k <> _geometry_column_name self ->
  named k (columns (table_of st self)) = [(k, vs)] ->
  vs !! i = Some v ->
  exists ft j,
    features_of doc !! i = Some ft /\
    Json.dumps_value v = Ok j /\
    (str k, j) ∈ properties_members ft.
Proof.
  intros H Hi Hne Hk Hv.
  destruct (to_json_row _ _ _ _ _ _ _ H Hi) as (f & g & ms & Hf & _ & Hms & Hft).
  rewrite na_methods_keep in Hf. injection Hf as <-. cbn [row_items] in Hms.
  rewrite iteritems_row in Hms.
  destruct (cells_single_elem _ _ _ _ _ Hk Hv) as (Hc & _ & _).
  assert (Hd : properties_of (cells (table_of st self) i)
                 (_geometry_column_name self) !! k = Some v)
    by (apply properties_of_lookup_single; assumption).
  destruct (dumps_properties_entry _ _ _ _ Hms Hd) as (j & Hj & Hin).
  eexists _, j. rewrite properties_members_feature. eauto.
Qed.

(** C4. On an exportable geo-table take a row with a missing value (NaN or
    None) in a column other than the geometry column, whose label no other
    column bears.  With [na='null'] the row's properties hold the key with
    the value [null], and a key for every non-geometry column.  With
    [na='drop'] no member of that row's properties comes from the column,
    while a row with a value there keeps the key.  With [na='keep'] the key
    is there with the value as the serialiser renders it: the token [NaN]
    for a NaN, [null] for a None. *)
Theorem to_json_missing_values
    (self : Frame) (st : State) (i : nat) (lbl k : label)
    (vs : list value) (v : value) :
  json_exportable (table_of st self) (_geometry_column_name self) = true ->
  index (table_of st self) !! i = Some lbl ->
  k <> _geometry_column_name self ->
  named k (columns (table_of st self)) = [(k, vs)] ->
  vs !! i = Some v ->
  isnull v = true ->
  (exists doc ft,
     to_json self "null" st = (Ok doc, st) /\
     features_of doc !! i = Some ft /\
     (str k, Json.JNull) ∈ properties_members ft /\
     Json.token Json.JNull = Some "null" /\
     forall c, c ∈ col_labels (table_of st self) -> c <> _geometry_column_name self ->
               str c ∈ (properties_members ft).*1)
  /\
  (exists doc ft,
     to_json self "drop" st = (Ok doc, st) /\
     features_of doc !! i = Some ft /\
     (forall s j, (s, j) ∈ properties_members ft ->
        exists c, s = str c /\ c <> k /\ c <> _geometry_column_name self /\
                  c ∈ col_labels (table_of st self)) /\
     (forall i2 lbl2 v2,
        index (table_of st self) !! i2 = Some lbl2 ->
        vs !! i2 = Some v2 -> isnull v2 = false ->
        exists ft2 j2,
          features_of doc !! i2 = Some ft2 /\
          Json.dumps_value v2 = Ok j2 /\
          (str k, j2) ∈ properties_members ft2))
  /\
  (exists doc ft,
     to_json self "keep" st = (Ok doc, st) /\
     features_of doc !! i = Some ft /\
     (v = VNaN -> (str k, Json.JNaN) ∈ properties_members ft) /\
     (v = VNone -> (str k, Json.JNull) ∈ properties_members ft) /\
     Json.token Json.JNaN = Some "NaN").
Proof.
  intros Hx Hi Hne Hk Hv Hnull. split; [|split].
  - destruct (to_json_total self "null" st _ na_methods_null Hx) as [doc Hdoc].
    destruct (to_json_null_row _ _ _ _ _ _ _ _ _ Hdoc Hi Hne Hk Hv Hnull)
      as (ft & Hft & Hmem & Hkeys).
    exists doc, ft. auto.
  - destruct (to_json_total self "drop" st _ na_methods_drop Hx) as [doc Hdoc].
    destruct (to_json_drop_row _ _ _ _ _ _ _ _ _ Hdoc Hi Hk Hv Hnull)
      as (ft & Hft & Hmem).
    exists doc, ft. repeat split; [exact Hdoc | exact Hft | exact Hmem |].
    intros i2 lbl2 v2 Hi2 Hv2 Hnn.
    apply (to_json_drop_other_row _ _ _ _ _ _ _ _ _ Hdoc Hi2 Hne Hk Hv2 Hnn).
  - destruct (to_json_total self "keep" st _ na_methods_keep Hx) as [doc Hdoc].
    destruct (to_json_keep_row _ _ _ _ _ _ _ _ _ Hdoc Hi Hne Hk Hv)
      as (ft & j & Hft & Hj & Hmem).
    exists doc, ft. repeat split; [exact Hdoc | exact Hft | | ].
    + intros ->. injection Hj as <-. exact Hmem.
    + intros ->. injection Hj as <-. exact Hmem.
Qed.

Lemma to_json_missing_values_witness :
  exists doc ft,
    to_json Samples.plain_frame "null" (Samples.state_of Samples.nybb)
      = (Ok doc, Samples.state_of Samples.nybb) /\
    features_of doc !! 0%nat = Some ft /\
    ("Shape_Area", Json.JNull) ∈ properties_members ft.
Proof.
  destruct (to_json_missing_values Samples.plain_frame (Samples.state_of Samples.nybb)
              0%nat (LInt 0) (LStr "Shape_Area") [VNaN; VInt 42] VNaN)
    as [(doc & ft & H1 & H2 & H3 & _) _].
  - vm_compute. reflexivity.
  - reflexivity.
  - discriminate.
  - vm_compute. reflexivity.
  - reflexivity.
  - reflexivity.
  - exists doc, ft. auto.
Defined.

(** Under [na='keep'] a None is rendered [null], not [NaN]; and with two
    columns under one label the later one decides the property, so a NaN
    in the earlier one is neither dropped nor kept. *)
Lemma to_json_keep_none_and_duplicates :
  (exists doc ft,
     to_json Samples.plain_frame "keep" (Samples.state_of Samples.nybb)
       = (Ok doc, Samples.state_of Samples.nybb) /\
     isnull VNone = true /\
     features_of doc !! 1%nat = Some ft /\
     (Json.field "properties" ft ≫= Json.field "Remark") = Some Json.JNull) /\
  (exists doc ft,
     to_json Samples.plain_frame "drop" (Samples.state_of Samples.twice_a)
       = (Ok doc, Samples.state_of Samples.twice_a) /\
     features_of doc !! 0%nat = Some ft /\
     (Json.field "properties" ft ≫= Json.field "a") = Some (Json.JInt 1)).
Proof.
  split; eexists _, _; (split; [vm_compute; reflexivity|]);
    repeat split; vm_compute; reflexivity.
Qed.

(** *** The properties of a row, whatever the method *)

(** Where an entry of the properties comes from: a cell of the row outside
    the geometry column, with the cell's value; under [na='null'] it may
    also be [None], standing for a missing cell under that label. *)
Lemma row_properties_origin na f t i lbl geo k v :
  na_methods na = Some f ->
  properties_of (row_items (f (row t i lbl))) geo !! k = Some v ->
  k <> geo /\
  ((k, v) ∈ cells t i \/
   (na = "null" /\ v = VNone /\ exists v', (k, v') ∈ cells t i /\ isnull v' = true)).
Proof.
  intros Hf Hp. apply properties_of_lookup_Some in Hp as [Hin Hne].
  split; [exact Hne|].
  apply na_methods_cases in Hf as [[-> ->]|[[_ ->]|[_ ->]]]; cbn [row_items] in Hin.
  - apply elem_of_map_to_list in Hin. rewrite fill_none_lookup in Hin.
    destruct (decide _) as [Hk|Hk].
    + injection Hin as <-. right. split; [reflexivity|]. split; [reflexivity|].
      apply elem_of_na_keys in Hk as [v' [Hv' Hn]].
      fold (iteritems (row t i lbl)) in Hv'. rewrite iteritems_row in Hv'.
      exists v'. auto.
    + rewrite to_dict_lookup in Hin.
      destruct (last _) as [[k' v']|] eqn:E; [|discriminate].
      cbn in Hin. injection Hin as <-. apply last_elem_of in E.
      apply (list_elem_of_filter (fun kv => kv.1 = k)) in E as [E1 E2].
      cbn in E1. subst k'. rewrite iteritems_row in E2. left. exact E2.
  - rewrite iteritems_dropna, iteritems_row in Hin.
    apply (list_elem_of_filter (fun kv => isnull kv.2 = false)) in Hin as [_ Hin].
    left. exact Hin.
  - rewrite iteritems_row in Hin. left. exact Hin.
Qed.

(** A value that is present, in a non-geometry column whose label no other
    column bears, is an entry of the properties. *)
Lemma row_properties_present na f t i lbl geo k vs v :
  na_methods na = Some f ->
  k <> geo ->
  named k (columns t) = [(k, vs)] ->
  vs !! i = Some v ->
  isnull v = false ->
  properties_of (row_items (f (row t i lbl))) geo !! k = Some v.
Proof.
  intros Hf Hne Hk Hv Hnn.
  destruct (cells_single_elem _ _ _ _ _ Hk Hv) as (Hc & _ & Huniq).
  apply na_methods_cases in Hf as [[_ ->]|[[_ ->]|[_ ->]]]; cbn [row_items].
  - rewrite properties_of_dict, decide_False by exact Hne.
    rewrite fill_none_lookup, decide_False.
    + rewrite to_dict_lookup, iteritems_row, Hc. reflexivity.
    + intros Hin. apply elem_of_na_keys in Hin as [v' [Hv' Hn]].
      fold (iteritems (row t i lbl)) in Hv'.
      rewrite iteritems_row in Hv'. rewrite (Huniq _ Hv') in Hn. congruence.
  - rewrite iteritems_dropna, iteritems_row.
    apply properties_of_lookup_single; [|exact Hne].
    rewrite filter_comm, Hc, filter_cons. cbn. rewrite decide_True by exact Hnn.
    reflexivity.
  - rewrite iteritems_row. apply properties_of_lookup_single; assumption.
Qed.

(** Unless missing values are dropped, every non-geometry label of the
    row is a key of the properties. *)
Lemma row_properties_keys na f t i lbl geo k v :
  na_methods na = Some f ->
  na <> "drop" ->
  (k, v) ∈ cells t i ->
  k <> geo ->
  is_Some (properties_of (row_items (f (row t i lbl))) geo !! k).
Proof.
  intros Hf Hnd Hin Hne.
  apply na_methods_cases in Hf as [[_ ->]|[[-> _]|[_ ->]]]; cbn [row_items].
  - rewrite properties_of_dict, decide_False by exact Hne.
    apply (fill_none_is_Some _ _ v). rewrite iteritems_row. exact Hin.
  - contradiction.
  - rewrite iteritems_row. apply (properties_of_lookup_is_Some _ _ _ v); assumption.
Qed.

(** C5. On an exportable geo-table, under each of the three [na] methods,
    [to_json] returns a document of type [FeatureCollection] with one
    feature per row, in row order.  The feature of a row has as [id] the
    row's INDEX LABEL rendered with [str], the type [Feature], as geometry
    the mapping of the row's cell in the geometry column, and a properties
    object built from the row's cells outside the geometry column: every
    member is the rendered label of such a cell with the cell's value as
    the serialiser renders it (or, under [na='null'], [null] for a missing
    cell); every value that is present, in a column whose label no other
    column bears, is a member under that label; and unless missing values
    are dropped every non-geometry label is a key. *)
Theorem to_json_feature_collection (self : Frame) (na : string) (st : State) :
  is_Some (na_methods na) ->
  json_exportable (table_of st self) (_geometry_column_name self) = true ->
  exists doc,
    to_json self na st = (Ok doc, st) /\
    Json.field "type" doc = Some (Json.JStr "FeatureCollection") /\
    length (features_of doc) = nrows (table_of st self) /\
    forall i lbl, index (table_of st self) !! i = Some lbl ->
      exists ft g gs ms,
        features_of doc !! i = Some ft /\
        Json.field "id" ft = Some (Json.JStr (str lbl)) /\
        Json.field "type" ft = Some (Json.JStr "Feature") /\
        named (_geometry_column_name self) (columns (table_of st self))
          = [(_geometry_column_name self, gs)] /\
        gs !! i = Some (VGeom g) /\
        Json.field "geometry" ft
          = Some (Json.dumps_geometry (Shapely.geo_interface g)) /\
        Json.field "properties" ft = Some (Json.JObj ms) /\
        (forall s j, (s, j) ∈ ms ->
           exists c v, s = str c /\ c <> _geometry_column_name self /\
                       Json.dumps_value v = Ok j /\
                       ((c, v) ∈ cells (table_of st self) i \/
                        (na = "null" /\ v = VNone /\
                         exists v', (c, v') ∈ cells (table_of st self) i /\
                                    isnull v' = true))) /\
        (forall c vs v, c <> _geometry_column_name self ->
           named c (columns (table_of st self)) = [(c, vs)] ->
           vs !! i = Some v -> isnull v = false ->
           exists j, Json.dumps_value v = Ok j /\ (str c, j) ∈ ms) /\
        (forall c, c ∈ col_labels (table_of st self) ->
           c <> _geometry_column_name self -> na <> "drop" ->
           str c ∈ ms.*1).
Proof.
  intros [f Hf] Hx.
  destruct (to_json_total self na st f Hf Hx) as [doc Hdoc].
  exists doc. split; [exact Hdoc|].
  split.
  { apply to_json_inv in Hdoc as (_ & ? & ? & ? & _ & _ & _ & ->). reflexivity. }
  split; [exact (to_json_length _ _ _ _ _ Hdoc)|].
  intros i lbl Hi.
  destruct (to_json_row _ _ _ _ _ _ _ Hdoc Hi) as (f' & g & ms & Hf' & Hg & Hms & Hft).
  destruct (exportable_named _ _ Hx) as [gs Hgs].
  exists (feature_json (str lbl) ms g), g, gs, ms.
  split; [exact Hft|]. split; [reflexivity|]. split; [reflexivity|].
  split; [exact Hgs|].
  split.
  { destruct (row_getitem_geometry _ _ _ _ _ _ _ Hf' Hg) as (vs & Hin & Hvs).
    assert (Hn : (_geometry_column_name self, vs)
                   ∈ named (_geometry_column_name self) (columns (table_of st self)))
      by (apply elem_of_named; auto).
    rewrite Hgs in Hn. apply list_elem_of_singleton in Hn. congruence. }
  split; [reflexivity|]. split; [reflexivity|].
  split; [|split].
  - intros s j Hsj.
    destruct (dumps_properties_member _ _ _ _ Hms Hsj) as (c & w & Hd & -> & Hw).
    destruct (row_properties_origin _ _ _ _ _ _ _ _ Hf' Hd) as [Hcg Ho].
    exists c, w. auto.
  - intros c vs v Hcg Hc Hv Hnn.
    pose proof (row_properties_present _ _ _ _ lbl _ _ _ _ Hf' Hcg Hc Hv Hnn) as Hd.
    exact (dumps_properties_entry _ _ _ _ Hms Hd).
  - intros c Hc Hcg Hnd.
    unfold col_labels in Hc. apply list_elem_of_fmap in Hc as [[c' cs] [-> Hcs]].
    cbn in Hcg |- *.
    assert (Hcell : (c', default VNaN (cs !! i)) ∈ cells (table_of st self) i)
      by (apply elem_of_cells; eauto).
    destruct (row_properties_keys _ _ _ _ lbl _ _ _ Hf' Hnd Hcell Hcg) as [w Hw].
    destruct (dumps_properties_entry _ _ _ _ Hms Hw) as (j & _ & Hj).
    apply list_elem_of_fmap. exists (str c', j). auto.
Qed.

Lemma to_json_feature_collection_witness :
  exists doc ft ms,
    to_json Samples.plain_frame "null" (Samples.state_of Samples.rows_2_and_4)
      = (Ok doc, Samples.state_of Samples.rows_2_and_4) /\
    Json.field "type" doc = Some (Json.JStr "FeatureCollection") /\
    length (features_of doc) = 2%nat /\
    features_of doc !! 0%nat = Some ft /\
    Json.field "id" ft = Some (Json.JStr "2") /\
    Json.field "properties" ft = Some (Json.JObj ms) /\
    ("BoroName", Json.JStr "Brooklyn") ∈ ms.
Proof.
  destruct (to_json_feature_collection Samples.plain_frame "null"
              (Samples.state_of Samples.rows_2_and_4))
    as (doc & H1 & H2 & H3 & H4).
  - eexists. reflexivity.
  - vm_compute. reflexivity.
  - destruct (H4 0%nat (LInt 2) eq_refl)
      as (ft & g & gs & ms & Hft & Hid & _ & _ & _ & _ & Hp & _ & Hv & _).
    destruct (Hv (LStr "BoroName") [VStr "Brooklyn"; VStr "Bronx"] (VStr "Brooklyn"))
      as (j & Hj & Hin).
    + discriminate.
    + vm_compute. reflexivity.
    + reflexivity.
    + reflexivity.
    + injection Hj as <-. exists doc, ft, ms. auto 10.
Defined.

(** The table [rows_2_and_4] is what a boolean selection of [five_rows]
    gives, as a [GeoDataFrame]. *)
Lemma rows_2_and_4_selected :
  __getitem__ Samples.plain_frame (KMask [false; false; true; false; true])
              (Samples.state_of Samples.five_rows)
  = (Ok {| sel_class := cGeoDataFrame;
           sel_obj := PFrame Samples.rows_2_and_4;
           sel_crs := Some None |},
     Samples.state_of Samples.five_rows).
Proof. vm_compute. reflexivity. Qed.

(** On that table the feature at position 0 has the id ["2"], the label
    of the row, and not ["0"], its position.  And a table that keeps a
    second column of geometry objects, as [set_geometry] with [drop=False]
    leaves it, is not exported at all: the serialiser refuses the value. *)
Lemma to_json_id_is_not_position :
  (exists doc ft,
     to_json Samples.plain_frame "null" (Samples.state_of Samples.rows_2_and_4)
       = (Ok doc, Samples.state_of Samples.rows_2_and_4) /\
     features_of doc !! 0%nat = Some ft /\
     Json.field "id" ft = Some (Json.JStr "2") /\
     Json.field "id" ft <> Some (Json.JStr (pretty 0%nat))) /\
  to_json Samples.boros_frame "null" Samples.boros_state
    = (Raise (TypeError "is not JSON serializable"), Samples.boros_state).
Proof.
  split; [|vm_compute; reflexivity].
  eexists _, _. split; [vm_compute; reflexivity|].
  split; [vm_compute; reflexivity|].
  split; [vm_compute; reflexivity|].
  vm_compute. discriminate.
Qed.

(** ** Column selection on the sample tables *)

Lemma getitem_geo_selections_witness :
  __getitem__ Samples.boros_frame (KList [LStr "geometry"; LStr "BoroName"])
              Samples.boros_state =
    (Ok {| sel_class := cGeoDataFrame;
           sel_obj := PFrame (take_columns Samples.boros
                                           [LStr "geometry"; LStr "BoroName"]);
           sel_crs := Some Samples.epsg4326 |},
     Samples.boros_state) /\
  __getitem__ Samples.boros_frame (KLabel (LStr "geometry")) Samples.boros_state =
    (Ok {| sel_class := cGeoSeries;
           sel_obj := PSeries {| s_name := Some (LStr "geometry");
                                 s_index := [LInt 0; LInt 1];
                                 s_values := [Samples.point 0 0; Samples.point 1 1] |};
           sel_crs := Some Samples.epsg4326 |},
     Samples.boros_state).
Proof.
  destruct (getitem_geo_selections Samples.boros_frame Samples.boros_state) as (H1 & H2).
  split.
  - apply (H2 [LStr "geometry"; LStr "BoroName"]).
    + intros l Hl. apply elem_of_cons in Hl as [->|Hl]; [vm_compute; reflexivity|].
      apply list_elem_of_singleton in Hl. subst l. vm_compute. reflexivity.
    + left.
    + left.
  - apply (H1 "geometry" [Samples.point 0 0; Samples.point 1 1]).
    + reflexivity.
    + vm_compute. reflexivity.
Defined.

(** A frame whose geometry column is labelled by an integer arises from
    [set_geometry(0, drop=False)] on a table with such a column. *)
Lemma integer_frame_reachable :
  (self <- __init__ (DataNew Samples.integer_labels) Samples.epsg4326 None;;
   set_geometry self (ArgCol (LInt 0)) false true) Samples.no_state
  = (Ok Samples.integer_frame, Samples.state_of Samples.integer_labels).
Proof. vm_compute. reflexivity. Qed.

(** Selecting its geometry column by name gives a plain [Series] without
    CRS: the key is not a string. *)
Lemma getitem_integer_name_plain_series :
  __getitem__ Samples.integer_frame (KLabel (LInt 0))
              (Samples.state_of Samples.integer_labels)
  = (Ok {| sel_class := cSeries;
           sel_obj := PSeries {| s_name := Some (LInt 0);
                                 s_index := [LInt 0; LInt 1];
                                 s_values := [Samples.point 0 0; Samples.point 1 1] |};
           sel_crs := None |},
     Samples.state_of Samples.integer_labels).
Proof. vm_compute. reflexivity. Qed.


(** The selection of the test suite, one non-geometry column of a table
    whose geometry column has the default name, is refused in the same
    way. *)
Example getitem_boroname_refused :
  __getitem__ Samples.boros_frame (KList [LStr "BoroName"]) Samples.boros_state
  = (Raise (must_pass_geometry (LStr "geometry")), Samples.boros_state).
Proof. vm_compute. reflexivity. Qed.

(** So is a selection that includes the geometry column, when that column
    has another name and no column is called [geometry]. *)
Example getitem_location_refused :
  __getitem__ Samples.located_frame (KList [LStr "location"; LStr "A"])
              Samples.located_state
  = (Raise (must_pass_geometry (LStr "geometry")), Samples.located_state).
Proof. vm_compute. reflexivity. Qed.

(** Where the plain table is reached, its column [crs] holds NaN and not
    the CRS of the frame. *)
Example getitem_crs_column_is_nan :
  __getitem__ Samples.located_frame (KList [LStr "geometry"; LStr "A"])
              (Samples.state_of Samples.both_columns)
  = (Ok {| sel_class := cDataFrame;
           sel_obj := PFrame {| columns := [ (LStr "geometry",
                                              [Samples.point 9 9; Samples.point 8 8]);
                                             (LStr "A", [VInt 0; VInt 1]);
                                             (LStr "crs", [VNaN; VNaN]) ];
                                index := [LInt 0; LInt 1] |};
           sel_crs := None |},
     Samples.state_of Samples.both_columns).
Proof. vm_compute. reflexivity. Qed.

(** ** Construction on the sample tables *)

Example init_without_geometry_column :
  fst (__init__ (DataNew Samples.located) Samples.epsg4326 None Samples.no_state)
  = Raise (must_pass_geometry (LStr "geometry")).
Proof. vm_compute. reflexivity. Qed.

Example init_with_sequence :
  exists self st,
    __init__ (DataNew Samples.located) Samples.epsg4326
             (Some (ArgSeq [Samples.point 3 3; Samples.point 4 4])) Samples.no_state
    = (Ok self, st) /\
    named (LStr "geometry") (columns (table_of st self))
    = [(LStr "geometry", [Samples.point 3 3; Samples.point 4 4])].
Proof. eexists _, _. split; vm_compute; reflexivity. Qed.

(** ** [set_geometry] on the sample tables *)

(** The returning variant meets the same end on its copy, and leaves the
    original as it was. *)
Example set_geometry_drop_on_copy :
  exists st',
    set_geometry Samples.boros_frame (ArgCol (LStr "simplified_geometry")) true false
                 Samples.boros_state
    = (Raise (ValueError "labels not contained in axis"), st') /\
    contains (table_at st' 1) (LStr "simplified_geometry") = true /\
    table_at st' 0 = Samples.boros.
Proof. eexists. repeat split; vm_compute; reflexivity. Qed.

(** Where the column label is also a row label, [drop] removes that row:
    the column stays and the table is one row short. *)
Example set_geometry_drop_removes_row :
  exists st',
    set_geometry Samples.plain_frame (ArgCol (LInt 0)) true true
                 (Samples.state_of Samples.integer_labels)
    = (Ok Samples.plain_frame, st') /\
    table_at st' 0 =
      {| columns := [ (LInt 0, [Samples.point 1 1]);
                      (LStr "geometry", [Samples.point 1 1]) ];
         index := [LInt 1] |}.
Proof. eexists. split; vm_compute; reflexivity. Qed.

(** With [drop=False] the column is kept and becomes the geometry column;
    on a table that has a [geometry] column this holds for the returned
    copy as well. *)
Example set_geometry_nodrop_returns_copy :
  set_geometry Samples.boros_frame (ArgCol (LStr "simplified_geometry")) false false
               Samples.boros_state
  = (Ok {| _data := 1; crs := Samples.epsg4326;
           _geometry_column_name := LStr "simplified_geometry" |},
     {| heap := [Samples.boros; Samples.boros]; files := [] |}).
Proof. vm_compute. reflexivity. Qed.

(** * Further properties *)

(** ** The effect of the storage operations *)

Lemma setitem_m_unfold frame c vs st :
  setitem_m frame c vs st =
  match setitem_seq (table_at st (_data frame)) c vs with
  | Ok t' => (Ok tt, {| heap := <[_data frame := t']> (heap st); files := files st |})
  | Raise e => (Raise e, st)
  end.
Proof.
  unfold setitem_m, bind, read, lift, write.
  destruct (setitem_seq (table_at st (_data frame)) c vs); reflexivity.
Qed.

Lemma drop_m_unfold frame lbl st :
  drop_m frame lbl st =
  match Pandas.drop (table_at st (_data frame)) lbl with
  | Ok t' => (Ok tt, {| heap := <[_data frame := t']> (heap st); files := files st |})
  | Raise e => (Raise e, st)
  end.
Proof.
  unfold drop_m, bind, read, lift, write.
  destruct (Pandas.drop (table_at st (_data frame)) lbl); reflexivity.
Qed.

(** Column selection reads the frame and writes nothing. *)
Lemma getitem_state self key st : snd (__getitem__ self key st) = st.
Proof.
  unfold __getitem__, bind, read, lift. cbn.
  destruct (super_getitem (table_at st (_data self)) key) as [[s|rt]|e]; cbn;
    [| |reflexivity].
  - destruct (key_is_geometry key (_geometry_column_name self)); reflexivity.
  - destruct (key_is_geometry key (_geometry_column_name self)); [reflexivity|].
    destruct (contains rt (_geometry_column_name self)); reflexivity.
Qed.

Lemma getitem_state_eq self key st r st' :
  __getitem__ self key st = (r, st') -> st' = st.
Proof. intros H. pose proof (getitem_state self key st) as Hs. rewrite H in Hs. exact Hs. Qed.

(** What an in-place [set_geometry] may touch: the storage of [self], and
    nothing else; the frame it hands back is [self] up to the
    geometry-column name. *)
Lemma set_geometry_inplace_effect self col drop st r st' :
  set_geometry self col drop true st = (r, st') ->
  files st' = files st /\
  (heap st' = heap st \/ exists t', heap st' = <[_data self := t']> (heap st)) /\
  match r with
  | Ok f => _data f = _data self /\ crs f = crs self
  | Raise _ => True
  end.
Proof.
  unfold set_geometry, bind, ret. cbn -[__getitem__ setitem_m drop_m].
  destruct col as [level|col].
  - rewrite setitem_m_unfold.
    destruct (setitem_seq _ _ _) as [t'|e]; intros [= <- <-]; cbn; eauto 6.
  - unfold read. cbn -[__getitem__ setitem_m drop_m].
    set (col' := if contains _ col then col else _).
    destruct (__getitem__ self (KLabel col') st) as [[level|e] st1] eqn:Hg;
      apply getitem_state_eq in Hg as Hst; subst st1;
      [|intros [= <- <-]; auto].
    destruct (negb (isinstance_Series level)); [intros [= <- <-]; cbn; auto|].
    destruct drop; [|intros [= <- <-]; cbn; auto].
    destruct (bool_decide (col' <> _geometry_column_name self));
      [|intros [= <- <-]; cbn; auto].
    rewrite setitem_m_unfold.
    destruct (setitem_seq _ _ _) as [t1|e]; [|intros [= <- <-]; cbn; auto].
    rewrite drop_m_unfold. cbn [heap files _data].
    destruct (Pandas.drop _ _) as [t2|e]; intros [= <- <-]; cbn.
    + split; [reflexivity|]. split; [|auto]. right. exists t2.
      apply list_insert_insert_eq.
    + split; [reflexivity|]. split; [|auto]. right. eauto.
Qed.

(** ** Returning a new object *)

Lemma copy_deep_cases self st :
  copy self true st =
  ((if contains (table_of st self) default_geometry_column_name
    then Ok {| _data := length (heap st); crs := crs self;
               _geometry_column_name := _geometry_column_name self |}
    else Raise (must_pass_geometry default_geometry_column_name)),
   {| heap := heap st ++ [table_of st self]; files := files st |}).
Proof.
  destruct (contains (table_of st self) default_geometry_column_name) eqn:H.
  - apply copy_deep_ok. exact H.
  - unfold table_of in H. unfold copy, bind, ret, read, alloc, init_table. cbn.
    unfold init_check, bind, read. cbn.
    rewrite table_at_alloc_new, H. reflexivity.
Qed.

(** Without [inplace], [set_geometry] is [copy] followed by the in-place
    operation on the copy. *)
Lemma set_geometry_copy_then_inplace self col drop st :
  allocated st self ->
  set_geometry self col drop false st =
  (frame <- copy self true;; set_geometry frame col drop true) st.
Proof.
  intros Ha. unfold set_geometry, bind. rewrite copy_deep_cases.
  destruct (contains (table_of st self) default_geometry_column_name); [|reflexivity].
  destruct col as [level|col]; [reflexivity|].
  unfold ret, read. cbn -[__getitem__ setitem_m drop_m table_at].
  rewrite table_at_alloc_new.
  rewrite (table_at_alloc_old (heap st) (files st) (table_of st self) (_data self) Ha).
  reflexivity.
Qed.

(** X2. Called without [inplace], [set_geometry] never touches the object
    it is called on: whatever the argument and whatever the outcome, every
    storage that existed before holds the table it held, nothing reaches the
    file library, and a returned frame lives in storage allocated by the
    call. *)
Theorem set_geometry_leaves_original
    (self : Frame) (col : geom_arg) (drop : bool) (st : State) :
  allocated st self ->
  let '(r, st') := set_geometry self col drop false st in
  table_of st' self = table_of st self /\
  (forall a, (a < length (heap st))%nat -> table_at st' a = table_at st a) /\
  files st' = files st /\
  match r with
  | Ok frame => _data frame = length (heap st)
  | Raise _ => True
  end.
Proof.
  intros Ha. rewrite (set_geometry_copy_then_inplace _ _ _ _ Ha).
  unfold bind. rewrite copy_deep_cases.
  set (st1 := {| heap := heap st ++ [table_of st self]; files := files st |}).
  assert (Hold : forall a, (a < length (heap st))%nat -> table_at st1 a = table_at st a).
  { intros a Hlt. unfold st1. rewrite table_at_alloc_old by exact Hlt. reflexivity. }
  destruct (contains (table_of st self) default_geometry_column_name).
  - set (frame := {| _data := length (heap st); crs := crs self;
                     _geometry_column_name := _geometry_column_name self |}).
    destruct (set_geometry frame col drop true st1) as [r st'] eqn:E.
    apply set_geometry_inplace_effect in E as (Hf & Hh & Hr). cbn [_data] in Hh.
    assert (Hall : forall a, (a < length (heap st))%nat -> table_at st' a = table_at st a).
    { intros a Hlt. rewrite <- (Hold a Hlt). unfold table_at.
      destruct Hh as [-> | [t' ->]]; [reflexivity|].
      apply list_lookup_total_insert_ne. unfold frame. cbn. lia. }
    split; [apply (Hall _ Ha)|]. split; [exact Hall|]. split; [rewrite Hf; reflexivity|].
    destruct r as [f|e]; [exact (proj1 Hr) | exact I].
  - split; [apply (Hold _ Ha)|]. split; [exact Hold|]. split; [reflexivity | exact I].
Qed.

(** ** Setting the geometry from a sequence *)

Lemma named_setitem_same t c vs :
  named c (columns (setitem t c vs)) =
  if contains t c then (fun _ => (c, vs)) <$> named c (columns t) else [(c, vs)].
Proof.
  unfold setitem. destruct (contains t c) eqn:Hc; cbn.
  - unfold named. induction (columns t) as [|p l IH]; [reflexivity|].
    rewrite fmap_cons, !filter_cons.
    destruct (decide (p.1 = c)) as [Hp|Hp]; cbn.
    + rewrite decide_True by reflexivity. rewrite IH. reflexivity.
    + rewrite decide_False by exact Hp. exact IH.
  - apply contains_false in Hc. unfold named. rewrite filter_app, filter_cons. cbn.
    rewrite decide_True by reflexivity.
    assert (Hn : filter (fun p : label * list value => p.1 = c) (columns t) = [])
      by (apply named_nil; exact Hc).
    rewrite Hn. reflexivity.
Qed.

Lemma named_setitem_single t c vs :
  (length (named c (columns t)) <= 1)%nat ->
  named c (columns (setitem t c vs)) = [(c, vs)].
Proof.
  intros H. rewrite named_setitem_same. destruct (contains t c) eqn:Hc; [|reflexivity].
  apply contains_named in Hc.
  destruct (named c (columns t)) as [|p [|q l]]; cbn in *; [contradiction|reflexivity|lia].
Qed.

(** X1. [set_geometry] with a raw sequence as long as the table, in place:
    the call succeeds and hands back [self]; afterwards a column bears the
    geometry-column name, every column bearing it holds the sequence, the
    other columns and the row index are as before, and, the name being a
    string borne by at most one column before the call, the [geometry]
    property reads the sequence back as a [GeoSeries] with the frame's
    CRS. *)
Theorem set_geometry_sequence_read_back
    (self : Frame) (level : list value) (drop : bool) (st : State) :
  allocated st self ->
  length level = nrows (table_of st self) ->
  exists st',
    set_geometry self (ArgSeq level) drop true st = (Ok self, st') /\
    files st' = files st /\
    index (table_of st' self) = index (table_of st self) /\
    contains (table_of st' self) (_geometry_column_name self) = true /\
    (forall p, p ∈ named (_geometry_column_name self) (columns (table_of st' self)) ->
       p.2 = level) /\
    (forall c, c <> _geometry_column_name self ->
       named c (columns (table_of st' self)) = named c (columns (table_of st self))) /\
    (forall n, _geometry_column_name self = LStr n ->
       (length (named (LStr n) (columns (table_of st self))) <= 1)%nat ->
       geometry self st' =
       (Ok {| sel_class := cGeoSeries;
              sel_obj := PSeries {| s_name := Some (LStr n);
                                    s_index := index (table_of st self);
                                    s_values := level |};
              sel_crs := Some (crs self) |}, st')).
Proof.
  intros Ha Hlen. unfold set_geometry, bind, ret. cbn -[setitem_m geometry].
  rewrite setitem_m_unfold. unfold setitem_seq. unfold table_of in *.
  rewrite (bool_decide_eq_true_2 _ Hlen).
  set (t := table_at st (_data self)) in *.
  set (t1 := setitem t (_geometry_column_name self) level).
  eexists. split; [reflexivity|]. cbn [files].
  rewrite (table_at_write_eq _ _ _ _ Ha). fold t1.
  split; [reflexivity|]. split; [apply index_setitem|].
  split; [apply contains_named; apply named_setitem_eq|].
  split; [intros p Hp; apply (named_setitem_eq t _ level) in Hp; subst p; reflexivity|].
  split; [intros c Hc; apply named_setitem_ne; exact Hc|].
  intros n Hn Hle.
  assert (H1 : named (LStr n) (columns t1) = [(LStr n, level)]).
  { unfold t1. rewrite Hn. apply named_setitem_single. exact Hle. }
  rewrite (geometry_single self _ n level Hn).
  - unfold table_of. rewrite (table_at_write_eq _ _ _ _ Ha). fold t1.
    unfold t1 at 1. rewrite index_setitem. reflexivity.
  - unfold table_of. rewrite (table_at_write_eq _ _ _ _ Ha). exact H1.
Qed.

(** A sequence of another length is refused and the table is left alone. *)
Lemma set_geometry_sequence_wrong_length self level drop st :
  length level <> nrows (table_of st self) ->
  set_geometry self (ArgSeq level) drop true st =
  (Raise (ValueError "Length of values does not match length of index"), st).
Proof.
  intros Hlen. unfold set_geometry, bind, ret. cbn -[setitem_m].
  rewrite setitem_m_unfold. unfold setitem_seq. unfold table_of in *.
  rewrite (bool_decide_eq_false_2 _ Hlen). reflexivity.
Qed.

(** ** Setting the geometry from a column reference *)

(** X3. [set_geometry(col, drop=False)] without [inplace], on a table that
    has a column called [geometry], [col] naming one column: the frame
    returned is a new one over a copy of the table, with [col] as
    geometry-column name and the CRS of the original; the table itself is
    copied unchanged, so [col] is retained and so is the previous geometry
    column. *)
Theorem set_geometry_nodrop_returns_copy_of
    (self : Frame) (col : label) (st : State) (vs : list value) :
  allocated st self ->
  contains (table_of st self) (LStr "geometry") = true ->
  named col (columns (table_of st self)) = [(col, vs)] ->
  set_geometry self (ArgCol col) false false st =
  (Ok {| _data := length (heap st); crs := crs self; _geometry_column_name := col |},
   {| heap := heap st ++ [table_of st self]; files := files st |}).
Proof.
  intros Ha Hg Hcol. rewrite (set_geometry_copy_then_inplace _ _ _ _ Ha).
  unfold bind. rewrite copy_deep_cases.
  change default_geometry_column_name with (LStr "geometry"). rewrite Hg.
  rewrite (set_geometry_nodrop_inplace _ col _ vs).
  - reflexivity.
  - unfold table_of. cbn [_data]. rewrite table_at_alloc_new. exact Hcol.
Qed.




Lemma index_getitem_elem ls k c : index_getitem ls k = Some c -> c ∈ ls.
Proof.
  unfold index_getitem. destruct k as [z|s]; [|discriminate].
  repeat case_bool_decide; try discriminate;
    intros Hl; apply list_elem_of_lookup; eauto.
Qed.

(** X5. A reference that is not a column label but indexes the column
    labels by position (from the end when negative) stands for the
    label at that position: the call behaves as the call with that
    label. *)
Theorem set_geometry_by_position
    (self : Frame) (col c : label) (drop inplace : bool) (st : State) :
  allocated st self ->
  contains (table_of st self) col = false ->
  index_getitem (col_labels (table_of st self)) col = Some c ->
  set_geometry self (ArgCol col) drop inplace st =
  set_geometry self (ArgCol c) drop inplace st.
Proof.
  assert (Hin : forall self st,
    contains (table_of st self) col = false ->
    index_getitem (col_labels (table_of st self)) col = Some c ->
    set_geometry self (ArgCol col) drop true st =
    set_geometry self (ArgCol c) drop true st).
  { clear. intros self st Hc Hi. unfold set_geometry, bind, ret, read.
    cbn -[__getitem__ setitem_m drop_m]. unfold table_of in *. rewrite Hc, Hi.
    assert (Hcc : contains (table_at st (_data self)) c = true)
      by (apply contains_true; exact (index_getitem_elem _ _ _ Hi)).
    rewrite Hcc. reflexivity. }
  intros Ha Hc Hi. destruct inplace; [apply Hin; assumption|].
  rewrite !(set_geometry_copy_then_inplace _ _ _ _ Ha).
  unfold bind. rewrite copy_deep_cases.
  destruct (contains (table_of st self) default_geometry_column_name); [|reflexivity].
  apply Hin; unfold table_of; cbn [_data]; rewrite table_at_alloc_new; assumption.
Qed.

(** X6. A reference that is neither a column label nor a valid position
    (any string that is not a column label, an integer out of range) ends
    in the [KeyError] of the column lookup, with nothing changed. *)
Theorem set_geometry_unknown_reference
    (self : Frame) (col : label) (drop : bool) (st : State) :
  contains (table_of st self) col = false ->
  index_getitem (col_labels (table_of st self)) col = None ->
  set_geometry self (ArgCol col) drop true st = (Raise (KeyError col), st).
Proof.
  intros Hc Hi. unfold set_geometry, bind, ret, read.
  cbn -[__getitem__ setitem_m drop_m]. unfold table_of in *. rewrite Hc, Hi.
  unfold __getitem__, bind, read, lift. cbn.
  apply contains_false in Hc. apply named_nil in Hc.
  rewrite (super_getitem_raise _ _ (KeyError col)); [reflexivity|].
  unfold Pandas.getitem. unfold col_labels in Hc. rewrite Hc. reflexivity.
Qed.

(** ** Construction with a geometry sequence *)

Lemma set_geometry_sequence_inplace_eq self level drop st :
  length level = nrows (table_of st self) ->
  set_geometry self (ArgSeq level) drop true st =
  (Ok self,
   {| heap := <[_data self := setitem (table_of st self) (_geometry_column_name self) level]>
                (heap st);
      files := files st |}).
Proof.
  intros Hlen. unfold set_geometry, bind, ret. cbn -[setitem_m].
  rewrite setitem_m_unfold. unfold setitem_seq. unfold table_of in *.
  rewrite (bool_decide_eq_true_2 _ Hlen). reflexivity.
Qed.

(** X7. Constructing from fresh data with a raw sequence as [geometry],
    the sequence as long as the table: construction succeeds whether or
    not the data had a column called [geometry]; the new frame has the
    given CRS and the default geometry-column name, every column called
    [geometry] holds the sequence, and the other columns and the index are
    those of the data.  The storages that existed are untouched. *)
Theorem init_with_geometry_sequence
    (t : Table) (crs0 : crs_t) (level : list value) (st : State) :
  length level = nrows t ->
  exists st',
    __init__ (DataNew t) crs0 (Some (ArgSeq level)) st =
      (Ok {| _data := length (heap st); crs := crs0;
             _geometry_column_name := LStr "geometry" |}, st') /\
    (forall p, p ∈ named (LStr "geometry") (columns (table_at st' (length (heap st)))) ->
       p.2 = level) /\
    (forall c, c <> LStr "geometry" ->
       named c (columns (table_at st' (length (heap st)))) = named c (columns t)) /\
    index (table_at st' (length (heap st))) = index t /\
    (forall a, (a < length (heap st))%nat -> table_at st' a = table_at st a).
Proof.
  intros Hlen. unfold __init__, init_promote, init_table, bind, alloc, ret.
  cbn -[set_geometry init_check].
  set (self := {| _data := length (heap st); crs := crs0;
                  _geometry_column_name := default_geometry_column_name |}).
  set (st1 := {| heap := heap st ++ [t]; files := files st |}).
  assert (Ht : table_of st1 self = t) by apply table_at_alloc_new.
  rewrite (set_geometry_sequence_inplace_eq self level true st1) by (rewrite Ht; exact Hlen).
  rewrite Ht. cbn [_data self _geometry_column_name heap st1 files].
  set (t1 := setitem t default_geometry_column_name level).
  set (st2 := {| heap := <[length (heap st) := t1]> ((heap st ++ [t])%list);
               files := files st |}).
  assert (Ha : (length (heap st) < length (heap st ++ [t]))%nat)
    by (rewrite length_app; cbn; lia).
  assert (Ht1 : table_at st2 (length (heap st)) = t1)
    by (apply table_at_write_eq; exact Ha).
  assert (Hc : contains (table_of st2 self) (_geometry_column_name self) = true).
  { unfold table_of. cbn [_data self]. rewrite Ht1.
    apply contains_named. apply named_setitem_eq. }
  rewrite (init_check_ok self st2 Hc).
  exists st2. split; [reflexivity|]. rewrite Ht1.
  split; [intros p Hp; apply (named_setitem_eq t _ level) in Hp; subst p; reflexivity|].
  split; [intros c Hne; apply named_setitem_ne; exact Hne|].
  split; [apply index_setitem|].
  intros a Hlt. unfold table_at, st2. cbn [heap].
  rewrite list_lookup_total_insert_ne by lia.
  apply lookup_total_app_l. exact Hlt.
Qed.

(** ** Selecting rows *)

Lemma col_labels_mask bs cols :
  ((fun p : label * list value => (p.1, compress bs p.2)) <$> cols).*1 = cols.*1.
Proof. rewrite <- list_fmap_compose. reflexivity. Qed.

Lemma getitem_mask t bs :
  length bs = nrows t ->
  Pandas.getitem t (KMask bs) =
  Ok (PFrame {| columns := fmap (fun p => (p.1, compress bs p.2)) (columns t);
                index := compress bs (index t) |}).
Proof.
  intros Hlen. unfold Pandas.getitem. rewrite (bool_decide_eq_true_2 _ Hlen). reflexivity.
Qed.

(** X9. Selecting rows of a geo-table with a boolean vector as long as the
    table.  The selection is a table with the same column labels, built by
    the constructor: when a column is called [geometry] the result is a
    [GeoDataFrame] carrying the table's CRS, each column and the index
    reduced to the selected rows; when none is (the geometry column having
    another name) the constructor's [ValueError] is raised.  A vector of
    another length is refused.  The frame itself is not changed. *)
Theorem getitem_boolean_selection (self : Frame) (bs : list bool) (st : State) :
  contains (table_of st self) (_geometry_column_name self) = true ->
  (length bs = nrows (table_of st self) ->
   contains (table_of st self) (LStr "geometry") = true ->
     exists rt,
       __getitem__ self (KMask bs) st =
         (Ok {| sel_class := cGeoDataFrame; sel_obj := PFrame rt;
                sel_crs := Some (crs self) |}, st) /\
       col_labels rt = col_labels (table_of st self) /\
       index rt = compress bs (index (table_of st self)) /\
       forall c vs, (c, vs) ∈ columns (table_of st self) ->
                    (c, compress bs vs) ∈ columns rt) /\
  (length bs = nrows (table_of st self) ->
   contains (table_of st self) (LStr "geometry") = false ->
     __getitem__ self (KMask bs) st =
       (Raise (must_pass_geometry (LStr "geometry")), st)) /\
  (length bs <> nrows (table_of st self) ->
     exists msg, __getitem__ self (KMask bs) st = (Raise (ValueError msg), st)).
Proof.
  intros Hc. unfold table_of in *.
  assert (Hsame : forall rt c,
            col_labels rt = col_labels (table_at st (_data self)) ->
            contains rt c = contains (table_at st (_data self)) c).
  { intros rt c Hl. unfold contains. rewrite Hl. reflexivity. }
  split; [|split].
  - intros Hlen Hd. unfold __getitem__, bind, read, lift. cbn.
    rewrite (super_getitem_frame _ _ _ (getitem_mask _ _ Hlen)).
    set (rt := {| columns := _; index := _ |}).
    assert (Hl : col_labels rt = col_labels (table_at st (_data self)))
      by apply col_labels_mask.
    change default_geometry_column_name with (LStr "geometry").
    rewrite !(Hsame rt _ Hl), Hd. cbn. rewrite (Hsame rt _ Hl), Hc.
    exists rt. split; [reflexivity|]. split; [exact Hl|].
    split; [reflexivity|].
    intros c vs Hin. unfold rt. cbn.
    apply list_elem_of_fmap. exists (c, vs). auto.
  - intros Hlen Hd. unfold __getitem__, bind, read, lift. cbn.
    rewrite (super_getitem_frame _ _ _ (getitem_mask _ _ Hlen)).
    set (rt := {| columns := _; index := _ |}).
    assert (Hl : col_labels rt = col_labels (table_at st (_data self)))
      by apply col_labels_mask.
    change default_geometry_column_name with (LStr "geometry").
    rewrite (Hsame rt _ Hl), Hd. reflexivity.
  - intros Hlen. unfold __getitem__, bind, read, lift. cbn.
    rewrite (super_getitem_raise _ _ (ValueError "Item wrong length")).
    + eexists. reflexivity.
    + unfold Pandas.getitem. rewrite (bool_decide_eq_false_2 _ Hlen). reflexivity.
Qed.

(** ** The errors of the GeoJSON export *)

Lemma res_mapM_raise {A B} (f : A -> Res B) l e :
  res_mapM f l = Raise e -> exists x, x ∈ l /\ f x = Raise e.
Proof.
  induction l as [|x l IH]; cbn; [discriminate|].
  destruct (f x) as [y|e'] eqn:Ex; cbn.
  - destruct (res_mapM f l) as [ys|e'] eqn:El; cbn; [discriminate|].
    intros [= ->]. destruct (IH eq_refl) as (z & Hz & Hfz).
    exists z. split; [right; exact Hz | exact Hfz].
  - intros [= ->]. exists x. split; [left | exact Ex].
Qed.

Lemma feature_raise geo f i r e :
  feature geo f i r = Raise e ->
  e = KeyError geo \/ e = AttributeError "__geo_interface__".
Proof.
  unfold feature. destruct (row_getitem (f r) geo) as [cell|e'] eqn:Hg; cbn.
  - destruct cell as [v|vs]; [destruct v|]; cbn; try discriminate;
      intros [= <-]; right; reflexivity.
  - intros [= ->]. left.
    destruct (f r) as [s|d]; cbn in Hg.
    + unfold series_getitem in Hg.
      destruct (filter _ _) as [|[k v] [|q l]]; congruence.
    + destruct (d !! geo); congruence.
Qed.

Lemma dumps_feature_raise ft e :
  Json.dumps_feature ft = Raise e -> e = TypeError "is not JSON serializable".
Proof.
  unfold Json.dumps_feature, Json.dumps_properties.
  destruct (res_mapM _ (map_to_list (f_properties ft))) as [ms|e'] eqn:E; cbn;
    [discriminate|].
  intros [= ->]. apply res_mapM_raise in E as ([k v] & _ & Hv). cbn in Hv.
  destruct v; cbn in Hv; congruence.
Qed.

Lemma to_json_state self na st : snd (to_json self na st) = st.
Proof.
  unfold to_json. destruct (na_methods na); [|reflexivity].
  unfold bind, read, lift. destruct (res_mapM _ _); reflexivity.
Qed.

(** The errors of the export, by mode. *)
Lemma to_json_raise_cases (self : Frame) (na : string) (st : State) (e : exn) (st' : State) :
  to_json self na st = (Raise e, st') ->
  st' = st /\
  ((na <> "null" /\ na <> "drop" /\ na <> "keep" /\
    e = ValueError ("Unknown na method " +:+ na))
   \/
   ((na = "null" \/ na = "drop" \/ na = "keep") /\
    (e = KeyError (_geometry_column_name self) \/
     (exists msg, e = AttributeError msg) \/
     (exists msg, e = TypeError msg)))).
Proof.
  intros H. split.
  { pose proof (to_json_state self na st) as Hs. rewrite H in Hs. exact Hs. }
  unfold to_json in H. destruct (na_methods na) as [f|] eqn:Hf.
  - right. split.
    { apply na_methods_cases in Hf as [[-> _]|[[-> _]|[-> _]]]; auto. }
    unfold bind, read, lift in H.
    destruct (res_mapM _ (iterrows _)) as [feats|e'] eqn:E1.
    + unfold Json.dumps in H.
      destruct (res_mapM Json.dumps_feature feats) as [js|e'] eqn:E2; cbn in H;
        [discriminate|].
      injection H as <- _. apply res_mapM_raise in E2 as (ft & _ & Hft).
      right. right. rewrite (dumps_feature_raise _ _ Hft). eauto.
    + injection H as <- _. apply res_mapM_raise in E1 as ([i r] & _ & Hr).
      cbn in Hr. apply feature_raise in Hr as [->| ->]; eauto.
  - left. injection H as <- _. unfold na_methods in Hf.
    destruct (decide (na = "null")); [discriminate|].
    destruct (decide (na = "drop")); [discriminate|].
    destruct (decide (na = "keep")); [discriminate|]. auto.
Qed.

Lemma na_methods_unknown na :
  na <> "null" -> na <> "drop" -> na <> "keep" -> na_methods na = None.
Proof.
  intros H1 H2 H3. unfold na_methods.
  rewrite !decide_False by assumption. reflexivity.
Qed.

(** X10. The unknown-method error.  With a mode other than [null], [drop]
    and [keep], [to_json] raises the [ValueError] that names the mode,
    whatever the frame and its table (the table is not looked at), and the
    state is as before.  Conversely a call that ends in that error was
    given such a mode: with one of the three modes the export goes on to
    the rows. *)
Theorem to_json_unknown_method (self : Frame) (na : string) (st : State) :
  (na <> "null" /\ na <> "drop" /\ na <> "keep") <->
  to_json self na st = (Raise (ValueError ("Unknown na method " +:+ na)), st).
Proof.
  split.
  - intros (H1 & H2 & H3). unfold to_json.
    rewrite (na_methods_unknown _ H1 H2 H3). reflexivity.
  - intros H. apply to_json_raise_cases in H as [_ [(H1 & H2 & H3 & _)|[_ H]]].
    + auto.
    + destruct H as [H|[[msg H]|[msg H]]]; discriminate.
Qed.

(** X12. A geo-table with a cell in its geometry column that is not a
    geometry object (a missing geometry, say) is not exported under any
    mode: [to_json] raises, and returns no document. *)
Theorem to_json_needs_geometries
    (self : Frame) (na : string) (st : State) (i : nat) (lbl : label)
    (vs : list value) :
  named (_geometry_column_name self) (columns (table_of st self))
    = [(_geometry_column_name self, vs)] ->
  index (table_of st self) !! i = Some lbl ->
  ~ is_geometry (default VNaN (vs !! i)) ->
  exists e, to_json self na st = (Raise e, st).
Proof.
  intros Hcol Hi Hbad.
  destruct (to_json self na st) as [[doc|e] st'] eqn:E.
  - exfalso.
    destruct (to_json_row _ _ _ _ _ _ _ E Hi) as (f & g & ms & Hf & Hg & _ & _).
    destruct (row_getitem_geometry _ _ _ _ _ _ _ Hf Hg) as (vs' & Hin & Hvs').
    assert (Hn : (_geometry_column_name self, vs')
                   ∈ named (_geometry_column_name self) (columns (table_of st self)))
      by (apply elem_of_named; auto).
    rewrite Hcol in Hn. apply list_elem_of_singleton in Hn. injection Hn as ->.
    rewrite Hvs' in Hbad. apply Hbad. exact I.
  - pose proof (to_json_state self na st) as Hs. rewrite E in Hs. cbn in Hs. subst st'.
    exists e. reflexivity.
Qed.

(** ** Values that are present, and values that are not *)

Lemma fill_none_null_is_None s k v :
  fill_none s !! k = Some v -> isnull v = true -> v = VNone.
Proof.
  rewrite fill_none_lookup. destruct (decide _) as [Hin|Hni]; [congruence|].
  rewrite to_dict_lookup. destruct (last _) as [[k' v']|] eqn:E; [|discriminate].
  cbn. intros [= <-] Hnull. exfalso. apply Hni. apply last_elem_of in E.
  apply (list_elem_of_filter (fun kv => kv.1 = k)) in E as [E1 E2]. cbn in E1. subst k'.
  apply elem_of_na_keys. exists v'. auto.
Qed.

(** X19. The dictionary [fill_none] makes of a row has a key for each
    label of the row and no other; the value under a key is [None] exactly
    when some entry of the row under that label is missing, and otherwise
    it is an entry of the row under that label; so the dictionary holds no
    NaN. *)
Theorem fill_none_dictionary (row : SeriesData) (k : label) :
  (is_Some (fill_none row !! k) <-> exists v, (k, v) ∈ iteritems row) /\
  forall v, fill_none row !! k = Some v ->
    (v = VNone <-> exists v', (k, v') ∈ iteritems row /\ isnull v' = true) /\
    (v <> VNone -> (k, v) ∈ iteritems row) /\
    v <> VNaN.
Proof.
  split.
  - split.
    + intros [v Hv]. apply fill_none_lookup_Some in Hv. tauto.
    + intros [v Hv]. exact (fill_none_is_Some _ _ _ Hv).
  - intros v Hv. split; [|split].
    + split.
      * intros ->. rewrite fill_none_lookup in Hv.
        destruct (decide (k ∈ compress (series_isnull row) (s_index row)))
          as [Hk|Hk]; [apply elem_of_na_keys in Hk; exact Hk|].
        rewrite to_dict_lookup in Hv.
        destruct (last _) as [[k' v']|] eqn:E; [|discriminate].
        cbn in Hv. injection Hv as ->. apply last_elem_of in E.
        apply (list_elem_of_filter (fun kv => kv.1 = k)) in E as [E1 E2].
        cbn in E1. subst k'. exists VNone. auto.
      * intros Hex. rewrite fill_none_lookup in Hv.
        rewrite decide_True in Hv by (apply elem_of_na_keys; exact Hex). congruence.
    + intros Hne. apply fill_none_lookup_Some in Hv as [_ [->|Hin]];
        [contradiction | exact Hin].
    + intros ->. pose proof (fill_none_null_is_None _ _ _ Hv eq_refl). discriminate.
Qed.

Lemma to_json_null_present_row self st doc st' i lbl k vs v :
  to_json self "null" st = (Ok doc, st') ->
  index (table_of st self) !! i = Some lbl ->
  k <> _geometry_column_name self ->
  named k (columns (table_of st self)) = [(k, vs)] ->
  vs !! i = Some v -> isnull v = false ->
  exists ft j,
    features_of doc !! i = Some ft /\
    Json.dumps_value v = Ok j /\
    (str k, j) ∈ properties_members ft.
Proof.
  intros H Hi Hne Hk Hv Hnn.
  destruct (to_json_row _ _ _ _ _ _ _ H Hi) as (f & g & ms & Hf & _ & Hms & Hft).
  rewrite na_methods_null in Hf. injection Hf as <-. cbn [row_items] in Hms.
  destruct (cells_single_elem _ _ _ _ _ Hk Hv) as (Hc & _ & Huniq).
  assert (Hd : properties_of (map_to_list (fill_none (row (table_of st self) i lbl)))
                 (_geometry_column_name self) !! k = Some v).
  { rewrite properties_of_dict, decide_False by exact Hne.
    rewrite fill_none_lookup, decide_False.
    - rewrite to_dict_lookup, iteritems_row, Hc. reflexivity.
    - intros Hin. apply elem_of_na_keys in Hin as [v' [Hv' Hn]].
      fold (iteritems (row (table_of st self) i lbl)) in Hv'.
      rewrite iteritems_row in Hv'. rewrite (Huniq _ Hv') in Hn. congruence. }
  destruct (dumps_properties_entry _ _ _ _ Hms Hd) as (j & Hj & Hin).
  eexists _, j. rewrite properties_members_feature. eauto.
Qed.

(** X11. A value that is present goes into the document unchanged under
    every mode: on an exportable geo-table, for a non-geometry column whose
    label no other column bears and a row with a value there that is not
    missing, the row's properties hold the column's key with that value as
    the serialiser renders it. *)
Theorem to_json_present_values
    (self : Frame) (na : string) (st : State) (i : nat) (lbl k : label)
    (vs : list value) (v : value) :
  is_Some (na_methods na) ->
  json_exportable (table_of st self) (_geometry_column_name self) = true ->
  index (table_of st self) !! i = Some lbl ->
  k <> _geometry_column_name self ->
  named k (columns (table_of st self)) = [(k, vs)] ->
  vs !! i = Some v ->
  isnull v = false ->
  exists doc ft j,
    to_json self na st = (Ok doc, st) /\
    features_of doc !! i = Some ft /\
    Json.dumps_value v = Ok j /\
    (str k, j) ∈ properties_members ft.
Proof.
  intros [f Hf] Hx Hi Hne Hk Hv Hnn.
  destruct (to_json_total self na st f Hf Hx) as [doc Hdoc].
  apply na_methods_cases in Hf as [[-> _]|[[-> _]|[-> _]]].
  - destruct (to_json_null_present_row _ _ _ _ _ _ _ _ _ Hdoc Hi Hne Hk Hv Hnn)
      as (ft & j & H1 & H2 & H3). exists doc, ft, j. auto.
  - destruct (to_json_drop_other_row _ _ _ _ _ _ _ _ _ Hdoc Hi Hne Hk Hv Hnn)
      as (ft & j & H1 & H2 & H3). exists doc, ft, j. auto.
  - destruct (to_json_keep_row _ _ _ _ _ _ _ _ _ Hdoc Hi Hne Hk Hv)
      as (ft & j & H1 & H2 & H3). exists doc, ft, j. auto.
Qed.

Lemma to_json_feature_at self na st doc st' ft :
  to_json self na st = (Ok doc, st') ->
  ft ∈ features_of doc ->
  exists i lbl f ms g,
    index (table_of st self) !! i = Some lbl /\
    na_methods na = Some f /\
    Json.dumps_properties
      (properties_of (row_items (f (row (table_of st self) i lbl)))
                     (_geometry_column_name self)) = Ok (Json.JObj ms) /\
    ft = feature_json (str lbl) ms g.
Proof.
  intros H Hin. apply list_elem_of_lookup in Hin as [i Hi].
  pose proof (to_json_length _ _ _ _ _ H) as Hlen.
  apply lookup_lt_Some in Hi as Hlt. rewrite Hlen in Hlt.
  destruct (lookup_lt_is_Some_2 (index (table_of st self)) i Hlt) as [lbl Hl].
  destruct (to_json_row _ _ _ _ _ _ _ H Hl) as (f & g & ms & Hf & _ & Hms & Hft).
  exists i, lbl, f, ms, g. repeat split; try assumption. congruence.
Qed.

Lemma dumps_value_NaN v : Json.dumps_value v = Ok Json.JNaN -> v = VNaN.
Proof. destruct v; cbn; congruence. Qed.

Lemma dumps_value_null v : Json.dumps_value v = Ok Json.JNull -> v = VNone.
Proof. destruct v; cbn; congruence. Qed.

(** X20. The documents of the modes [null] and [drop] hold no [NaN] token
    among the properties of any feature; those of [drop] hold no [null]
    there either. *)
Theorem to_json_standard_tokens
    (self : Frame) (st : State) (doc : Json.json) (st' : State) :
  (to_json self "null" st = (Ok doc, st') ->
   forall ft s j, ft ∈ features_of doc -> (s, j) ∈ properties_members ft ->
                  j <> Json.JNaN) /\
  (to_json self "drop" st = (Ok doc, st') ->
   forall ft s j, ft ∈ features_of doc -> (s, j) ∈ properties_members ft ->
                  j <> Json.JNaN /\ j <> Json.JNull).
Proof.
  split; intros H ft s j Hft Hsj.
  - destruct (to_json_feature_at _ _ _ _ _ _ H Hft)
      as (i & lbl & f & ms & g & Hi & Hf & Hms & ->).
    rewrite na_methods_null in Hf. injection Hf as <-. cbn [row_items] in Hms.
    rewrite properties_members_feature in Hsj.
    destruct (dumps_properties_member _ _ _ _ Hms Hsj) as (c & w & Hd & _ & Hw).
    intros ->. apply dumps_value_NaN in Hw. subst w.
    apply properties_of_lookup_Some in Hd as [Hd _].
    apply elem_of_map_to_list in Hd.
    pose proof (fill_none_null_is_None _ _ _ Hd eq_refl). discriminate.
  - destruct (to_json_feature_at _ _ _ _ _ _ H Hft)
      as (i & lbl & f & ms & g & Hi & Hf & Hms & ->).
    rewrite na_methods_drop in Hf. injection Hf as <-. cbn [row_items] in Hms.
    rewrite iteritems_dropna in Hms.
    rewrite properties_members_feature in Hsj.
    destruct (dumps_properties_member _ _ _ _ Hms Hsj) as (c & w & Hd & _ & Hw).
    apply properties_of_lookup_Some in Hd as [Hd _].
    apply (list_elem_of_filter (fun kv => isnull kv.2 = false)) in Hd as [Hnn _].
    cbn in Hnn.
    split; intros ->;
      [apply dumps_value_NaN in Hw | apply dumps_value_null in Hw];
      subst w; discriminate.
Qed.

(** ** What the file export sends to the file library *)

Lemma state_eta st : {| heap := heap st; files := files st |} = st.
Proof. destruct st; reflexivity. Qed.


Lemma write_rows_log geo rows st :
  exists ws r,
    write_rows geo rows st =
      (r, {| heap := heap st; files := files st ++ (Fiona.Write <$> ws) |}) /\
    (length ws <= length rows)%nat /\
    (r = Ok tt <-> length ws = length rows).
Proof.
  revert st. induction rows as [|[i row] rows IH]; intros st.
  - exists [], (Ok tt). cbn. rewrite app_nil_r, state_eta. repeat split; lia.
  - cbn [write_rows]. unfold bind, lift, emit.
    destruct (feature geo RowSeries i row) as [ft|e].
    + destruct (IH {| heap := heap st; files := files st ++ [Fiona.Write ft] |})
        as (ws & r & -> & Hle & Hiff). cbn [heap files].
      exists (ft :: ws), r. rewrite fmap_cons, <- app_assoc. cbn [length].
      split; [reflexivity|]. split; [lia|]. rewrite Hiff. lia.
    + exists [], (Raise e). cbn. rewrite app_nil_r, state_eta.
      split; [reflexivity|]. split; [lia|]. split; [discriminate | lia].
Qed.

(** The schema [to_file] computes for a table. *)
Lemma to_file_cases
    (abspath_expanduser : string -> string) (self : Frame)
    (filename driver : string) (st : State) :
  exists r st',
    to_file abspath_expanduser self filename driver st = (r, st') /\
    heap st' = heap st /\
    ((files st' = files st /\ exists e, r = Raise e) \/
     exists gt ws,
       gt <> "" /\
       files st' = (files st ++
         Fiona.Open (abspath_expanduser filename) driver (crs self)
           {| Fiona.sch_geometry := gt;
              Fiona.sch_properties :=
                OrderedDict
                  (filter (fun ct => ct.1 <> _geometry_column_name self)
                     (zip (col_labels (table_of st self))
                        (convert_type <$> dtypes (table_of st self)))) |}
           :: (Fiona.Write <$> ws) ++ [Fiona.Close])%list /\
       (length ws <= nrows (table_of st self))%nat /\
       (r = Ok tt <-> length ws = nrows (table_of st self))).
Proof.
  unfold to_file, bind, read. fold (table_of st self).
  destruct (geometry self st) as [[g|e] st1] eqn:Hg;
    apply getitem_state_eq in Hg as Hst; subst st1;
    [|eexists _, _; split; [reflexivity|]; split; eauto].
  unfold lift. destruct (geom_type g) as [names|e];
    [|eexists _, _; split; [reflexivity|]; split; eauto].
  destruct (decide (String.rev (commonprefix (String.rev <$> unique names)) = ""))
    as [|Hgt];
    [unfold raise; eexists _, _; split; [reflexivity|]; split; eauto|].
  unfold with_open, bind, emit.
  destruct (write_rows_log (_geometry_column_name self)
              (iterrows (table_of st self))
              {| heap := heap st;
                 files := files st ++
                   [Fiona.Open (abspath_expanduser filename) driver (crs self)
                      {| Fiona.sch_geometry :=
                           String.rev (commonprefix (String.rev <$> unique names));
                         Fiona.sch_properties :=
                           OrderedDict
                             (filter (fun ct => ct.1 <> _geometry_column_name self)
                                (zip (col_labels (table_of st self))
                                   (convert_type <$> dtypes (table_of st self)))) |}] |})
    as (ws & r & -> & Hle & Hiff).
  cbn [heap files]. unfold iterrows in Hle, Hiff. rewrite length_imap in Hle, Hiff.
  eexists _, _. split; [reflexivity|]. cbn [heap files].
  split; [reflexivity|]. right. eexists _, ws.
  split; [exact Hgt|].
  split; [rewrite <- !app_assoc; reflexivity|]. split; [exact Hle | exact Hiff].
Qed.

(** X13. Whatever the table and the arguments, [to_file] leaves the heap
    alone and either sends nothing to the file library and raises, or
    sends one well-bracketed session: the collection is opened under the
    normalised file name with the driver and the frame's CRS, at most one
    record per row is written, and the collection is closed, also when
    writing a record fails; the call succeeds exactly when a record was
    written for every row. *)
Theorem to_file_session
    (abspath_expanduser : string -> string) (self : Frame)
    (filename driver : string) (st : State) :
  let '(r, st') := to_file abspath_expanduser self filename driver st in
  heap st' = heap st /\
  ((files st' = files st /\ exists e, r = Raise e) \/
   exists sch ws,
     files st' = (files st ++
       Fiona.Open (abspath_expanduser filename) driver (crs self) sch
         :: (Fiona.Write <$> ws) ++ [Fiona.Close])%list /\
     (length ws <= nrows (table_of st self))%nat /\
     (r = Ok tt <-> length ws = nrows (table_of st self))).
Proof.
  destruct (to_file_cases abspath_expanduser self filename driver st)
    as (r & st' & -> & Hh & [Hn | (gt & ws & _ & Hf & Hle & Hiff)]).
  - split; [exact Hh | left; exact Hn].
  - split; [exact Hh|]. right. eexists _, ws. eauto.
Qed.

(** X14. A geo-table without rows is not written: with no geometry there
    is no type name, the common suffix of none is empty, and [to_file]
    raises the mixed-types [ValueError] before anything is opened. *)
Theorem to_file_empty_table
    (abspath_expanduser : string -> string) (self : Frame)
    (filename driver : string) (st : State) (n : string) :
  _geometry_column_name self = LStr n ->
  named (LStr n) (columns (table_of st self)) = [(LStr n, [])] ->
  to_file abspath_expanduser self filename driver st = (Raise mixed_geometry_types, st).
Proof.
  intros Hn Hcol. unfold to_file, bind, read, lift.
  rewrite (geometry_single self st n [] Hn Hcol). reflexivity.
Qed.

(** *** The schema *)

Lemma ordered_put_keys k v d :
  (ordered_put k v d).*1 = if decide (k ∈ d.*1) then d.*1 else (d.*1 ++ [k])%list.
Proof.
  induction d as [|[k' v'] d IH]; cbn.
  - rewrite decide_False; [reflexivity | intros H; inversion H].
  - destruct (decide (k' = k)) as [->|Hne]; cbn.
    + rewrite decide_True by left. reflexivity.
    + rewrite IH. destruct (decide (k ∈ d.*1)) as [Hin|Hni].
      * rewrite decide_True by (right; exact Hin). reflexivity.
      * rewrite decide_False; [reflexivity|].
        intros H. apply elem_of_cons in H as [H|H]; [congruence | contradiction].
Qed.

Lemma ordered_put_elem k v d kv : kv ∈ ordered_put k v d -> kv = (k, v) \/ kv ∈ d.
Proof.
  induction d as [|[k' v'] d IH]; cbn.
  - intros H. apply list_elem_of_singleton in H. auto.
  - destruct (decide (k' = k)) as [->|Hne].
    + intros H. apply elem_of_cons in H as [H|H]; [auto | right; right; exact H].
    + intros H. apply elem_of_cons in H as [H|H]; [subst kv; right; left|].
      destruct (IH H) as [?|?]; [auto | right; right; assumption].
Qed.

(** An [OrderedDict] has each key of the pairs once, with a value paired
    with it. *)
Lemma OrderedDict_spec pairs :
  NoDup (OrderedDict pairs).*1 /\
  (forall k, k ∈ (OrderedDict pairs).*1 <-> k ∈ pairs.*1) /\
  (forall kv, kv ∈ OrderedDict pairs -> kv ∈ pairs).
Proof.
  unfold OrderedDict. induction pairs as [|[k v] pairs IH] using rev_ind.
  - cbn. split; [constructor|]. split; [intros k; reflexivity | intros kv H; exact H].
  - destruct IH as (Hnd & Hkeys & Hsub). rewrite foldl_snoc. cbn [fst snd].
    set (d := foldl _ [] pairs) in *.
    split; [|split].
    + rewrite ordered_put_keys. destruct (decide (k ∈ d.*1)); [exact Hnd|].
      apply NoDup_app. split; [exact Hnd|]. split.
      * intros x Hx Hx'. apply list_elem_of_singleton in Hx'. subst x. contradiction.
      * apply NoDup_singleton.
    + intros k'. rewrite ordered_put_keys, fmap_app, elem_of_app. cbn.
      rewrite list_elem_of_singleton.
      destruct (decide (k ∈ d.*1)) as [Hin|Hni].
      * rewrite Hkeys. split; [auto|]. intros [H| ->]; [exact H|].
        apply Hkeys. exact Hin.
      * rewrite elem_of_app, list_elem_of_singleton, Hkeys. reflexivity.
    + intros kv Hkv. apply elem_of_app. apply ordered_put_elem in Hkv as [->|Hkv].
      * right. left.
      * left. apply Hsub. exact Hkv.
Qed.

Lemma zip_labels_types t :
  zip (col_labels t) (convert_type <$> dtypes t) =
  (fun p => (p.1, convert_type (dtype_of p.2))) <$> columns t.
Proof.
  unfold col_labels, dtypes. rewrite <- list_fmap_compose. apply zip_fmap_same.
Qed.

(** X16. The schema [to_file] opens a file with: its geometry type is not
    empty, and its properties list each column label other than the
    geometry-column name exactly once, and never the geometry-column
    name. *)
Theorem to_file_schema
    (abspath_expanduser : string -> string) (self : Frame)
    (filename driver : string) (st : State)
    (f d : string) (c : crs_t) (sch : Fiona.Schema) :
  Fiona.Open f d c sch ∈ files (snd (to_file abspath_expanduser self filename driver st)) ->
  Fiona.Open f d c sch ∈ files st \/
  (Fiona.sch_geometry sch <> "" /\
   NoDup (Fiona.sch_properties sch).*1 /\
   (forall k, k ∈ (Fiona.sch_properties sch).*1 <->
              k ∈ col_labels (table_of st self) /\ k <> _geometry_column_name self)).
Proof.
  destruct (to_file_cases abspath_expanduser self filename driver st)
    as (r & st' & -> & Hh & [[Hf _] | (gt & ws & Hgt & Hf & _ & _)]); cbn [snd].
  - rewrite Hf. auto.
  - rewrite Hf. intros Hin. apply elem_of_app in Hin as [Hin|Hin]; [left; exact Hin|].
    right. apply elem_of_cons in Hin as [Heq|Hin].
    + injection Heq as _ _ _ ->. cbn [Fiona.sch_geometry Fiona.sch_properties].
      set (pairs := filter _ _).
      destruct (OrderedDict_spec pairs) as (Hnd & Hkeys & Hsub).
      assert (Hp : forall k ty, (k, ty) ∈ pairs <->
                  k <> _geometry_column_name self /\
                  exists vs, (k, vs) ∈ columns (table_of st self) /\
                             ty = convert_type (dtype_of vs)).
      { intros k ty. unfold pairs.
        rewrite (list_elem_of_filter (fun ct => ct.1 <> _geometry_column_name self)).
        rewrite zip_labels_types, list_elem_of_fmap. cbn. split.
        - intros [Hne [[k' vs] [[= -> ->] Hvs]]]. split; [exact Hne|]. eauto.
        - intros [Hne [vs [Hvs ->]]]. split; [exact Hne|]. exists (k, vs). auto. }
      split; [exact Hgt|]. split; [exact Hnd|].
      intros k. rewrite Hkeys. rewrite list_elem_of_fmap. split.
      * intros [[k' ty] [-> Hkt]]. apply Hp in Hkt as [Hne [vs [Hvs _]]].
        split; [|exact Hne]. unfold col_labels. apply list_elem_of_fmap.
        exists (k', vs). auto.
      * intros [Hk Hne]. unfold col_labels in Hk.
        apply list_elem_of_fmap in Hk as [[k' vs] [-> Hvs]].
        exists (k', convert_type (dtype_of vs)). split; [reflexivity|].
        apply Hp. eauto.
    + exfalso. apply elem_of_app in Hin as [Hin|Hin].
      * apply list_elem_of_fmap in Hin as [ft [Hft _]]. discriminate.
      * apply list_elem_of_singleton in Hin. discriminate.
Qed.

(** *** A table of one geometry type *)





(** ** More on column selection and on sequences *)

(** X17. Selecting by a label other than the string geometry-column name:
    a label no column bears raises [KeyError]; a label one column bears
    gives a plain [Series] of that column's values over the table's index,
    with no CRS attached.  The frame is not changed. *)
Theorem getitem_other_label (self : Frame) (c : label) (st : State) :
  key_is_geometry (KLabel c) (_geometry_column_name self) = false ->
  (contains (table_of st self) c = false ->
     __getitem__ self (KLabel c) st = (Raise (KeyError c), st)) /\
  (forall vs, named c (columns (table_of st self)) = [(c, vs)] ->
     __getitem__ self (KLabel c) st =
     (Ok {| sel_class := cSeries;
            sel_obj := PSeries {| s_name := Some c;
                                  s_index := index (table_of st self);
                                  s_values := vs |};
            sel_crs := None |}, st)).
Proof.
  intros Hk. unfold table_of. split.
  - intros Hc. apply contains_false in Hc. apply named_nil in Hc.
    unfold __getitem__, bind, read, lift. cbn -[key_is_geometry].
    rewrite (super_getitem_raise _ _ (KeyError c)); [reflexivity|].
    unfold Pandas.getitem. unfold col_labels in Hc. rewrite Hc. reflexivity.
  - intros vs H. unfold __getitem__, bind, read, lift. cbn -[key_is_geometry].
    rewrite (super_getitem_single _ _ _ H), Hk. reflexivity.
Qed.

(** X18. [set_geometry] with a raw sequence as long as the table, without
    [inplace], on a table that has a column called [geometry]: the frame
    returned is a new one, in storage of its own, with the CRS and the
    geometry-column name of the original, and its table is the original's
    with the sequence assigned to the geometry column; the original's
    storage is as before. *)
Theorem set_geometry_sequence_returns_new
    (self : Frame) (level : list value) (drop : bool) (st : State) :
  allocated st self ->
  contains (table_of st self) (LStr "geometry") = true ->
  length level = nrows (table_of st self) ->
  set_geometry self (ArgSeq level) drop false st =
  (Ok {| _data := length (heap st); crs := crs self;
         _geometry_column_name := _geometry_column_name self |},
   {| heap := heap st ++
        [setitem (table_of st self) (_geometry_column_name self) level];
      files := files st |}).
Proof.
  intros Ha Hg Hlen. rewrite (set_geometry_copy_then_inplace _ _ _ _ Ha).
  unfold bind. rewrite copy_deep_cases.
  change default_geometry_column_name with (LStr "geometry"). rewrite Hg.
  rewrite set_geometry_sequence_inplace_eq;
    unfold table_of; cbn [_data]; rewrite table_at_alloc_new; [|exact Hlen].
  cbn [heap files _geometry_column_name]. f_equal. f_equal.
  rewrite insert_app_r_alt by lia. rewrite Nat.sub_diag. reflexivity.
Qed.

(** ** Copies of tables with a [geometry] column *)

(** X8. On a geo-table that has a column called [geometry], [copy] returns
    a frame with the CRS and the geometry-column name of the original over
    an equal table, whatever the geometry-column name is, and leaves the
    original as it was.  A deep copy is in storage allocated by the call,
    so that a later write through the copy does not reach the original; a
    shallow copy is over the original's storage. *)
Theorem copy_with_default_column (self : Frame) (deep : bool) (st : State) :
  allocated st self ->
  contains (table_of st self) (LStr "geometry") = true ->
  exists new st',
    copy self deep st = (Ok new, st') /\
    crs new = crs self /\
    _geometry_column_name new = _geometry_column_name self /\
    table_of st' new = table_of st self /\
    table_of st' self = table_of st self /\
    files st' = files st /\
    (deep = true ->
       _data new = length (heap st) /\
       forall t, table_of (snd (write (_data new) t st')) self = table_of st self) /\
    (deep = false -> _data new = _data self /\ st' = st).
Proof.
  intros Ha Hg.
  destruct (copy_preserves_metadata self deep st Ha Hg)
    as (new & st' & Hc & H1 & H2 & H3 & H4 & H5).
  exists new, st'.
  split; [exact Hc|]. split; [exact H1|]. split; [exact H2|].
  split; [exact H3|]. split; [exact H4|].
  destruct deep.
  - rewrite copy_deep_ok in Hc by exact Hg. injection Hc as <- <-.
    split; [reflexivity|]. split; [|discriminate].
    intros _. split; [reflexivity|]. apply H5. reflexivity.
  - rewrite copy_shallow_ok in Hc by exact Hg. injection Hc as <- <-.
    split; [reflexivity|]. split; [discriminate|]. intros _. split; reflexivity.
Qed.

(** ** The further properties on the sample tables *)

Lemma set_geometry_leaves_original_witness :
  let '(r, st') :=
    set_geometry Samples.boros_frame (ArgCol (LStr "simplified_geometry")) true false
                 Samples.boros_state in
  table_of st' Samples.boros_frame = table_of Samples.boros_state Samples.boros_frame /\
  (forall a, (a < length (heap Samples.boros_state))%nat ->
             table_at st' a = table_at Samples.boros_state a) /\
  files st' = files Samples.boros_state /\
  match r with
  | Ok frame => _data frame = length (heap Samples.boros_state)
  | Raise _ => True
  end.
Proof.
  apply (set_geometry_leaves_original Samples.boros_frame
           (ArgCol (LStr "simplified_geometry")) true Samples.boros_state).
  unfold allocated. cbn. lia.
Defined.

Lemma set_geometry_sequence_read_back_witness :
  exists st',
    set_geometry Samples.located_frame
                 (ArgSeq [Samples.point 3 3; Samples.point 4 4]) true true
                 Samples.located_state = (Ok Samples.located_frame, st') /\
    geometry Samples.located_frame st' =
      (Ok {| sel_class := cGeoSeries;
             sel_obj := PSeries {| s_name := Some (LStr "location");
                                   s_index := [LInt 0; LInt 1];
                                   s_values := [Samples.point 3 3; Samples.point 4 4] |};
             sel_crs := Some Samples.epsg4326 |}, st').
Proof.
  destruct (set_geometry_sequence_read_back Samples.located_frame
              [Samples.point 3 3; Samples.point 4 4] true Samples.located_state)
    as (st' & H1 & _ & _ & _ & _ & _ & H7).
  - unfold allocated. cbn. lia.
  - reflexivity.
  - exists st'. split; [exact H1|]. apply (H7 "location"); [reflexivity|].
    vm_compute. lia.
Defined.

Lemma set_geometry_nodrop_returns_copy_of_witness :
  set_geometry Samples.boros_frame (ArgCol (LStr "simplified_geometry")) false false
               Samples.boros_state
  = (Ok {| _data := 1; crs := Samples.epsg4326;
           _geometry_column_name := LStr "simplified_geometry" |},
     {| heap := [Samples.boros; Samples.boros]; files := [] |}).
Proof.
  apply (set_geometry_nodrop_returns_copy_of Samples.boros_frame
           (LStr "simplified_geometry") Samples.boros_state
           [Samples.point 5 5; Samples.point 6 6]).
  - unfold allocated. cbn. lia.
  - vm_compute. reflexivity.
  - vm_compute. reflexivity.
Defined.


Lemma set_geometry_by_position_witness :
  set_geometry Samples.boros_frame (ArgCol (LInt 1)) false true Samples.boros_state
  = set_geometry Samples.boros_frame (ArgCol (LStr "simplified_geometry")) false true
                 Samples.boros_state.
Proof.
  apply (set_geometry_by_position Samples.boros_frame (LInt 1)
           (LStr "simplified_geometry") false true Samples.boros_state).
  - unfold allocated. cbn. lia.
  - vm_compute. reflexivity.
  - vm_compute. reflexivity.
Defined.

Lemma set_geometry_unknown_reference_witness :
  set_geometry Samples.boros_frame (ArgCol (LStr "nowhere")) true true Samples.boros_state
  = (Raise (KeyError (LStr "nowhere")), Samples.boros_state).
Proof.
  apply (set_geometry_unknown_reference Samples.boros_frame (LStr "nowhere") true
           Samples.boros_state).
  - vm_compute. reflexivity.
  - vm_compute. reflexivity.
Defined.

Lemma init_with_geometry_sequence_witness :
  exists st',
    __init__ (DataNew Samples.located) Samples.epsg4326
             (Some (ArgSeq [Samples.point 3 3; Samples.point 4 4])) Samples.no_state =
      (Ok {| _data := 0; crs := Samples.epsg4326;
             _geometry_column_name := LStr "geometry" |}, st') /\
    index (table_at st' 0) = [LInt 0; LInt 1].
Proof.
  destruct (init_with_geometry_sequence Samples.located Samples.epsg4326
              [Samples.point 3 3; Samples.point 4 4] Samples.no_state)
    as (st' & H1 & _ & _ & H4 & _).
  - reflexivity.
  - exists st'. split; [exact H1 | exact H4].
Defined.

Lemma copy_with_default_column_witness :
  exists new st',
    copy Samples.boros_frame true Samples.boros_state = (Ok new, st') /\
    crs new = Samples.epsg4326 /\
    _geometry_column_name new = LStr "geometry" /\
    table_of st' new = Samples.boros.
Proof.
  destruct (copy_with_default_column Samples.boros_frame true Samples.boros_state)
    as (new & st' & H1 & H2 & H3 & H4 & _).
  - unfold allocated. cbn. lia.
  - vm_compute. reflexivity.
  - exists new, st'. repeat split; assumption.
Defined.

Lemma getitem_boolean_selection_witness :
  exists rt,
    __getitem__ Samples.plain_frame (KMask [false; false; true; false; true])
                (Samples.state_of Samples.five_rows) =
      (Ok {| sel_class := cGeoDataFrame; sel_obj := PFrame rt; sel_crs := Some None |},
       Samples.state_of Samples.five_rows) /\
    index rt = [LInt 2; LInt 4].
Proof.
  destruct (getitem_boolean_selection Samples.plain_frame
              [false; false; true; false; true] (Samples.state_of Samples.five_rows))
    as [H _].
  - vm_compute. reflexivity.
  - destruct H as (rt & H1 & _ & H3 & _); [reflexivity|vm_compute; reflexivity|].
    exists rt. split; [exact H1 | exact H3].
Defined.

(** A misspelt mode, on a frame that has no storage at all. *)
Example to_json_misspelt_mode :
  to_json Samples.boros_frame "nul" Samples.no_state
  = (Raise (ValueError "Unknown na method nul"), Samples.no_state).
Proof. vm_compute. reflexivity. Qed.

Lemma to_json_needs_geometries_witness :
  exists e,
    to_json Samples.plain_frame "drop" (Samples.state_of Samples.missing_geometry)
    = (Raise e, Samples.state_of Samples.missing_geometry).
Proof.
  apply (to_json_needs_geometries Samples.plain_frame "drop"
           (Samples.state_of Samples.missing_geometry) 1%nat (LInt 1)
           [Samples.point 0 0; VNone]).
  - vm_compute. reflexivity.
  - reflexivity.
  - cbn. intros H. exact H.
Defined.

Lemma fill_none_dictionary_witness :
  is_Some (fill_none (row Samples.nybb 0 (LInt 0)) !! LStr "Shape_Area").
Proof.
  apply (proj1 (fill_none_dictionary (row Samples.nybb 0 (LInt 0)) (LStr "Shape_Area"))).
  exists VNaN. compute_done.
Defined.

Lemma to_json_present_values_witness :
  exists doc ft j,
    to_json Samples.plain_frame "drop" (Samples.state_of Samples.nybb)
      = (Ok doc, Samples.state_of Samples.nybb) /\
    features_of doc !! 1%nat = Some ft /\
    Json.dumps_value (VInt 42) = Ok j /\
    ("Shape_Area", j) ∈ properties_members ft.
Proof.
  apply (to_json_present_values Samples.plain_frame "drop"
           (Samples.state_of Samples.nybb) 1%nat (LInt 1) (LStr "Shape_Area")
           [VNaN; VInt 42] (VInt 42)).
  - eexists. reflexivity.
  - vm_compute. reflexivity.
  - reflexivity.
  - discriminate.
  - vm_compute. reflexivity.
  - reflexivity.
  - reflexivity.
Defined.

Lemma to_json_standard_tokens_witness :
  exists doc,
    to_json Samples.plain_frame "null" (Samples.state_of Samples.nybb)
      = (Ok doc, Samples.state_of Samples.nybb) /\
    forall ft s j, ft ∈ features_of doc -> (s, j) ∈ properties_members ft ->
                   j <> Json.JNaN.
Proof.
  eexists. split; [vm_compute; reflexivity|].
  apply (proj1 (to_json_standard_tokens Samples.plain_frame
                  (Samples.state_of Samples.nybb) _ (Samples.state_of Samples.nybb))).
  vm_compute. reflexivity.
Defined.

Lemma to_file_empty_table_witness :
  to_file (fun f => f) Samples.plain_frame "empty.shp" "ESRI Shapefile"
          (Samples.state_of Samples.no_rows)
  = (Raise mixed_geometry_types, Samples.state_of Samples.no_rows).
Proof.
  apply (to_file_empty_table (fun f => f) Samples.plain_frame "empty.shp"
           "ESRI Shapefile" (Samples.state_of Samples.no_rows) "geometry").
  - reflexivity.
  - vm_compute. reflexivity.
Defined.


Lemma to_file_schema_witness :
  Fiona.sch_geometry {| Fiona.sch_geometry := "Point";
                        Fiona.sch_properties := [(LStr "BoroName", "str")] |} <> "".
Proof.
  destruct (to_file_schema (fun f => f) Samples.plain_frame "boros.shp"
              "ESRI Shapefile" (Samples.state_of Samples.rows_2_and_4)
              "boros.shp" "ESRI Shapefile" None
              {| Fiona.sch_geometry := "Point";
                 Fiona.sch_properties := [(LStr "BoroName", "str")] |})
    as [H | (H & _)].
  - vm_compute. left.
  - cbn in H. inversion H.
  - exact H.
Defined.

Lemma getitem_other_label_witness :
  __getitem__ Samples.boros_frame (KLabel (LStr "BoroName")) Samples.boros_state =
  (Ok {| sel_class := cSeries;
         sel_obj := PSeries {| s_name := Some (LStr "BoroName");
                               s_index := [LInt 0; LInt 1];
                               s_values := [VStr "Queens"; VStr "Bronx"] |};
         sel_crs := None |}, Samples.boros_state).
Proof.
  destruct (getitem_other_label Samples.boros_frame (LStr "BoroName")
              Samples.boros_state) as [_ H].
  - reflexivity.
  - apply (H [VStr "Queens"; VStr "Bronx"]). vm_compute. reflexivity.
Defined.

Lemma set_geometry_sequence_returns_new_witness :
  set_geometry Samples.boros_frame (ArgSeq [Samples.point 3 3; Samples.point 4 4])
               true false Samples.boros_state
  = (Ok {| _data := 1; crs := Samples.epsg4326;
           _geometry_column_name := LStr "geometry" |},
     {| heap := [Samples.boros;
                 setitem Samples.boros (LStr "geometry")
                         [Samples.point 3 3; Samples.point 4 4]];
        files := [] |}).
Proof.
  apply (set_geometry_sequence_returns_new Samples.boros_frame
           [Samples.point 3 3; Samples.point 4 4] true Samples.boros_state).
  - unfold allocated. cbn. lia.
  - vm_compute. reflexivity.
  - reflexivity.
Defined.
